(** * Student Management System: a shallow embedding of [server.js]

    The development follows the serverless version of the server (the one
    with the process-wide connection cache).  The document store is an
    in-memory pair of collections, each a list of documents in natural
    order; handlers are written in a small state-and-exception monad over
    that store, one definition per Express route.

    Modelling conventions:
    - JavaScript strings are [string]; one [ascii] value stands for one
      character (text outside ASCII is not modelled).
    - Counts returned by the store are [nat]; where the source does
      arithmetic on them as JavaScript numbers they are converted to
      IEEE-754 binary64 values ([PrimFloat]).
    - [formatUptime] works on whole numbers of seconds after its first
      statement; that arithmetic is exact in binary64 below 2^53 and is
      written over [Z].
    - Behaviour of the libraries that the repository only calls (the
      ObjectId cast of the driver, the regular-expression engine of the
      store beyond a small fragment) is a parameter of the model. *)

From Stdlib Require Import Reals Lra.
From Stdlib Require Import ZArith QArith Qround Lqa Floats Uint63.
From Stdlib Require Import Ascii String DecimalString.
From stdpp Require Import base list strings gmap fin_maps sorting.

Open Scope Z_scope.

(** ** JavaScript numbers and strings *)

(** [String(n)] for an integer-valued number (below 1e21): decimal digits,
    with a leading minus sign for negative values. *)
Definition toString (n : Z) : string := NilZero.string_of_int (Z.to_int n).

(** [parts.join(sep)]. *)
Fixpoint join (sep : string) (parts : list string) : string :=
  match parts with
  | [] => EmptyString
  | [p] => p
  | p :: rest => p +:+ sep +:+ join sep rest
  end.

(** A count as a JavaScript number. *)
Definition number_of_nat (n : nat) : float :=
  PrimFloat.of_uint63 (Uint63.of_Z (Z.of_nat n)).

(** [Math.round(x)] for a finite [x]: the integer nearest to [x], halves
    going up, that is floor(x + 1/2) computed exactly.  Zeros give 0; NaN
    and the infinities have no integer value and map to 0 here (the source
    never rounds them: the divisor is positive and both counts are finite). *)
Definition Math_round (x : float) : Z :=
  match Prim2SF x with
  | S754_finite s m e =>
      let v := if s then Z.neg m else Z.pos m in
      if 0 <=? e then v * 2 ^ e
      else (2 * v + 2 ^ (- e)) / 2 ^ (1 - e)
  | _ => 0
  end.

(** ** [formatUptime] *)

Definition formatUptime (seconds : Q) : string :=
  let seconds := Qfloor seconds in
  let days := seconds / 86400 in
  let seconds := Z.rem seconds 86400 in
  let hours := seconds / 3600 in
  let seconds := Z.rem seconds 3600 in
  let minutes := seconds / 60 in
  let remainingSeconds := Z.rem seconds 60 in
  let parts := [] in
  let parts := if 0 <? days then parts ++ [toString days +:+ "d"] else parts in
  let parts := if 0 <? hours then parts ++ [toString hours +:+ "h"] else parts in
  let parts := if 0 <? minutes then parts ++ [toString minutes +:+ "m"] else parts in
  let parts :=
    if (length parts =? 0)%nat || (0 <? remainingSeconds)
    then parts ++ [toString remainingSeconds +:+ "s"] else parts in
  join " " parts.

(** The rendering rule in the words of the specification: the day, hour and
    minute parts appear when they are not zero, the seconds part appears when
    it is not zero or when all the other parts are zero. *)
Definition uptime_parts (d h m s : Z) : list string :=
  (if d =? 0 then [] else [toString d +:+ "d"]) ++
  (if h =? 0 then [] else [toString h +:+ "h"]) ++
  (if m =? 0 then [] else [toString m +:+ "m"]) ++
  (if negb (s =? 0) || ((d =? 0) && (h =? 0) && (m =? 0))
   then [toString s +:+ "s"] else []).

(** ** The connection cache: [connectDB] and [ensureDbConnection] *)

(** Connection handles and connection errors are opaque tokens. *)
Definition handle := nat.
Definition conn_error := string.

(** A promise that has settled.  Calls to [connectDB] are taken one after
    the other, each awaited to completion, so a promise found in the cache
    by a later call has always settled. *)
Inductive settled :=
| Fulfilled (h : handle)
| Rejected (e : conn_error).

(** [global.mongoose = { conn, promise }], together with the number of
    calls made to [mongoose.connect] so far. *)
Record cache := Cache {
  conn : option handle;
  promise : option settled;
  attempts : nat
}.

Definition cache_init : cache := Cache None None 0.

Inductive completion (A : Type) :=
| Return (a : A)
| Throw (e : conn_error).
Arguments Return {A} a.
Arguments Throw {A} e.

Definition MONGO_URI_missing : conn_error :=
  "MONGO_URI is not defined in environment variables.".

(** JavaScript falsiness of [process.env.MONGO_URI]: undefined or empty. *)
Definition falsy (v : option string) : bool :=
  match v with
  | None => true
  | Some s => if decide (s = EmptyString) then true else false
  end.

Section Connection.
(** [atlasURI], and the outcome of the k-th call to [mongoose.connect]
    (numbered from 0), which is decided by the network. *)
Variable atlasURI : option string.
Variable connect : nat -> settled.

(** [cached.conn = await cached.promise; return cached.conn], where [p] is
    the promise held in [cached.promise]. *)
Definition await_and_store (c : cache) (p : settled)
  : completion handle * cache :=
  match p with
  | Fulfilled h => (Return h, Cache (Some h) (promise c) (attempts c))
  | Rejected e => (Throw e, c)
  end.

Definition connectDB (c : cache) : completion handle * cache :=
  match conn c with
  | Some h => (Return h, c)
  | None =>
      match promise c with
      | None =>
          if falsy atlasURI then (Throw MONGO_URI_missing, c)
          else
            let p := connect (attempts c) in
            await_and_store (Cache (conn c) (Some p) (S (attempts c))) p
      | Some p => await_and_store c p
      end
  end.

(** The middleware mounted on [/api]: [None] stands for [next()], a
    status stands for the response sent instead of running the route. *)
Definition ensureDbConnection (c : cache) : option nat * cache :=
  match connectDB c with
  | (Return _, c') => (None, c')
  | (Throw _, c') => (Some 503%nat, c')
  end.

(** The middleware run for a sequence of [n] requests. *)
Fixpoint serve (n : nat) (c : cache) : list (option nat) * cache :=
  match n with
  | O => ([], c)
  | S n' =>
      let '(r, c1) := ensureDbConnection c in
      let '(rs, c2) := serve n' c1 in
      (r :: rs, c2)
  end.
End Connection.

(** A network on which the first connection attempt fails and every later
    one would succeed. *)
Definition flaky_once (k : nat) : settled :=
  match k with
  | O => Rejected "connect ETIMEDOUT"
  | S _ => Fulfilled 7%nat
  end.

(** ** Documents *)

(** The store's identifier type: a 12-byte value. *)
Definition ObjectId := N.

(** [studentSchema]: a stored student, and the fields a request body may
    carry (already of the declared types). *)
Module studentSchema.
Record doc := Doc {
  _id : ObjectId;
  name : string;
  email : string;
  course : string;
  enrollmentDate : Z;
  status : string;
  createdAt : Z;
  updatedAt : Z
}.

Record input := Input {
  in_name : option string;
  in_email : option string;
  in_course : option string;
  in_enrollmentDate : option Z;
  in_status : option string
}.
End studentSchema.

(** [courseSchema]. *)
Module courseSchema.
Record doc := Doc {
  _id : ObjectId;
  name : string;
  description : string;
  duration : Z;
  status : string;
  createdAt : Z;
  updatedAt : Z
}.

Record input := Input {
  in_name : option string;
  in_description : option string;
  in_duration : option Z;
  in_status : option string
}.
End courseSchema.

Global Instance student_eq_dec : EqDecision studentSchema.doc.
Proof. solve_decision. Defined.
Global Instance course_eq_dec : EqDecision courseSchema.doc.
Proof. solve_decision. Defined.

(** ** The store and the handler monad *)

Inductive error :=
| CastError (value : string)            (* Cast to ObjectId failed *)
| ValidationError (paths : list string) (* required / enum validators *)
| DuplicateKeyError (path : string)     (* E11000 duplicate key *)
| RegexError (pattern : string).        (* the store rejects the pattern *)

(** A round trip to the store, as recorded in the trace. *)
Inductive store_op :=
| StudentOp (method : string)
| CourseOp (method : string).

Record world := World {
  students : list studentSchema.doc;
  courses : list courseSchema.doc;
  trace : list store_op
}.

Inductive result (A : Type) :=
| Ok (a : A)
| Err (e : error).
Arguments Ok {A} a.
Arguments Err {A} e.

Definition M (A : Type) : Type := world -> result A * world.

Global Instance M_ret : MRet M := fun A a w => (Ok a, w).
Global Instance M_bind : MBind M := fun A B f m w =>
  match m w with
  | (Ok a, w') => f a w'
  | (Err e, w') => (Err e, w')
  end.

Definition throw {A} (e : error) : M A := fun w => (Err e, w).

Definition try_catch {A} (body : M A) (handler : error -> M A) : M A :=
  fun w =>
    match body w with
    | (Ok a, w') => (Ok a, w')
    | (Err e, w') => handler e w'
    end.

Definition query (op : store_op) : M unit :=
  fun w => (Ok tt, World (students w) (courses w) (trace w ++ [op])).

Definition get_students : M (list studentSchema.doc) :=
  fun w => (Ok (students w), w).
Definition get_courses : M (list courseSchema.doc) :=
  fun w => (Ok (courses w), w).
Definition put_students (l : list studentSchema.doc) : M unit :=
  fun w => (Ok tt, World l (courses w) (trace w)).
Definition put_courses (l : list courseSchema.doc) : M unit :=
  fun w => (Ok tt, World (students w) l (trace w)).

(** *** Collections: documents addressed by [_id] *)

Section Collection.
Context {D : Type} (key : D -> ObjectId).

Fixpoint find_by (oid : ObjectId) (l : list D) : option D :=
  match l with
  | [] => None
  | d :: rest => if decide (key d = oid) then Some d else find_by oid rest
  end.

(** Removes the first document with the given identifier. *)
Fixpoint delete_by (oid : ObjectId) (l : list D) : list D :=
  match l with
  | [] => []
  | d :: rest =>
      if decide (key d = oid) then rest else d :: delete_by oid rest
  end.

(** Replaces the first document with the given identifier. *)
Fixpoint replace_by (oid : ObjectId) (d' : D) (l : list D) : list D :=
  match l with
  | [] => []
  | d :: rest =>
      if decide (key d = oid) then d' :: rest
      else d :: replace_by oid d' rest
  end.
End Collection.

(** *** Regular expressions: the modelled fragment *)

(** A pattern of the fragment is a sequence of ordinary characters and
    dots.  Anything that uses another metacharacter is left to the engine
    (see [Driver]). *)
Inductive atom :=
| Lit (c : ascii)
| AnyChar.

Definition is_meta (c : ascii) : bool :=
  bool_decide (c ∈ list_ascii_of_string "\^$.[]|()?*+{}").

Definition compile_char (c : ascii) : option atom :=
  if decide (c = "."%char) then Some AnyChar
  else if is_meta c then None
  else Some (Lit c).

Fixpoint compile (p : string) : option (list atom) :=
  match p with
  | EmptyString => Some []
  | String c rest =>
      match compile_char c, compile rest with
      | Some a, Some atoms => Some (a :: atoms)
      | _, _ => None
      end
  end.

(** Case folding of the option [i] on ASCII letters. *)
Definition to_lower (c : ascii) : ascii :=
  let n := nat_of_ascii c in
  if ((65 <=? n) && (n <=? 90))%nat then ascii_of_nat (n + 32) else c.

Fixpoint lower (s : string) : string :=
  match s with
  | EmptyString => EmptyString
  | String c rest => String (to_lower c) (lower rest)
  end.

Definition newline : ascii := ascii_of_nat 10.

Definition atom_matches (a : atom) (c : ascii) : bool :=
  match a with
  | Lit x => bool_decide (to_lower x = to_lower c)
  | AnyChar => negb (bool_decide (c = newline))
  end.

Fixpoint match_here (p : list atom) (s : string) : bool :=
  match p, s with
  | [], _ => true
  | _ :: _, EmptyString => false
  | a :: p', String c s' => atom_matches a c && match_here p' s'
  end.

(** An unanchored pattern matches when it matches at some offset. *)
Fixpoint match_anywhere (p : list atom) (s : string) : bool :=
  match_here p s ||
  match s with
  | EmptyString => false
  | String _ s' => match_anywhere p s'
  end.

(** *** The parts of the driver that are taken as given

    [castObjectId] is the driver's conversion of a route parameter to an
    identifier ([None] when the string is not identifier-shaped);
    [regex_beyond] is the engine's verdict on a pattern outside the
    fragment above ([None] when the store rejects the pattern). *)
Class Driver := {
  castObjectId : string -> option ObjectId;
  regex_beyond : string -> option (string -> bool)
}.

(** [mongoose.Types.ObjectId.isValid]: the strings the driver can cast. *)
Definition isValid `{Driver} (id : string) : bool :=
  bool_decide (is_Some (castObjectId id)).

(** [{ $regex: q, $options: "i" }] as a test on a field. *)
Definition regex_i `{Driver} (q : string) : option (string -> bool) :=
  match compile q with
  | Some atoms => Some (match_anywhere atoms)
  | None => regex_beyond q
  end.

(** ** The models: [Student] and [Course]

    Each operation that reaches the store records itself in the trace.
    Identifier casts and schema validation happen in the driver, before any
    round trip. *)

Module Student.
Import studentSchema.

Section ops.
Context `{Driver}.

Definition countDocuments (P : doc -> Prop) `{!forall d, Decision (P d)}
  : M nat :=
  query (StudentOp "countDocuments");;
  l ← get_students;
  mret (length (filter P l)).

(** [Student.find().sort({ createdAt: -1 })]. *)
Definition createdAt_desc (a b : doc) : Prop := createdAt b <= createdAt a.

Global Instance createdAt_desc_dec : RelDecision createdAt_desc.
Proof. intros a b; unfold createdAt_desc; apply _. Defined.

Definition find_sort_createdAt_desc : M (list doc) :=
  query (StudentOp "find");;
  l ← get_students;
  mret (merge_sort createdAt_desc l).

(** [Student.find({ $or: [name, course, email each matching q] })]. *)
Definition find_or_regex (q : string) : M (list doc) :=
  query (StudentOp "find");;
  match regex_i q with
  | None => throw (RegexError q)
  | Some re =>
      l ← get_students;
      mret (filter (fun d => re (name d) || re (course d) || re (email d)) l)
  end.

Definition findById (id : string) : M (option doc) :=
  match castObjectId id with
  | None => throw (CastError id)
  | Some oid =>
      query (StudentOp "findOne");;
      l ← get_students;
      mret (find_by _id oid l)
  end.

(** The [required] validator rejects a missing value and, for strings,
    the empty string. *)
Definition required_string (path : string) (v : option string)
  : list string :=
  match v with
  | None => [path]
  | Some s => if decide (s = EmptyString) then [path] else []
  end.

Definition validate (b : input) : list string :=
  required_string "name" (in_name b) ++
  required_string "email" (in_email b) ++
  required_string "course" (in_course b) ++
  (match in_enrollmentDate b with None => ["enrollmentDate"] | Some _ => [] end) ++
  (match in_status b with
   | None => []
   | Some s => if decide (s = "active" \/ s = "inactive") then [] else ["status"]
   end).

(** [new Student(body)]: defaults applied, identifier generated. *)
Definition new (newId : ObjectId) (now : Z) (b : input) : doc :=
  Doc newId (default "" (in_name b)) (default "" (in_email b))
    (default "" (in_course b)) (default 0 (in_enrollmentDate b))
    (default "active" (in_status b)) now now.

(** [student.save()] for a new document: validate, then insert; the
    store enforces its unique indexes on [_id] and [email]. *)
Definition save (newId : ObjectId) (now : Z) (b : input) : M doc :=
  match validate b with
  | (_ :: _) as paths => throw (ValidationError paths)
  | [] =>
      let d := new newId now b in
      query (StudentOp "insertOne");;
      l ← get_students;
      if decide (newId ∈ _id <$> l) then throw (DuplicateKeyError "_id")
      else if decide (email d ∈ email <$> l)
      then throw (DuplicateKeyError "email")
      else put_students (l ++ [d]);; mret d
  end.

(** The fields present in the body are set; validators do not run. *)
Definition apply_update (b : input) (now : Z) (d : doc) : doc :=
  Doc (_id d) (default (name d) (in_name b)) (default (email d) (in_email b))
    (default (course d) (in_course b))
    (default (enrollmentDate d) (in_enrollmentDate b))
    (default (status d) (in_status b)) (createdAt d) now.

(** [Student.findByIdAndUpdate(id, body, { new: true })]. *)
Definition findByIdAndUpdate (id : string) (b : input) (now : Z)
  : M (option doc) :=
  match castObjectId id with
  | None => throw (CastError id)
  | Some oid =>
      query (StudentOp "findOneAndUpdate");;
      l ← get_students;
      match find_by _id oid l with
      | None => mret None
      | Some d =>
          let d' := apply_update b now d in
          if decide (email d' ∈ email <$> delete_by _id oid l)
          then throw (DuplicateKeyError "email")
          else put_students (replace_by _id oid d' l);; mret (Some d')
      end
  end.

Definition findByIdAndDelete (id : string) : M (option doc) :=
  match castObjectId id with
  | None => throw (CastError id)
  | Some oid =>
      query (StudentOp "findOneAndDelete");;
      l ← get_students;
      match find_by _id oid l with
      | None => mret None
      | Some d => put_students (delete_by _id oid l);; mret (Some d)
      end
  end.

(** [$group: { _id: '$course', count: { $sum: 1 } }]: one entry per
    distinct course value; the order of the groups is not fixed by the
    store, so the result is a finite map. *)
Definition group_by_course (l : list doc) : gmap string nat :=
  foldr (fun d m => <[course d := S (default 0%nat (m !! course d))]> m) ∅ l.

Definition aggregate_group_by_course : M (gmap string nat) :=
  query (StudentOp "aggregate");;
  l ← get_students;
  mret (group_by_course l).
End ops.
End Student.

Module Course.
Import courseSchema.

Section ops.
Context `{Driver}.

Definition countDocuments (P : doc -> Prop) `{!forall d, Decision (P d)}
  : M nat :=
  query (CourseOp "countDocuments");;
  l ← get_courses;
  mret (length (filter P l)).

(** [Course.find().sort({ name: 1 })]. *)
Definition name_asc (a b : doc) : Prop := String.le (name a) (name b).

Global Instance name_asc_dec : RelDecision name_asc.
Proof. intros a b; unfold name_asc; apply _. Defined.

Definition find_sort_name_asc : M (list doc) :=
  query (CourseOp "find");;
  l ← get_courses;
  mret (merge_sort name_asc l).

Definition findById (id : string) : M (option doc) :=
  match castObjectId id with
  | None => throw (CastError id)
  | Some oid =>
      query (CourseOp "findOne");;
      l ← get_courses;
      mret (find_by _id oid l)
  end.

Definition required_string (path : string) (v : option string)
  : list string :=
  match v with
  | None => [path]
  | Some s => if decide (s = EmptyString) then [path] else []
  end.

Definition validate (b : input) : list string :=
  required_string "name" (in_name b) ++
  required_string "description" (in_description b) ++
  (match in_duration b with None => ["duration"] | Some _ => [] end) ++
  (match in_status b with
   | None => []
   | Some s => if decide (s = "active" \/ s = "inactive") then [] else ["status"]
   end).

Definition new (newId : ObjectId) (now : Z) (b : input) : doc :=
  Doc newId (default "" (in_name b)) (default "" (in_description b))
    (default 0 (in_duration b)) (default "active" (in_status b)) now now.

(** [course.save()]: unique indexes on [_id] and [name]. *)
Definition save (newId : ObjectId) (now : Z) (b : input) : M doc :=
  match validate b with
  | (_ :: _) as paths => throw (ValidationError paths)
  | [] =>
      let d := new newId now b in
      query (CourseOp "insertOne");;
      l ← get_courses;
      if decide (newId ∈ _id <$> l) then throw (DuplicateKeyError "_id")
      else if decide (name d ∈ name <$> l)
      then throw (DuplicateKeyError "name")
      else put_courses (l ++ [d]);; mret d
  end.

Definition apply_update (b : input) (now : Z) (d : doc) : doc :=
  Doc (_id d) (default (name d) (in_name b))
    (default (description d) (in_description b))
    (default (duration d) (in_duration b))
    (default (status d) (in_status b)) (createdAt d) now.

Definition findByIdAndUpdate (id : string) (b : input) (now : Z)
  : M (option doc) :=
  match castObjectId id with
  | None => throw (CastError id)
  | Some oid =>
      query (CourseOp "findOneAndUpdate");;
      l ← get_courses;
      match find_by _id oid l with
      | None => mret None
      | Some d =>
          let d' := apply_update b now d in
          if decide (name d' ∈ name <$> delete_by _id oid l)
          then throw (DuplicateKeyError "name")
          else put_courses (replace_by _id oid d' l);; mret (Some d')
      end
  end.

Definition findByIdAndDelete (id : string) : M (option doc) :=
  match castObjectId id with
  | None => throw (CastError id)
  | Some oid =>
      query (CourseOp "findOneAndDelete");;
      l ← get_courses;
      match find_by _id oid l with
      | None => mret None
      | Some d => put_courses (delete_by _id oid l);; mret (Some d)
      end
  end.
End ops.
End Course.

(** ** Responses *)

Record DashboardStats := Stats {
  totalStudents : nat;
  activeStudents : nat;
  totalCourses : nat;
  activeCourses : nat;
  graduates : nat;
  courseCounts : gmap string nat;
  successRate : Z
}.

Inductive json :=
| Message (m : string)                    (* { message: "..." } *)
| ErrorMessage (e : error)                (* { message: error.message } *)
| StudentJson (s : studentSchema.doc)
| CourseJson (c : courseSchema.doc)
| StudentsJson (l : list studentSchema.doc)
| CoursesJson (l : list courseSchema.doc)
| StatsJson (s : DashboardStats).

(** [res.status(code).json(body)]; [res.json(body)] has code 200. *)
Record response := Response {
  statusCode : nat;
  body : json
}.

(** ** Route handlers *)

Section Handlers.
Context `{Driver}.

Definition respond (code : nat) (b : json) : M response :=
  mret (Response code b).

(** *** Courses *)

Definition get_api_courses : M response :=
  try_catch
    (courses ← Course.find_sort_name_asc;
     respond 200 (CoursesJson courses))
    (fun error => respond 500 (ErrorMessage error)).

Definition post_api_courses (newId : ObjectId) (now : Z)
    (req_body : courseSchema.input) : M response :=
  try_catch
    (savedCourse ← Course.save newId now req_body;
     respond 201 (CourseJson savedCourse))
    (fun error => respond 400 (ErrorMessage error)).

Definition put_api_courses_id (id : string) (req_body : courseSchema.input)
    (now : Z) : M response :=
  try_catch
    (course ← Course.findByIdAndUpdate id req_body now;
     match course with
     | None => respond 404 (Message "Course not found")
     | Some course => respond 200 (CourseJson course)
     end)
    (fun error => respond 400 (ErrorMessage error)).

Definition delete_api_courses_id (id : string) : M response :=
  try_catch
    (enrolledStudents ←
       Student.countDocuments (fun s => studentSchema.course s = id);
     if (0 <? enrolledStudents)%nat
     then respond 400 (Message "Cannot delete course with enrolled students")
     else
       course ← Course.findByIdAndDelete id;
       match course with
       | None => respond 404 (Message "Course not found")
       | Some _ => respond 200 (Message "Course deleted successfully")
       end)
    (fun error => respond 500 (ErrorMessage error)).

Definition get_api_courses_id (id : string) : M response :=
  try_catch
    (course ← Course.findById id;
     match course with
     | None => respond 404 (Message "Course not found")
     | Some course => respond 200 (CourseJson course)
     end)
    (fun error => respond 500 (ErrorMessage error)).

(** *** Students *)

Definition get_api_students : M response :=
  try_catch
    (students ← Student.find_sort_createdAt_desc;
     respond 200 (StudentsJson students))
    (fun error => respond 500 (ErrorMessage error)).

Definition post_api_students (newId : ObjectId) (now : Z)
    (req_body : studentSchema.input) : M response :=
  try_catch
    (savedStudent ← Student.save newId now req_body;
     respond 201 (StudentJson savedStudent))
    (fun error => respond 400 (ErrorMessage error)).

Definition put_api_students_id (id : string)
    (req_body : studentSchema.input) (now : Z) : M response :=
  try_catch
    (student ← Student.findByIdAndUpdate id req_body now;
     match student with
     | None => respond 404 (Message "Student not found")
     | Some student => respond 200 (StudentJson student)
     end)
    (fun error => respond 400 (ErrorMessage error)).

Definition delete_api_students_id (id : string) : M response :=
  try_catch
    (student ← Student.findByIdAndDelete id;
     match student with
     | None => respond 404 (Message "Student not found")
     | Some _ => respond 200 (Message "Student deleted successfully")
     end)
    (fun error => respond 500 (ErrorMessage error)).

Definition get_api_students_search (searchTerm : string) : M response :=
  try_catch
    (students ← Student.find_or_regex searchTerm;
     respond 200 (StudentsJson students))
    (fun error => respond 500 (ErrorMessage error)).

Definition get_api_students_id (id : string) : M response :=
  try_catch
    (if negb (isValid id)
     then respond 400 (Message "Invalid student ID format")
     else
       student ← Student.findById id;
       match student with
       | None => respond 404 (Message "Student not found")
       | Some student => respond 200 (StudentJson student)
       end)
    (fun error => respond 500 (ErrorMessage error)).

(** *** Dashboard *)

Definition getDashboardStats : M DashboardStats :=
  totalStudents ← Student.countDocuments (fun _ => True);
  activeStudents ←
    Student.countDocuments (fun s => studentSchema.status s = "active");
  totalCourses ← Course.countDocuments (fun _ => True);
  activeCourses ←
    Course.countDocuments (fun c => courseSchema.status c = "active");
  graduates ←
    Student.countDocuments (fun s => studentSchema.status s = "inactive");
  courseCounts ← Student.aggregate_group_by_course;
  mret (Stats totalStudents activeStudents totalCourses activeCourses
          graduates courseCounts
          (if (0 <? totalStudents)%nat
           then Math_round
                  (number_of_nat graduates / number_of_nat totalStudents
                   * 100)%float
           else 0)).

Definition get_api_dashboard_stats : M response :=
  try_catch
    (stats ← getDashboardStats;
     respond 200 (StatsJson stats))
    (fun error => respond 500 (ErrorMessage error)).

(** *** Routing

    A request that has been matched to its route, together with what the
    environment supplies while it is served (a generated identifier, the
    clock). *)
Inductive request :=
| GET_courses
| POST_courses (newId : ObjectId) (now : Z) (req_body : courseSchema.input)
| PUT_courses_id (id : string) (req_body : courseSchema.input) (now : Z)
| DELETE_courses_id (id : string)
| GET_courses_id (id : string)
| GET_students
| POST_students (newId : ObjectId) (now : Z) (req_body : studentSchema.input)
| PUT_students_id (id : string) (req_body : studentSchema.input) (now : Z)
| DELETE_students_id (id : string)
| GET_students_search (q : string)
| GET_students_id (id : string)
| GET_dashboard_stats.

Definition route (r : request) : M response :=
  match r with
  | GET_courses => get_api_courses
  | POST_courses newId now b => post_api_courses newId now b
  | PUT_courses_id id b now => put_api_courses_id id b now
  | DELETE_courses_id id => delete_api_courses_id id
  | GET_courses_id id => get_api_courses_id id
  | GET_students => get_api_students
  | POST_students newId now b => post_api_students newId now b
  | PUT_students_id id b now => put_api_students_id id b now
  | DELETE_students_id id => delete_api_students_id id
  | GET_students_search q => get_api_students_search q
  | GET_students_id id => get_api_students_id id
  | GET_dashboard_stats => get_api_dashboard_stats
  end.

(** An [/api] request as the application serves it: the connection
    middleware first, then the route. *)
Definition api (atlasURI : option string) (connect : nat -> settled)
    (r : request) (st : cache * world) : result response * (cache * world) :=
  match ensureDbConnection atlasURI connect (fst st) with
  | (Some code, c') =>
      (Ok (Response code (Message "Database connection unavailable")),
       (c', snd st))
  | (None, c') =>
      let '(res, w') := route r (snd st) in (res, (c', w'))
  end.
End Handlers.

(** ** Invariants of the store *)

(** The unique index on [email]. *)
Definition unique_emails (w : world) : Prop :=
  NoDup (studentSchema.email <$> students w).

(** The unique index on [_id], in both collections. *)
Definition unique_ids (w : world) : Prop :=
  NoDup (studentSchema._id <$> students w) /\
  NoDup (courseSchema._id <$> courses w).

(** Two worlds hold the same data (the trace may differ). *)
Definition same_data (w w' : world) : Prop :=
  students w' = students w /\ courses w' = courses w.

(** ** Reference predicates for the search *)

(** [x] occurs in [s] as a substring, letter case ignored. *)
Definition ci_contains (x s : string) : Prop :=
  exists pre post, lower s = pre +:+ lower x +:+ post.

Definition literal (x : string) : Prop :=
  forall c, c ∈ list_ascii_of_string x -> is_meta c = false.

(** What the specification asks of a student for the query [x]. *)
Definition found (x : string) (s : studentSchema.doc) : Prop :=
  ci_contains x (studentSchema.name s) \/
  ci_contains x (studentSchema.email s) \/
  ci_contains x (studentSchema.course s).

(** ** Reference values for the success rate *)

(** round(100 G / N), halves going up, in exact arithmetic. *)
Definition exact_rate (g n : nat) : Z :=
  (200 * Z.of_nat g + Z.of_nat n) / (2 * Z.of_nat n).

(** 100 G / N lies exactly halfway between two integers. *)
Definition halfway (g n : nat) : bool :=
  (200 * Z.of_nat g) mod (2 * Z.of_nat n) =? Z.of_nat n.

(** The expression of the source on two counts. *)
Definition rate_of (g n : nat) : Z :=
  if (0 <? n)%nat
  then Math_round (number_of_nat g / number_of_nat n * 100)%float
  else 0.

(** The ratios p / 200, p odd, whose binary64 product with 100 falls below
    the half p / 2: for them 100 G / N is 14.5, 28.5, 56.5 or 57.5. *)
Definition short_ratios : list Z := [29; 57; 113; 115].

(** G / N is one of those ratios. *)
Definition falls_short (g n : nat) : bool :=
  existsb (fun p => 200 * Z.of_nat g =? p * Z.of_nat n) short_ratios.

(** The hundred halfway ratios (2 j + 1) / 200, each run through the
    binary64 computation. *)
Definition halfway_table : bool :=
  forallb
    (fun j : nat =>
       rate_of (2 * j + 1) 200 =?
         (if existsb (fun p => 2 * Z.of_nat j + 1 =? p) short_ratios
          then Z.of_nat j else Z.of_nat j + 1))
    (seq 0 100).

(** ** Binary64 numbers as reals *)

(** Powers of two as reals. *)
Definition bpow (e : Z) : R := powerRZ 2 e.

(** The shift record [mrs] at exponent [e] locates the real [v]: its
    mantissa is the integer part of v / 2^e, its round bit tells whether
    the rest reaches the half, and its sticky bit whether anything lies
    beyond these. *)
Definition located (mrs : shr_record) (e : Z) (v : R) : Prop :=
  0 <= shr_m mrs /\
  let lo := (IZR (shr_m mrs) * bpow e)%R in
  match shr_r mrs, shr_s mrs with
  | false, false => v = lo
  | false, true => (lo < v < lo + bpow e / 2)%R
  | true, false => v = (lo + bpow e / 2)%R
  | true, true => (lo + bpow e / 2 < v < lo + bpow e)%R
  end.

(** The sum of the per-course counts of a [$group] result. *)
Definition sum_counts (m : gmap string nat) : nat :=
  map_fold (fun _ n acc => (n + acc)%nat) 0%nat m.

(** ** A concrete driver and sample data *)

Definition hex_digit (c : ascii) : option N :=
  let n := N_of_ascii c in
  (if (48 <=? n) && (n <=? 57) then Some (n - 48)
   else if (97 <=? n) && (n <=? 102) then Some (n - 87)
   else if (65 <=? n) && (n <=? 70) then Some (n - 55)
   else None)%N.

Fixpoint hex_value (acc : N) (s : string) : option N :=
  match s with
  | EmptyString => Some acc
  | String c rest =>
      match hex_digit c with
      | Some d => hex_value (16 * acc + d)%N rest
      | None => None
      end
  end.

(** Identifier-shaped strings are the strings of 24 hexadecimal digits;
    patterns outside the fragment are rejected. *)
Definition hex_driver : Driver := {|
  castObjectId := fun s =>
    if decide (String.length s = 24%nat) then hex_value 0 s else None;
  regex_beyond := fun _ => None
|}.

Definition alice : studentSchema.doc :=
  studentSchema.Doc 161%N "Alice Ng" "alice@example" "CS101" 1700000000
    "active" 1700000001 1700000001.

Definition bob : studentSchema.doc :=
  studentSchema.Doc 162%N "Bob" "bob@example" "00000000000000000000000b"
    1700000000 "inactive" 1700000002 1700000002.

Definition algebra : courseSchema.doc :=
  courseSchema.Doc 10%N "Algebra" "Linear algebra" 12 "active" 1690000000
    1690000000.

Definition logic : courseSchema.doc :=
  courseSchema.Doc 11%N "Logic" "First-order logic" 8 "active" 1690000001
    1690000001.

Definition campus : world := World [alice; bob] [algebra; logic] [].

(** A store holding one student none of whose fields contains a dot. *)
Definition abc : studentSchema.doc :=
  studentSchema.Doc 1%N "abc" "x@y" "CS" 0 "active" 0 0.

Definition tiny : world := World [abc] [] [].

(** [n] students with consecutive identifiers, all with the given status. *)
Fixpoint cohort (first : N) (st : string) (n : nat)
  : list studentSchema.doc :=
  match n with
  | O => []
  | S n' =>
      studentSchema.Doc first "n" ("s" +:+ toString (Z.of_N first)) "CS" 0 st 0 0
      :: cohort (first + 1)%N st n'
  end.

(** Forty students, twenty-three of them inactive. *)
Definition forty : world :=
  World (cohort 0%N "inactive" 23 ++ cohort 23%N "active" 17) [] [].

(** ** Further invariants and reference predicates *)

(** The unique index on the course [name]. *)
Definition unique_names (w : world) : Prop :=
  NoDup (courseSchema.name <$> courses w).

(** The store before any request. *)
Definition store_init : world := World [] [] [].

(** The routes registered with [app.get]. *)
Definition is_GET (r : request) : bool :=
  match r with
  | GET_courses | GET_courses_id _ | GET_students | GET_students_search _
  | GET_students_id _ | GET_dashboard_stats => true
  | _ => false
  end.

(** A sequence of [/api] requests served one after the other, and the
    answers of the routes alone on the same sequence. *)
Fixpoint serve_api `{Driver} (atlasURI : option string)
    (connect : nat -> settled) (rs : list request) (st : cache * world)
  : list (result response) * (cache * world) :=
  match rs with
  | [] => ([], st)
  | r :: rest =>
      let '(res, st1) := api atlasURI connect r st in
      let '(ress, st2) := serve_api atlasURI connect rest st1 in
      (res :: ress, st2)
  end.

Fixpoint route_all `{Driver} (rs : list request) (w : world)
  : list (result response) * world :=
  match rs with
  | [] => ([], w)
  | r :: rest =>
      let '(res, w1) := route r w in
      let '(ress, w2) := route_all rest w1 in
      (res :: ress, w2)
  end.

(** What the schema asks of a new student: name, e-mail address and course
    present and not empty, an enrolment date, and a status, if given, from
    the enumeration. *)
Definition acceptable_student (b : studentSchema.input) : Prop :=
  (exists n, studentSchema.in_name b = Some n /\ n <> EmptyString) /\
  (exists e, studentSchema.in_email b = Some e /\ e <> EmptyString) /\
  (exists c, studentSchema.in_course b = Some c /\ c <> EmptyString) /\
  (exists t, studentSchema.in_enrollmentDate b = Some t) /\
  (forall s, studentSchema.in_status b = Some s ->
             s = "active" \/ s = "inactive").

(** A character of the subject against a character of a query made of
    ordinary characters and dots. *)
Definition char_fits (qc c : ascii) : Prop :=
  if decide (qc = "."%char) then c <> newline else to_lower qc = to_lower c.

(** Some substring of [s] has the length of [q] and fits it character by
    character. *)
Definition hits (q s : string) : Prop :=
  exists pre mid post,
    s = pre +:+ mid +:+ post /\
    Forall2 char_fits (list_ascii_of_string q) (list_ascii_of_string mid).

(** No metacharacter other than the dot. *)
Definition dotted (q : string) : Prop :=
  forall c, c ∈ list_ascii_of_string q -> c = "."%char \/ is_meta c = false.

(** At most one attempt has been made, and none while no promise is
    cached: this holds initially and is kept by [connectDB]. *)
Definition attempted_once (c : cache) : Prop :=
  (attempts c <= 1)%nat /\ (promise c = None -> attempts c = 0%nat).

(** A body for a new student. *)
Definition carol : studentSchema.input :=
  studentSchema.Input (Some "Carol") (Some "carol@example") (Some "CS101")
    (Some 1700000000) None.

(** The status codes each route has a [res.status] (or a plain
    [res.json]) for. *)
Definition codes_of (r : request) : list nat :=
  (match r with
   | GET_courses | GET_students | GET_students_search _
   | GET_dashboard_stats => [200; 500]
   | POST_courses _ _ _ | POST_students _ _ _ => [201; 400]
   | PUT_courses_id _ _ _ | PUT_students_id _ _ _ => [200; 400; 404]
   | GET_courses_id _ | DELETE_students_id _ => [200; 404; 500]
   | DELETE_courses_id _ | GET_students_id _ => [200; 400; 404; 500]
   end)%nat.

(** Whenever [m] returns a response, its code is among [codes]. *)
Definition returns_within (codes : list nat) (m : M response) : Prop :=
  forall w resp w', m w = (Ok resp, w') -> statusCode resp ∈ codes.

(** ** Health endpoints *)

(** What the handlers read from the runtime and from the driver's
    connection object.  Numbers that are not whole are exact rationals. *)
Record process := Process {
  uptime : Q;                 (* process.uptime() *)
  heapTotal : Z;              (* process.memoryUsage().heapTotal *)
  heapUsed : Z;               (* process.memoryUsage().heapUsed *)
  NODE_ENV : option string;   (* process.env.NODE_ENV *)
  version : string;           (* process.version *)
  platform : string;          (* process.platform *)
  clock : Z                   (* new Date() *)
}.

Record connection := Connection {
  readyState : Z;             (* mongoose.connection.readyState *)
  host : option string        (* mongoose.connection.host *)
}.

(** [v || d] on a string that may be undefined. *)
Definition or_else (v : option string) (d : string) : string :=
  match v with
  | None => d
  | Some s => if decide (s = EmptyString) then d else s
  end.

(** [Math.round] on an exact value: halves go up. *)
Definition Math_round_exact (x : Q) : Z := Qfloor (x + (1 # 2)).

Record liveness := Liveness {
  live_status : string;
  live_timestamp : Z;
  live_uptime : Q;
  live_environment : string
}.

(** [GET /health]. *)
Definition get_health (p : process) : nat * liveness :=
  (200%nat, Liveness "UP" (clock p) (uptime p) (or_else (NODE_ENV p) "development")).

Record healthCheck := HealthCheck {
  health_status : string;
  health_timestamp : Z;
  database_status : string;
  database_name : string;
  database_host : string;
  memory_total : Z;
  memory_used : Z;
  memory_unit : string;
  uptime_seconds : Z;
  uptime_formatted : string;
  nodeVersion : string;
  system_platform : string;
  environment : string
}.

(** [GET /health/detailed].  None of the reads modelled here throws, so the
    [catch] branch of the source is never entered. *)
Definition get_health_detailed (p : process) (c : connection)
  : nat * healthCheck :=
  let dbStatus := if readyState c =? 1 then "Connected" else "Disconnected" in
  let currentUptime := uptime p in
  (200%nat,
   HealthCheck "UP" (clock p)
     dbStatus "MongoDB" (or_else (host c) "N/A")
     (Math_round_exact (inject_Z (heapTotal p) / 1024 / 1024))
     (Math_round_exact (inject_Z (heapUsed p) / 1024 / 1024))
     "MB"
     (Math_round_exact currentUptime)
     (formatUptime currentUptime)
     (version p) (platform p)
     (or_else (NODE_ENV p) "development")).

(** * Properties *)

(** ** The connection cache *)

Section ConnectionFacts.
Variable atlasURI : option string.
Variable connect : nat -> settled.

(** Once a rejected promise sits in the cache, [connectDB] rethrows its
    error and leaves the cache as it is: no new attempt is started. *)
Lemma connectDB_rejected_fixpoint (c : cache) (e : conn_error) :
  conn c = None ->
  promise c = Some (Rejected e) ->
  connectDB atlasURI connect c = (Throw e, c).
Proof.
  intros Hconn Hprom. unfold connectDB, await_and_store.
  rewrite Hconn, Hprom. reflexivity.
Qed.

(** Every later request is then answered 503, however many follow. *)
Lemma serve_rejected (n : nat) (c : cache) (e : conn_error) :
  conn c = None ->
  promise c = Some (Rejected e) ->
  serve atlasURI connect n c = (replicate n (Some 503%nat), c).
Proof.
  intros Hconn Hprom. induction n as [|n IH]; simpl; [reflexivity|].
  unfold ensureDbConnection.
  rewrite (connectDB_rejected_fixpoint c e Hconn Hprom), IH. reflexivity.
Qed.

(** A connection that was established is returned from the cache. *)
Lemma connectDB_cached (c : cache) (h : handle) :
  conn c = Some h -> connectDB atlasURI connect c = (Return h, c).
Proof. intros Hconn. unfold connectDB. rewrite Hconn. reflexivity. Qed.

(** The first call with an empty cache and a configured URI makes exactly
    one attempt and leaves its promise in the cache, whatever the
    outcome. *)
Lemma connectDB_first_attempt (c : cache) :
  conn c = None -> promise c = None -> falsy atlasURI = false ->
  let c' := snd (connectDB atlasURI connect c) in
  promise c' = Some (connect (attempts c)) /\ attempts c' = S (attempts c).
Proof.
  intros Hconn Hprom Huri. unfold connectDB, await_and_store.
  rewrite Hconn, Hprom, Huri. simpl.
  destruct (connect (attempts c)); simpl; auto.
Qed.
End ConnectionFacts.

(** With a rejected promise in the cache an [/api] request is answered 503
    and its route does not run. *)
Lemma api_rejected `{Driver} (atlasURI : option string)
    (connect : nat -> settled) (r : request) (c : cache) (w : world)
    (e : conn_error) :
  conn c = None ->
  promise c = Some (Rejected e) ->
  api atlasURI connect r (c, w) =
    (Ok (Response 503 (Message "Database connection unavailable")), (c, w)).
Proof.
  intros Hconn Hprom. unfold api, ensureDbConnection. simpl.
  rewrite (connectDB_rejected_fixpoint atlasURI connect c e Hconn Hprom).
  reflexivity.
Qed.

(** C1 (the source departs from the claim).  With a configured URI and a
    network whose first connection attempt fails while any later attempt
    would succeed, the first call to [connectDB] throws, and so does the
    second, with the same error and without a second call to
    [mongoose.connect]: the rejected promise stays in the cache, three
    requests in a row are all answered 503, and so is a listing of the
    students that follows. *)
Theorem connectDB_failed_attempt_stays_cached :
  let uri := Some "mongodb+srv://cluster0.example/db" in
  let first := connectDB uri flaky_once cache_init in
  let second := connectDB uri flaky_once (snd first) in
  fst first = Throw "connect ETIMEDOUT" /\
  fst second = Throw "connect ETIMEDOUT" /\
  attempts (snd first) = 1%nat /\
  attempts (snd second) = 1%nat /\
  flaky_once 1 = Fulfilled 7%nat /\
  fst (serve uri flaky_once 3 cache_init)
    = [Some 503%nat; Some 503%nat; Some 503%nat] /\
  fst (@api hex_driver uri flaky_once GET_students (snd second, campus))
    = Ok (Response 503 (Message "Database connection unavailable")).
Proof. repeat split. Qed.

(** When the first attempt succeeds the handle is cached and no further
    attempt is made. *)
Example connectDB_success_is_cached :
  let uri := Some "mongodb+srv://cluster0.example/db" in
  let net := fun _ : nat => Fulfilled 7%nat in
  let first := connectDB uri net cache_init in
  let second := connectDB uri net (snd first) in
  fst first = Return 7%nat /\ fst second = Return 7%nat /\
  attempts (snd second) = 1%nat.
Proof. repeat split. Qed.

(** Without a URI every call throws before any attempt is made. *)
Example connectDB_without_uri :
  connectDB None flaky_once cache_init = (Throw MONGO_URI_missing, cache_init).
Proof. reflexivity. Qed.

(** ** [formatUptime] *)

Lemma rem_rem_3600 (t : Z) :
  0 <= t -> Z.rem (Z.rem t 86400) 3600 = t mod 3600.
Proof.
  intros Ht. rewrite (Z.rem_mod_nonneg t 86400) by lia.
  rewrite Z.rem_mod_nonneg by (try apply Z.mod_pos_bound; lia).
  apply Z.mod_mod_divide. exists 24. reflexivity.
Qed.

Lemma rem_60 (t : Z) : 0 <= t -> Z.rem (t mod 3600) 60 = t mod 60.
Proof.
  intros Ht.
  rewrite Z.rem_mod_nonneg by (try apply Z.mod_pos_bound; lia).
  apply Z.mod_mod_divide. exists 60. reflexivity.
Qed.

(** The parts pushed by the source agree with the rule of the
    specification on any decomposition into non-negative units. *)
Lemma parts_agree (d h m s : Z) :
  0 <= d -> 0 <= h -> 0 <= m -> 0 <= s ->
  (let parts := [] in
   let parts := if 0 <? d then parts ++ [toString d +:+ "d"] else parts in
   let parts := if 0 <? h then parts ++ [toString h +:+ "h"] else parts in
   let parts := if 0 <? m then parts ++ [toString m +:+ "m"] else parts in
   if (length parts =? 0)%nat || (0 <? s)
   then parts ++ [toString s +:+ "s"] else parts)
  = uptime_parts d h m s.
Proof.
  intros Hd Hh Hm Hs. unfold uptime_parts.
  generalize (toString d +:+ "d") (toString h +:+ "h")
             (toString m +:+ "m") (toString s +:+ "s").
  intros sd sh sm ss.
  destruct (Z.ltb_spec 0 d), (Z.eqb_spec d 0); try lia;
  destruct (Z.ltb_spec 0 h), (Z.eqb_spec h 0); try lia;
  destruct (Z.ltb_spec 0 m), (Z.eqb_spec m 0); try lia;
  destruct (Z.ltb_spec 0 s), (Z.eqb_spec s 0); try lia;
  reflexivity.
Qed.

(** C2, as amended.  Zero seconds render as "0s", ninety as "1m 30s" and
    86461 as "1d 1m 1s"; in general, for a non-negative uptime, the whole
    seconds are split into days, hours, minutes and seconds, the day, hour
    and minute parts are left out when zero, and the seconds part is present
    when it is not zero or when every other part is zero. *)
Theorem formatUptime_spec (seconds : Q) (Hpos : (0 <= seconds)%Q) :
  formatUptime 0 = "0s" /\
  formatUptime 90 = "1m 30s" /\
  formatUptime 86461 = "1d 1m 1s" /\
  let t := Qfloor seconds in
  formatUptime seconds =
    join " " (uptime_parts (t / 86400) (t mod 86400 / 3600)
                           (t mod 3600 / 60) (t mod 60)).
Proof.
  split; [reflexivity|]. split; [reflexivity|]. split; [reflexivity|].
  intros t.
  assert (Ht : 0 <= t).
  { unfold t. change 0 with (Qfloor 0). apply Qfloor_resp_le, Hpos. }
  unfold formatUptime. fold t.
  rewrite (rem_rem_3600 t Ht), (rem_60 t Ht).
  rewrite (Z.rem_mod_nonneg t 86400) by lia.
  f_equal. apply parts_agree.
  - apply Z.div_pos; lia.
  - apply Z.div_pos; [apply Z.mod_pos_bound|]; lia.
  - apply Z.div_pos; [apply Z.mod_pos_bound|]; lia.
  - apply Z.mod_pos_bound; lia.
Qed.

Lemma formatUptime_spec_witness :
  (0 <= 93784)%Q /\
  (formatUptime 0 = "0s" /\
   formatUptime 90 = "1m 30s" /\
   formatUptime 86461 = "1d 1m 1s" /\
   let t := Qfloor 93784 in
   formatUptime 93784 =
     join " " (uptime_parts (t / 86400) (t mod 86400 / 3600)
                            (t mod 3600 / 60) (t mod 60))).
Proof.
  assert (H : (0 <= 93784)%Q) by (vm_compute; discriminate).
  split; [exact H | apply (formatUptime_spec 93784 H)].
Defined.

(** C2, as stated, fails on its third example: the hour part of 86461
    seconds is zero and is left out. *)
Lemma formatUptime_86461_has_no_hour_part :
  formatUptime 86461 = "1d 1m 1s" /\ formatUptime 86461 <> "1d 0h 1m 1s".
Proof. split; [reflexivity | discriminate]. Qed.

(** The rule itself, evaluated on a full decomposition. *)
Example formatUptime_all_units : formatUptime 93784 = "1d 2h 3m 4s".
Proof. reflexivity. Qed.

(** Fractions of a second are dropped first. *)
Example formatUptime_fraction : formatUptime (7 # 2) = "3s".
Proof. reflexivity. Qed.

(** Whole days only: the seconds part is left out. *)
Example formatUptime_two_days : formatUptime 172800 = "2d".
Proof. reflexivity. Qed.

(** The rule is about non-negative uptimes; a negative number of seconds
    renders its remainder only. *)
Example formatUptime_negative : formatUptime (-61 # 1) = "-1s".
Proof. reflexivity. Qed.

(** ** Collections *)

Section CollectionFacts.
Context {D : Type} (key : D -> ObjectId).

Lemma find_by_Some (oid : ObjectId) (l : list D) (d : D) :
  find_by key oid l = Some d -> d ∈ l /\ key d = oid.
Proof.
  induction l as [|x l IH]; simpl; [discriminate|].
  destruct (decide (key x = oid)) as [Hx|Hx].
  - intros [= ->]. split; [left | exact Hx].
  - intros Hf. destruct (IH Hf) as [Hin Hk]. split; [right; exact Hin | exact Hk].
Qed.

Lemma find_by_None (oid : ObjectId) (l : list D) :
  find_by key oid l = None <-> forall d, d ∈ l -> key d <> oid.
Proof.
  induction l as [|x l IH]; simpl.
  - split; [intros _ d Hd; inversion Hd | reflexivity].
  - destruct (decide (key x = oid)) as [Hx|Hx].
    + split; [discriminate|]. intros Hall. destruct (Hall x); [left | exact Hx].
    + rewrite IH. split.
      * intros Hall d Hd. inversion Hd; subst; [exact Hx | auto].
      * intros Hall d Hd. apply Hall. right. exact Hd.
Qed.

Lemma find_by_elem (oid : ObjectId) (l : list D) (d : D) :
  NoDup (key <$> l) -> d ∈ l -> key d = oid -> find_by key oid l = Some d.
Proof.
  induction l as [|x l IH]; simpl; intros Hnd Hd Hk; [inversion Hd|].
  apply NoDup_cons in Hnd as [Hx Hnd].
  destruct (decide (key x = oid)) as [Hxo|Hxo].
  - inversion Hd; subst; [reflexivity|].
    exfalso. apply Hx. rewrite Hxo.
    apply list_elem_of_fmap. exists d. auto.
  - inversion Hd; subst; [contradiction | auto].
Qed.

Lemma delete_by_sublist (oid : ObjectId) (l : list D) :
  delete_by key oid l `sublist_of` l.
Proof.
  induction l as [|x l IH]; simpl; [constructor|].
  destruct (decide (key x = oid)).
  - apply sublist_cons. reflexivity.
  - apply sublist_skip. exact IH.
Qed.

Lemma delete_by_NoDup {B : Type} (f : D -> B) (oid : ObjectId) (l : list D) :
  NoDup (f <$> l) -> NoDup (f <$> delete_by key oid l).
Proof.
  intros Hnd. eapply sublist_NoDup; [exact Hnd | apply fmap_sublist, delete_by_sublist].
Qed.

(** With unique identifiers, a deleted identifier is no longer found. *)
Lemma find_by_delete_by (oid : ObjectId) (l : list D) :
  NoDup (key <$> l) -> find_by key oid (delete_by key oid l) = None.
Proof.
  induction l as [|x l IH]; simpl; intros Hnd; [reflexivity|].
  apply NoDup_cons in Hnd as [Hx Hnd].
  destruct (decide (key x = oid)) as [Hxo|Hxo].
  - apply find_by_None. intros d Hd Hk. apply Hx. rewrite Hxo, <- Hk.
    apply list_elem_of_fmap. exists d. auto.
  - simpl. destruct (decide (key x = oid)); [contradiction | auto].
Qed.

Lemma replace_by_keys (oid : ObjectId) (d' : D) (l : list D) :
  key d' = oid -> key <$> replace_by key oid d' l = key <$> l.
Proof.
  intros Hk. induction l as [|x l IH]; [reflexivity|].
  cbn [replace_by].
  destruct (decide (key x = oid)) as [Hx|Hx]; rewrite !fmap_cons.
  - rewrite Hk, Hx. reflexivity.
  - rewrite IH. reflexivity.
Qed.

(** Replacing a document keeps a projection free of duplicates when the
    new value does not occur among the other documents. *)
Lemma replace_by_NoDup {B : Type} (f : D -> B) (oid : ObjectId) (d' : D)
    (l : list D) :
  NoDup (f <$> l) ->
  f d' ∉ f <$> delete_by key oid l ->
  NoDup (f <$> replace_by key oid d' l).
Proof.
  induction l as [|x l IH]; simpl; intros Hnd Hfresh; [constructor|].
  apply NoDup_cons in Hnd as [Hx Hnd].
  destruct (decide (key x = oid)) as [Hxo|Hxo]; simpl in *.
  - apply NoDup_cons. split; assumption.
  - apply not_elem_of_cons in Hfresh as [Hne Hfresh].
    apply NoDup_cons. split; [|auto].
    intros Hin. apply list_elem_of_fmap in Hin as [y [Hy Hin]].
    assert (Hsub : forall z, z ∈ replace_by key oid d' l -> z = d' \/ z ∈ l).
    { clear. induction l as [|a l IH]; simpl; intros z Hz; [inversion Hz|].
      destruct (decide (key a = oid)).
      - inversion Hz; subst; [left; reflexivity | right; right; assumption].
      - inversion Hz; subst; [right; left|].
        destruct (IH z) as [->|Hl]; [assumption | left; reflexivity | right; right; exact Hl]. }
    destruct (Hsub y Hin) as [->|Hl].
    + congruence.
    + apply Hx. rewrite Hy. apply list_elem_of_fmap. exists y. auto.
Qed.
End CollectionFacts.

(** ** Running handlers *)

Ltac run :=
  unfold respond, throw, try_catch, query, get_students, get_courses,
    put_students, put_courses;
  unfold mbind, M_bind, mret, M_ret; simpl.

Lemma count_positive {A : Type} (P : A -> Prop) `{!forall x, Decision (P x)}
    (l : list A) (x : A) :
  x ∈ l -> P x -> (0 <? length (filter P l))%nat = true.
Proof.
  intros Hin HP. apply Nat.ltb_lt.
  assert (Hx : x ∈ filter P l) by (apply list_elem_of_filter; auto).
  destruct (filter P l); [inversion Hx | simpl; lia].
Qed.

Lemma count_zero {A : Type} (P : A -> Prop) `{!forall x, Decision (P x)}
    (l : list A) :
  (forall x, x ∈ l -> ~ P x) -> (0 <? length (filter P l))%nat = false.
Proof.
  intros Hall. apply Nat.ltb_ge.
  destruct (filter P l) as [|y l'] eqn:E; [simpl; lia|].
  assert (Hy : y ∈ filter P l) by (rewrite E; left).
  apply list_elem_of_filter in Hy as [HP Hin]. destruct (Hall y Hin HP).
Qed.

(** The refusal branch of the course deletion, in full: the response, the
    untouched collections, and the single round trip made. *)
Lemma delete_course_refusal `{Driver} (w : world) (id : string)
    (s : studentSchema.doc) :
  s ∈ students w -> studentSchema.course s = id ->
  delete_api_courses_id id w =
    (Ok (Response 400 (Message "Cannot delete course with enrolled students")),
     World (students w) (courses w) (trace w ++ [StudentOp "countDocuments"])).
Proof.
  intros Hin Hc. unfold delete_api_courses_id, Student.countDocuments. run.
  rewrite (count_positive _ _ s Hin Hc). reflexivity.
Qed.

Lemma isValid_true `{Driver} (id : string) :
  isValid id = true <-> exists oid, castObjectId id = Some oid.
Proof.
  unfold isValid. rewrite bool_decide_eq_true. reflexivity.
Qed.

Lemma isValid_false `{Driver} (id : string) :
  isValid id = false <-> castObjectId id = None.
Proof.
  unfold isValid. rewrite bool_decide_eq_false.
  destruct (castObjectId id) as [oid|].
  - split; [intros Hn; destruct Hn; eexists; reflexivity | discriminate].
  - split; [reflexivity | intros _ [x Hx]; discriminate].
Qed.

(** ** Deleting a course *)

(** C4.  When some student's [course] field equals the identifier in the
    route, [DELETE /api/courses/:id] answers 400 with the conflict message
    and both collections are left as they were; in particular every course
    that was present is still present. *)
Theorem delete_course_with_students_is_refused `{Driver}
    (w : world) (id : string)
    (Henrolled : exists s, s ∈ students w /\ studentSchema.course s = id) :
  exists w',
    delete_api_courses_id id w =
      (Ok (Response 400 (Message "Cannot delete course with enrolled students")),
       w') /\
    same_data w w' /\
    forall c, c ∈ courses w -> c ∈ courses w'.
Proof.
  destruct Henrolled as [s [Hin Hc]].
  eexists. split; [apply (delete_course_refusal w id s Hin Hc)|].
  split; [split; reflexivity | intros c Hcin; exact Hcin].
Qed.

Lemma delete_course_with_students_is_refused_witness :
  (exists s, s ∈ students campus /\
             studentSchema.course s = "00000000000000000000000b") /\
  (exists w',
    @delete_api_courses_id hex_driver "00000000000000000000000b" campus =
      (Ok (Response 400 (Message "Cannot delete course with enrolled students")),
       w') /\
    same_data campus w' /\
    forall c, c ∈ courses campus -> c ∈ courses w').
Proof.
  assert (He : exists s, s ∈ students campus /\
                 studentSchema.course s = "00000000000000000000000b").
  { exists bob. split; [right; left | reflexivity]. }
  split; [exact He|].
  apply (@delete_course_with_students_is_refused hex_driver campus
           "00000000000000000000000b" He).
Defined.

(** C9.  The count of dependent students comes first: when no course has
    the identifier but some student's [course] field equals the identifier
    string, the answer is the 400 conflict message, not 404, and the only
    round trip made is the count on the student collection. *)
Theorem delete_course_counts_students_first `{Driver}
    (w : world) (id : string)
    (Hnocourse : forall c, c ∈ courses w ->
                   castObjectId id <> Some (courseSchema._id c))
    (Henrolled : exists s, s ∈ students w /\ studentSchema.course s = id) :
  exists r w',
    delete_api_courses_id id w = (Ok r, w') /\
    r = Response 400 (Message "Cannot delete course with enrolled students") /\
    statusCode r <> 404%nat /\
    trace w' = trace w ++ [StudentOp "countDocuments"].
Proof.
  destruct Henrolled as [s [Hin Hc]].
  eexists _, _. split; [apply (delete_course_refusal w id s Hin Hc)|].
  split; [reflexivity|]. split; [discriminate | reflexivity].
Qed.

Lemma delete_course_counts_students_first_witness :
  (forall c, c ∈ courses campus ->
     @castObjectId hex_driver "CS101" <> Some (courseSchema._id c)) /\
  (exists s, s ∈ students campus /\ studentSchema.course s = "CS101") /\
  (exists r w',
    @delete_api_courses_id hex_driver "CS101" campus = (Ok r, w') /\
    r = Response 400 (Message "Cannot delete course with enrolled students") /\
    statusCode r <> 404%nat /\
    trace w' = trace campus ++ [StudentOp "countDocuments"]).
Proof.
  assert (Hn : forall c, c ∈ courses campus ->
                 @castObjectId hex_driver "CS101" <> Some (courseSchema._id c)).
  { intros c _. vm_compute. discriminate. }
  assert (He : exists s, s ∈ students campus /\ studentSchema.course s = "CS101").
  { exists alice. split; [left | reflexivity]. }
  split; [exact Hn|]. split; [exact He|].
  apply (@delete_course_counts_students_first hex_driver campus "CS101" Hn He).
Defined.

(** C8.  When the course exists and no student's [course] field equals the
    identifier in the route, the deletion is confirmed and a following
    [GET /api/courses/:id] for the same identifier answers 404. *)
Theorem delete_course_then_get_is_not_found `{Driver}
    (w : world) (id : string) (c : courseSchema.doc)
    (Hids : unique_ids w)
    (Hcast : castObjectId id = Some (courseSchema._id c))
    (Hpresent : c ∈ courses w)
    (Hfree : forall s, s ∈ students w -> studentSchema.course s <> id) :
  exists w1 w2,
    delete_api_courses_id id w =
      (Ok (Response 200 (Message "Course deleted successfully")), w1) /\
    get_api_courses_id id w1 =
      (Ok (Response 404 (Message "Course not found")), w2) /\
    students w1 = students w.
Proof.
  destruct Hids as [_ Hcids].
  pose proof (find_by_elem courseSchema._id _ _ c Hcids Hpresent eq_refl) as Hfind.
  unfold delete_api_courses_id, get_api_courses_id, Student.countDocuments,
    Course.findByIdAndDelete, Course.findById. run.
  rewrite (count_zero _ (students w) Hfree). simpl.
  rewrite Hcast. simpl. rewrite Hfind. simpl.
  eexists _, _. split; [reflexivity|]. simpl.
  rewrite (find_by_delete_by courseSchema._id _ _ Hcids).
  split; reflexivity.
Qed.

Lemma delete_course_then_get_is_not_found_witness :
  unique_ids campus /\
  @castObjectId hex_driver "00000000000000000000000a"
    = Some (courseSchema._id algebra) /\
  algebra ∈ courses campus /\
  (forall s, s ∈ students campus ->
     studentSchema.course s <> "00000000000000000000000a") /\
  (exists w1 w2,
    @delete_api_courses_id hex_driver "00000000000000000000000a" campus =
      (Ok (Response 200 (Message "Course deleted successfully")), w1) /\
    @get_api_courses_id hex_driver "00000000000000000000000a" w1 =
      (Ok (Response 404 (Message "Course not found")), w2) /\
    students w1 = students campus).
Proof.
  assert (Hu : unique_ids campus).
  { split; apply (bool_decide_unpack _); vm_compute; exact I. }
  assert (Hc : @castObjectId hex_driver "00000000000000000000000a"
                 = Some (courseSchema._id algebra)) by reflexivity.
  assert (Hp : algebra ∈ courses campus) by left.
  assert (Hf : forall s, s ∈ students campus ->
                 studentSchema.course s <> "00000000000000000000000a").
  { intros s Hs. apply list_elem_of_In in Hs.
    destruct Hs as [<-|[<-|[]]]; discriminate. }
  split; [exact Hu|]. split; [exact Hc|]. split; [exact Hp|]. split; [exact Hf|].
  apply (@delete_course_then_get_is_not_found hex_driver campus
           "00000000000000000000000a" algebra Hu Hc Hp Hf).
Defined.

(** ** Fetching a student *)

(** C5.  [GET /api/students/:id] answers 400 for an identifier that is not
    well formed, and does so without a round trip to the store (the world,
    trace included, is unchanged); for a well-formed identifier it answers
    404 when no student has it and 200 with the record when one has. *)
Theorem get_student_by_id_responses `{Driver}
    (w : world) (id : string)
    (Hids : NoDup (studentSchema._id <$> students w)) :
  (isValid id = false ->
     get_api_students_id id w =
       (Ok (Response 400 (Message "Invalid student ID format")), w)) /\
  (isValid id = true ->
     exists oid, castObjectId id = Some oid /\
       ((forall s, s ∈ students w -> studentSchema._id s <> oid) ->
          get_api_students_id id w =
            (Ok (Response 404 (Message "Student not found")),
             World (students w) (courses w) (trace w ++ [StudentOp "findOne"]))) /\
       (forall s, s ∈ students w -> studentSchema._id s = oid ->
          get_api_students_id id w =
            (Ok (Response 200 (StudentJson s)),
             World (students w) (courses w) (trace w ++ [StudentOp "findOne"])))).
Proof.
  split.
  - intros Hbad. unfold get_api_students_id. run. rewrite Hbad. reflexivity.
  - intros Hgood. destruct (proj1 (isValid_true id) Hgood) as [oid Hcast].
    exists oid. split; [exact Hcast|].
    split.
    + intros Hnone. apply find_by_None in Hnone.
      unfold get_api_students_id, Student.findById. run.
      rewrite Hgood, Hcast. simpl. rewrite Hnone. reflexivity.
    + intros s Hin Hk.
      pose proof (find_by_elem studentSchema._id oid _ s Hids Hin Hk) as Hfind.
      unfold get_api_students_id, Student.findById. run.
      rewrite Hgood, Hcast. simpl. rewrite Hfind. reflexivity.
Qed.

Lemma get_student_by_id_responses_witness :
  NoDup (studentSchema._id <$> students campus) /\
  ((@isValid hex_driver "0000000000000000000000a1" = false ->
     @get_api_students_id hex_driver "0000000000000000000000a1" campus =
       (Ok (Response 400 (Message "Invalid student ID format")), campus)) /\
   (@isValid hex_driver "0000000000000000000000a1" = true ->
     exists oid, @castObjectId hex_driver "0000000000000000000000a1" = Some oid /\
       ((forall s, s ∈ students campus -> studentSchema._id s <> oid) ->
          @get_api_students_id hex_driver "0000000000000000000000a1" campus =
            (Ok (Response 404 (Message "Student not found")),
             World (students campus) (courses campus)
               (trace campus ++ [StudentOp "findOne"]))) /\
       (forall s, s ∈ students campus -> studentSchema._id s = oid ->
          @get_api_students_id hex_driver "0000000000000000000000a1" campus =
            (Ok (Response 200 (StudentJson s)),
             World (students campus) (courses campus)
               (trace campus ++ [StudentOp "findOne"]))))).
Proof.
  assert (Hu : NoDup (studentSchema._id <$> students campus)).
  { apply (bool_decide_unpack _); vm_compute; exact I. }
  split; [exact Hu|].
  apply (@get_student_by_id_responses hex_driver campus
           "0000000000000000000000a1" Hu).
Defined.

(** The three answers on the sample store. *)
Example get_student_malformed :
  fst (@get_api_students_id hex_driver "not-an-id" campus)
  = Ok (Response 400 (Message "Invalid student ID format")).
Proof. reflexivity. Qed.

Example get_student_absent :
  fst (@get_api_students_id hex_driver "0000000000000000000000ff" campus)
  = Ok (Response 404 (Message "Student not found")).
Proof. reflexivity. Qed.

Example get_student_present :
  fst (@get_api_students_id hex_driver "0000000000000000000000A1" campus)
  = Ok (Response 200 (StudentJson alice)).
Proof. reflexivity. Qed.

(** ** Invariants along handlers *)

(** [m] keeps [I]: whatever [m] returns or throws, the world it leaves
    satisfies [I] when the world it started from did. *)
Definition preserves {A : Type} (I : world -> Prop) (m : M A) : Prop :=
  forall w, I w -> I (snd (m w)).

Section Preservation.
Variable I : world -> Prop.
Hypothesis I_trace :
  forall s c t t', I (World s c t) -> I (World s c t').

Lemma preserves_ret {A} (a : A) : preserves I (mret a).
Proof. intros w Hw. exact Hw. Qed.

Lemma preserves_throw {A} (e : error) : preserves I (@throw A e).
Proof. intros w Hw. exact Hw. Qed.

Lemma preserves_bind {A B} (m : M A) (f : A -> M B) :
  preserves I m -> (forall a, preserves I (f a)) -> preserves I (m ≫= f).
Proof.
  intros Hm Hf w Hw. specialize (Hm w Hw).
  unfold mbind, M_bind. destruct (m w) as [[a|e] w']; simpl in *.
  - apply Hf, Hm.
  - exact Hm.
Qed.

Lemma preserves_try_catch {A} (m : M A) (h : error -> M A) :
  preserves I m -> (forall e, preserves I (h e)) ->
  preserves I (try_catch m h).
Proof.
  intros Hm Hh w Hw. specialize (Hm w Hw).
  unfold try_catch. destruct (m w) as [[a|e] w']; simpl in *.
  - exact Hm.
  - apply Hh, Hm.
Qed.

Lemma preserves_query (op : store_op) : preserves I (query op).
Proof. intros [s c t] Hw. simpl. eapply I_trace, Hw. Qed.

Lemma preserves_get_students : preserves I get_students.
Proof. intros w Hw. exact Hw. Qed.

Lemma preserves_get_courses : preserves I get_courses.
Proof. intros w Hw. exact Hw. Qed.
End Preservation.

Ltac preserve_step :=
  match goal with
  | |- preserves _ (try_catch _ _) => apply preserves_try_catch
  | |- preserves _ (mbind _ _) => apply preserves_bind
  | |- preserves _ (mret _) => apply preserves_ret
  | |- preserves _ (respond _ _) => apply preserves_ret
  | |- preserves _ (throw _) => apply preserves_throw
  | |- preserves _ (query _) => apply preserves_query; [assumption]
  | |- preserves _ get_students => apply preserves_get_students
  | |- preserves _ get_courses => apply preserves_get_courses
  | |- preserves _ (match ?x with _ => _ end) => destruct x
  | |- forall _, _ => intro
  end.

Ltac preserve := repeat preserve_step.

(** The operations that only read keep every invariant that does not
    depend on the trace. *)
Section ReadOnly.
Context `{Driver}.
Variable I : world -> Prop.
Hypothesis I_trace :
  forall s c t t', I (World s c t) -> I (World s c t').

Lemma Student_countDocuments_preserves (P : studentSchema.doc -> Prop)
    `{!forall d, Decision (P d)} :
  preserves I (Student.countDocuments P).
Proof. unfold Student.countDocuments. preserve. Qed.

Lemma Course_countDocuments_preserves (P : courseSchema.doc -> Prop)
    `{!forall d, Decision (P d)} :
  preserves I (Course.countDocuments P).
Proof. unfold Course.countDocuments. preserve. Qed.

Lemma Student_find_sort_preserves :
  preserves I Student.find_sort_createdAt_desc.
Proof. unfold Student.find_sort_createdAt_desc. preserve. Qed.

Lemma Course_find_sort_preserves : preserves I Course.find_sort_name_asc.
Proof. unfold Course.find_sort_name_asc. preserve. Qed.

Lemma Student_find_or_regex_preserves (q : string) :
  preserves I (Student.find_or_regex q).
Proof. unfold Student.find_or_regex. preserve. Qed.

Lemma Student_findById_preserves (id : string) :
  preserves I (Student.findById id).
Proof. unfold Student.findById. preserve. Qed.

Lemma Course_findById_preserves (id : string) :
  preserves I (Course.findById id).
Proof. unfold Course.findById. preserve. Qed.

Lemma Student_aggregate_preserves :
  preserves I Student.aggregate_group_by_course.
Proof. unfold Student.aggregate_group_by_course. preserve. Qed.

Lemma getDashboardStats_preserves : preserves I getDashboardStats.
Proof.
  unfold getDashboardStats.
  repeat first
    [ apply Student_countDocuments_preserves
    | apply Course_countDocuments_preserves
    | apply Student_aggregate_preserves
    | preserve_step ].
Qed.
End ReadOnly.

Lemma unique_emails_trace s c t t' :
  unique_emails (World s c t) -> unique_emails (World s c t').
Proof. intros Hw. exact Hw. Qed.

Lemma unique_ids_trace s c t t' :
  unique_ids (World s c t) -> unique_ids (World s c t').
Proof. intros Hw. exact Hw. Qed.

Lemma NoDup_snoc {A : Type} (l : list A) (x : A) :
  NoDup l -> x ∉ l -> NoDup (l ++ [x]).
Proof.
  intros Hl Hx. apply NoDup_app. split; [exact Hl|]. split.
  - intros y Hy Hy'. apply list_elem_of_singleton in Hy'. subst. contradiction.
  - apply NoDup_singleton.
Qed.

(** *** The writes keep e-mail addresses unique *)

Lemma Student_save_unique_emails newId now b :
  preserves unique_emails (Student.save newId now b).
Proof.
  intros w Hw. unfold Student.save.
  destruct (Student.validate b); [|exact Hw]. run.
  destruct (decide (newId ∈ studentSchema._id <$> students w)); [exact Hw|].
  destruct (decide _); [exact Hw|].
  unfold unique_emails. simpl. rewrite fmap_app. simpl.
  apply NoDup_snoc; assumption.
Qed.

Lemma Student_update_unique_emails `{Driver} id b now :
  preserves unique_emails (Student.findByIdAndUpdate id b now).
Proof.
  intros w Hw. unfold Student.findByIdAndUpdate.
  destruct (castObjectId id) as [oid|]; [|exact Hw]. run.
  destruct (find_by studentSchema._id oid (students w)) as [d|]; [|exact Hw].
  destruct (decide _); [exact Hw|].
  unfold unique_emails. simpl.
  apply replace_by_NoDup; assumption.
Qed.

Lemma Student_delete_unique_emails `{Driver} id :
  preserves unique_emails (Student.findByIdAndDelete id).
Proof.
  intros w Hw. unfold Student.findByIdAndDelete.
  destruct (castObjectId id) as [oid|]; [|exact Hw]. run.
  destruct (find_by studentSchema._id oid (students w)) as [d|]; [|exact Hw].
  unfold unique_emails. simpl. apply delete_by_NoDup, Hw.
Qed.

Lemma Course_save_unique_emails newId now b :
  preserves unique_emails (Course.save newId now b).
Proof.
  intros w Hw. unfold Course.save.
  destruct (Course.validate b); [|exact Hw]. run.
  repeat (destruct (decide _); [exact Hw|]). exact Hw.
Qed.

Lemma Course_update_unique_emails `{Driver} id b now :
  preserves unique_emails (Course.findByIdAndUpdate id b now).
Proof.
  intros w Hw. unfold Course.findByIdAndUpdate.
  destruct (castObjectId id) as [oid|]; [|exact Hw]. run.
  destruct (find_by courseSchema._id oid (courses w)) as [d|]; [|exact Hw].
  destruct (decide _); exact Hw.
Qed.

Lemma Course_delete_unique_emails `{Driver} id :
  preserves unique_emails (Course.findByIdAndDelete id).
Proof.
  intros w Hw. unfold Course.findByIdAndDelete.
  destruct (castObjectId id) as [oid|]; [|exact Hw]. run.
  destruct (find_by courseSchema._id oid (courses w)) as [d|]; exact Hw.
Qed.

(** *** The writes keep identifiers unique *)

Lemma Student_save_unique_ids newId now b :
  preserves unique_ids (Student.save newId now b).
Proof.
  intros w Hw. unfold Student.save.
  destruct (Student.validate b); [|exact Hw]. run.
  destruct (decide (newId ∈ studentSchema._id <$> students w)); [exact Hw|].
  destruct (decide _); [exact Hw|].
  destruct Hw as [Hs Hc]. split; [|exact Hc]. simpl.
  rewrite fmap_app. simpl. apply NoDup_snoc; assumption.
Qed.

Lemma Student_update_unique_ids `{Driver} id b now :
  preserves unique_ids (Student.findByIdAndUpdate id b now).
Proof.
  intros w Hw. unfold Student.findByIdAndUpdate.
  destruct (castObjectId id) as [oid|] eqn:Hcast; [|exact Hw]. run.
  destruct (find_by studentSchema._id oid (students w)) as [d|] eqn:Hf;
    [|exact Hw].
  destruct (decide _); [exact Hw|].
  destruct Hw as [Hs Hc]. split; [|exact Hc]. simpl.
  rewrite replace_by_keys; [exact Hs|].
  simpl. apply (find_by_Some _ _ _ _ Hf).
Qed.

Lemma Student_delete_unique_ids `{Driver} id :
  preserves unique_ids (Student.findByIdAndDelete id).
Proof.
  intros w Hw. unfold Student.findByIdAndDelete.
  destruct (castObjectId id) as [oid|]; [|exact Hw]. run.
  destruct (find_by studentSchema._id oid (students w)) as [d|]; [|exact Hw].
  destruct Hw as [Hs Hc]. split; [|exact Hc]. simpl.
  apply delete_by_NoDup, Hs.
Qed.

Lemma Course_save_unique_ids newId now b :
  preserves unique_ids (Course.save newId now b).
Proof.
  intros w Hw. unfold Course.save.
  destruct (Course.validate b); [|exact Hw]. run.
  destruct (decide (newId ∈ courseSchema._id <$> courses w)); [exact Hw|].
  destruct (decide _); [exact Hw|].
  destruct Hw as [Hs Hc]. split; [exact Hs|]. simpl.
  rewrite fmap_app. simpl. apply NoDup_snoc; assumption.
Qed.

Lemma Course_update_unique_ids `{Driver} id b now :
  preserves unique_ids (Course.findByIdAndUpdate id b now).
Proof.
  intros w Hw. unfold Course.findByIdAndUpdate.
  destruct (castObjectId id) as [oid|] eqn:Hcast; [|exact Hw]. run.
  destruct (find_by courseSchema._id oid (courses w)) as [d|] eqn:Hf;
    [|exact Hw].
  destruct (decide _); [exact Hw|].
  destruct Hw as [Hs Hc]. split; [exact Hs|]. simpl.
  rewrite replace_by_keys; [exact Hc|].
  simpl. apply (find_by_Some _ _ _ _ Hf).
Qed.

Lemma Course_delete_unique_ids `{Driver} id :
  preserves unique_ids (Course.findByIdAndDelete id).
Proof.
  intros w Hw. unfold Course.findByIdAndDelete.
  destruct (castObjectId id) as [oid|]; [|exact Hw]. run.
  destruct (find_by courseSchema._id oid (courses w)) as [d|]; [|exact Hw].
  destruct Hw as [Hs Hc]. split; [exact Hs|]. simpl.
  apply delete_by_NoDup, Hc.
Qed.

(** *** Every route keeps both invariants *)

Ltac unfold_routes :=
  unfold get_api_courses, post_api_courses, put_api_courses_id,
    delete_api_courses_id, get_api_courses_id, get_api_students,
    post_api_students, put_api_students_id, delete_api_students_id,
    get_api_students_search, get_api_students_id, get_api_dashboard_stats.

Ltac preserve_routes I_trace :=
  repeat first
    [ apply Student_countDocuments_preserves; exact I_trace
    | apply Course_countDocuments_preserves; exact I_trace
    | apply Student_find_sort_preserves; exact I_trace
    | apply Course_find_sort_preserves; exact I_trace
    | apply Student_find_or_regex_preserves; exact I_trace
    | apply Student_findById_preserves; exact I_trace
    | apply Course_findById_preserves; exact I_trace
    | apply getDashboardStats_preserves; exact I_trace
    | preserve_step ].

Lemma route_unique_emails `{Driver} (r : request) :
  preserves unique_emails (route r).
Proof.
  pose proof unique_emails_trace as Ht.
  destruct r; simpl; unfold_routes;
    repeat first
      [ apply Student_save_unique_emails
      | apply Student_update_unique_emails
      | apply Student_delete_unique_emails
      | apply Course_save_unique_emails
      | apply Course_update_unique_emails
      | apply Course_delete_unique_emails
      | progress preserve_routes Ht ].
Qed.

Lemma route_unique_ids `{Driver} (r : request) :
  preserves unique_ids (route r).
Proof.
  pose proof unique_ids_trace as Ht.
  destruct r; simpl; unfold_routes;
    repeat first
      [ apply Student_save_unique_ids
      | apply Student_update_unique_ids
      | apply Student_delete_unique_ids
      | apply Course_save_unique_ids
      | apply Course_update_unique_ids
      | apply Course_delete_unique_ids
      | progress preserve_routes Ht ].
Qed.

(** No route lets an exception escape: a response is always sent. *)
Lemma route_responds `{Driver} (r : request) (w : world) :
  exists resp w', route r w = (Ok resp, w').
Proof.
  destruct r; simpl; unfold_routes; unfold try_catch, respond;
    match goal with
    | |- context [match ?m w with _ => _ end] =>
        destruct (m w) as [[a|e] w1]
    end;
    try (unfold mret, M_ret; eexists _, _; reflexivity).
Qed.

(** ** Creating a student *)

(** The validators of the schema, read as a predicate on the body. *)
Lemma required_string_nil (path : string) (v : option string) :
  Student.required_string path v = [] <->
  exists s, v = Some s /\ s <> EmptyString.
Proof.
  unfold Student.required_string. destruct v as [s|].
  - destruct (decide (s = EmptyString)) as [->|Hne].
    + split; [discriminate | intros [s [[= <-] Hs]]; contradiction].
    + split; [intros _; exists s; auto | reflexivity].
  - split; [discriminate | intros [s [Hs _]]; discriminate].
Qed.

(** The validators accept exactly the acceptable bodies. *)
Lemma validate_acceptable (b : studentSchema.input) :
  Student.validate b = [] <-> acceptable_student b.
Proof.
  unfold Student.validate, acceptable_student.
  rewrite !app_nil, !required_string_nil.
  assert (Hdate : match studentSchema.in_enrollmentDate b with
                  | Some _ => [] | None => ["enrollmentDate"] end = []
                  <-> exists t, studentSchema.in_enrollmentDate b = Some t).
  { destruct (studentSchema.in_enrollmentDate b) as [t|].
    - split; [intros _; exists t; reflexivity | reflexivity].
    - split; [discriminate | intros [t Ht]; discriminate]. }
  assert (Hstatus : match studentSchema.in_status b with
                    | Some s => if decide (s = "active" \/ s = "inactive")
                                then [] else ["status"]
                    | None => [] end = []
                    <-> forall s, studentSchema.in_status b = Some s ->
                                  s = "active" \/ s = "inactive").
  { destruct (studentSchema.in_status b) as [s|].
    - destruct (decide (s = "active" \/ s = "inactive")) as [Hs|Hs].
      + split; [intros _ s' [= <-]; exact Hs | reflexivity].
      + split; [discriminate | intros Hall; destruct Hs; auto].
    - split; [intros _ s Hs; discriminate | reflexivity]. }
  rewrite Hdate, Hstatus. tauto.
Qed.

(** C7, as amended.  In a store whose students have pairwise distinct e-mail
    addresses, a [POST /api/students] whose body carries an address already
    in use is answered 400 and leaves both collections as they were.  The
    error is the duplicate-key error of a unique index when the body passes
    the validators of the schema (on [email] when the generated identifier
    is not in use), and a validation error, raised before the store is
    reached, when it does not.  Every route leaves the addresses pairwise
    distinct. *)
Theorem student_emails_stay_unique `{Driver} (w : world)
    (Hinv : unique_emails w) :
  (forall newId now b E,
     studentSchema.in_email b = Some E ->
     E ∈ studentSchema.email <$> students w ->
     exists e w',
       post_api_students newId now b w =
         (Ok (Response 400 (ErrorMessage e)), w') /\
       same_data w w' /\
       (acceptable_student b -> exists path, e = DuplicateKeyError path) /\
       (acceptable_student b ->
        newId ∉ studentSchema._id <$> students w ->
        e = DuplicateKeyError "email") /\
       (~ acceptable_student b ->
        exists paths, paths <> [] /\ e = ValidationError paths /\ w' = w)) /\
  (forall r, unique_emails (snd (route r w))).
Proof.
  split.
  - intros newId now b E Hb HE.
    unfold post_api_students, Student.save.
    destruct (Student.validate b) as [|p ps] eqn:Hv.
    + assert (Hacc : acceptable_student b) by (apply validate_acceptable, Hv).
      run.
      destruct (decide (newId ∈ studentSchema._id <$> students w)).
      * eexists _, _. split; [reflexivity|]. split; [split; reflexivity|].
        split; [intros _; eexists; reflexivity|].
        split; [intros _ Hfresh; contradiction | intros Hna; contradiction].
      * rewrite Hb. simpl.
        destruct (decide (E ∈ studentSchema.email <$> students w)); [|contradiction].
        eexists _, _. split; [reflexivity|]. split; [split; reflexivity|].
        split; [intros _; eexists; reflexivity|].
        split; [intros _ _; reflexivity | intros Hna; contradiction].
    + assert (Hna : ~ acceptable_student b).
      { intros Hacc. apply validate_acceptable in Hacc.
        rewrite Hv in Hacc. discriminate. }
      run. eexists _, _. split; [reflexivity|]. split; [split; reflexivity|].
      split; [intros Hacc; contradiction|].
      split; [intros Hacc; contradiction|].
      intros _. exists (p :: ps). split; [discriminate|].
      split; reflexivity.
  - intros r. apply route_unique_emails, Hinv.
Qed.

Lemma student_emails_stay_unique_witness :
  unique_emails campus /\
  ((forall newId now b E,
     studentSchema.in_email b = Some E ->
     E ∈ studentSchema.email <$> students campus ->
     exists e w',
       post_api_students newId now b campus =
         (Ok (Response 400 (ErrorMessage e)), w') /\
       same_data campus w' /\
       (acceptable_student b -> exists path, e = DuplicateKeyError path) /\
       (acceptable_student b ->
        newId ∉ studentSchema._id <$> students campus ->
        e = DuplicateKeyError "email") /\
       (~ acceptable_student b ->
        exists paths,
          paths <> [] /\ e = ValidationError paths /\ w' = campus)) /\
   (forall r, unique_emails (snd (@route hex_driver r campus)))).
Proof.
  assert (Hu : unique_emails campus).
  { apply (bool_decide_unpack _); vm_compute; exact I. }
  split; [exact Hu|].
  apply (@student_emails_stay_unique hex_driver campus Hu).
Defined.

(** C7, as stated, fails: Alice's address is in use, and a body that
    carries it and nothing else is answered 400 with a validation error,
    not a uniqueness error; the store is not reached. *)
Lemma post_student_reused_email_fails_validation :
  "alice@example" ∈ studentSchema.email <$> students campus /\
  exists paths,
    post_api_students 200%N 1700000100
      (studentSchema.Input None (Some "alice@example") None None None) campus
    = (Ok (Response 400 (ErrorMessage (ValidationError paths))), campus) /\
    "name" ∈ paths /\
    forall path, ValidationError paths <> DuplicateKeyError path.
Proof.
  split.
  - apply (bool_decide_unpack _). vm_compute. exact I.
  - eexists. split; [reflexivity|]. split.
    + apply (bool_decide_unpack _). vm_compute. exact I.
    + intros path. discriminate.
Qed.

(** The duplicate on the sample store: a valid body reusing Alice's
    address is refused with the duplicate-key error on [email]. *)
Example post_student_duplicate_email :
  post_api_students 200%N 1700000100
    (studentSchema.Input (Some "Carol") (Some "alice@example") (Some "CS101")
       (Some 1700000000) None) campus
  = (Ok (Response 400 (ErrorMessage (DuplicateKeyError "email"))),
     World (students campus) (courses campus) [StudentOp "insertOne"]).
Proof. reflexivity. Qed.

(** The update path is guarded by the same index. *)
Example put_student_duplicate_email :
  @put_api_students_id hex_driver "0000000000000000000000a2"
    (studentSchema.Input None (Some "alice@example") None None None)
    1700000100 campus
  = (Ok (Response 400 (ErrorMessage (DuplicateKeyError "email"))),
     World (students campus) (courses campus) [StudentOp "findOneAndUpdate"]).
Proof. reflexivity. Qed.

(** Both invariants hold along any sequence of requests. *)
Fixpoint run_requests `{Driver} (rs : list request) (w : world) : world :=
  match rs with
  | [] => w
  | r :: rest => run_requests rest (snd (route r w))
  end.

Lemma run_requests_invariants `{Driver} (rs : list request) (w : world) :
  unique_emails w -> unique_ids w ->
  unique_emails (run_requests rs w) /\ unique_ids (run_requests rs w).
Proof.
  revert w. induction rs as [|r rs IH]; intros w He Hi; simpl; [auto|].
  apply IH; [apply route_unique_emails, He | apply route_unique_ids, Hi].
Qed.

(** ** Dashboard statistics *)

Lemma filter_everything {A : Type} (l : list A) :
  filter (fun _ : A => True) l = l.
Proof.
  induction l as [|x l IH]; [reflexivity|].
  rewrite filter_cons_True by exact I. rewrite IH. reflexivity.
Qed.

Lemma getDashboardStats_value (w : world) :
  getDashboardStats w =
    (Ok (Stats
           (length (students w))
           (length (filter (fun s => studentSchema.status s = "active") (students w)))
           (length (courses w))
           (length (filter (fun c => courseSchema.status c = "active") (courses w)))
           (length (filter (fun s => studentSchema.status s = "inactive") (students w)))
           (Student.group_by_course (students w))
           (rate_of
              (length (filter (fun s => studentSchema.status s = "inactive") (students w)))
              (length (students w)))),
     World (students w) (courses w)
       (trace w ++ [StudentOp "countDocuments"; StudentOp "countDocuments";
                    CourseOp "countDocuments"; CourseOp "countDocuments";
                    StudentOp "countDocuments"; StudentOp "aggregate"])).
Proof.
  unfold getDashboardStats, Student.countDocuments, Course.countDocuments,
    Student.aggregate_group_by_course. run.
  rewrite !filter_everything. unfold rate_of.
  repeat rewrite <- app_assoc. reflexivity.
Qed.

Lemma sum_counts_insert (m : gmap string nat) (k : string) (v : nat) :
  m !! k = None -> sum_counts (<[k := v]> m) = (v + sum_counts m)%nat.
Proof.
  intros Hk. unfold sum_counts.
  apply (map_fold_insert_L (fun _ n acc => (n + acc)%nat)); [|exact Hk].
  intros; lia.
Qed.

Lemma sum_counts_delete (m : gmap string nat) (k : string) (v : nat) :
  m !! k = Some v -> sum_counts m = (v + sum_counts (delete k m))%nat.
Proof.
  intros Hk. unfold sum_counts.
  apply (map_fold_delete_L (fun _ n acc => (n + acc)%nat)); [|exact Hk].
  intros; lia.
Qed.

(** Counting one more document under its key adds one to the total. *)
Lemma sum_counts_bump (m : gmap string nat) (k : string) :
  sum_counts (<[k := S (default 0%nat (m !! k))]> m) = S (sum_counts m).
Proof.
  destruct (m !! k) as [v|] eqn:Hk; simpl.
  - rewrite <- insert_delete_eq.
    rewrite sum_counts_insert by apply lookup_delete_eq.
    rewrite (sum_counts_delete m k v Hk). lia.
  - rewrite sum_counts_insert by exact Hk. lia.
Qed.

Lemma group_by_course_cons (d : studentSchema.doc)
    (l : list studentSchema.doc) :
  Student.group_by_course (d :: l) =
    <[studentSchema.course d :=
        S (default 0%nat (Student.group_by_course l !! studentSchema.course d))]>
      (Student.group_by_course l).
Proof. reflexivity. Qed.

Lemma sum_counts_group (l : list studentSchema.doc) :
  sum_counts (Student.group_by_course l) = length l.
Proof.
  induction l as [|d l IH]; [reflexivity|].
  rewrite group_by_course_cons, sum_counts_bump, IH. reflexivity.
Qed.

(** Each group counts the students carrying its course value. *)
Lemma group_by_course_lookup (l : list studentSchema.doc) (c : string) :
  Student.group_by_course l !! c =
    match length (filter (fun s => studentSchema.course s = c) l) with
    | O => None
    | S n => Some (S n)
    end.
Proof.
  induction l as [|d l IH]; [reflexivity|].
  rewrite group_by_course_cons.
  destruct (decide (studentSchema.course d = c)) as [Heq|Hne].
  - rewrite filter_cons_True by exact Heq. subst c.
    rewrite lookup_insert_eq, IH. simpl.
    destruct (length _); reflexivity.
  - rewrite filter_cons_False by exact Hne.
    rewrite lookup_insert_ne by exact Hne. exact IH.
Qed.

Lemma length_filter_split {A : Type} (P Q : A -> Prop)
    `{!forall x, Decision (P x)} `{!forall x, Decision (Q x)} (l : list A) :
  (forall x, x ∈ l -> P x \/ Q x) ->
  (forall x, P x -> Q x -> False) ->
  length l = (length (filter P l) + length (filter Q l))%nat.
Proof.
  intros Hcover Hexcl. induction l as [|x l IH]; [reflexivity|].
  assert (IH' : length l = (length (filter P l) + length (filter Q l))%nat).
  { apply IH. intros y Hy. apply Hcover. right. exact Hy. }
  destruct (Hcover x) as [HP|HQ]; [left| |].
  - rewrite (filter_cons_True P) by exact HP.
    rewrite (filter_cons_False Q) by (intros HQ; exact (Hexcl x HP HQ)).
    simpl. lia.
  - rewrite (filter_cons_False P) by (intros HP; exact (Hexcl x HP HQ)).
    rewrite (filter_cons_True Q) by exact HQ.
    simpl. lia.
Qed.

(** C10.  When every student's status is "active" or "inactive", the
    statistics satisfy totalStudents = activeStudents + graduates, and the
    per-course counts add up to totalStudents. *)
Theorem dashboard_counts_add_up (w : world)
    (Hstatus : forall s, s ∈ students w ->
       studentSchema.status s = "active" \/ studentSchema.status s = "inactive") :
  exists stats w',
    getDashboardStats w = (Ok stats, w') /\
    totalStudents stats = (activeStudents stats + graduates stats)%nat /\
    sum_counts (courseCounts stats) = totalStudents stats.
Proof.
  eexists _, _. split; [apply getDashboardStats_value|]. simpl. split.
  - apply length_filter_split; [exact Hstatus|].
    intros s Ha Hi. rewrite Ha in Hi. discriminate.
  - apply sum_counts_group.
Qed.

Lemma dashboard_counts_add_up_witness :
  (forall s, s ∈ students campus ->
     studentSchema.status s = "active" \/ studentSchema.status s = "inactive") /\
  (exists stats w',
    getDashboardStats campus = (Ok stats, w') /\
    totalStudents stats = (activeStudents stats + graduates stats)%nat /\
    sum_counts (courseCounts stats) = totalStudents stats).
Proof.
  assert (Hs : forall s, s ∈ students campus ->
    studentSchema.status s = "active" \/ studentSchema.status s = "inactive").
  { intros s Hs. apply list_elem_of_In in Hs.
    destruct Hs as [<-|[<-|[]]]; [left | right]; reflexivity. }
  split; [exact Hs | apply (dashboard_counts_add_up campus Hs)].
Defined.

(** Without the hypothesis the first equation can fail: an update may
    store any status, since validators do not run on that path. *)
Example status_outside_enum_is_storable :
  match @put_api_students_id hex_driver "0000000000000000000000a1"
          (studentSchema.Input None None None None (Some "graduated"))
          1700000100 campus with
  | (Ok r, w') =>
      statusCode r = 200%nat /\
      match getDashboardStats w' with
      | (Ok stats, _) =>
          (totalStudents stats, activeStudents stats, graduates stats)
          = (2%nat, 0%nat, 1%nat)
      | _ => False
      end
  | _ => False
  end.
Proof. vm_compute. split; reflexivity. Qed.

(** ** The success rate *)

(** The source computes [Math.round((graduates / totalStudents) * 100)] in
    binary64.  Its value is compared with round(100 G / N) through the
    reals: a count is a binary64 number, the quotient and the product are
    each rounded once, and the two roundings move the result by less than
    1 / (2 N); on the ratios where 100 G / N is exactly a half the quotient
    depends on the ratio only, and the hundred such ratios are run. *)

Ltac lra_R := Lra.lra.
Ltac nra_R := Lra.nra.

(** *** Powers of two *)

Lemma bpow_pos (e : Z) : (0 < bpow e)%R.
Proof. apply powerRZ_lt. lra_R. Qed.

Lemma bpow_add (a b : Z) : bpow (a + b) = (bpow a * bpow b)%R.
Proof. apply powerRZ_add. lra_R. Qed.

Lemma bpow_succ (e : Z) : bpow (e + 1) = (2 * bpow e)%R.
Proof. rewrite bpow_add. unfold bpow at 2. simpl. lra_R. Qed.

Lemma bpow_IZR (e : Z) : 0 <= e -> bpow e = IZR (2 ^ e).
Proof.
  intros He. unfold bpow. destruct e as [|p|p]; [reflexivity| |lia].
  symmetry. exact (Zpower_pos_powerRZ 2 p).
Qed.

Lemma bpow_le (a b : Z) : a <= b -> (bpow a <= bpow b)%R.
Proof.
  intros Hab. replace b with (a + (b - a)) by lia.
  rewrite bpow_add, (bpow_IZR (b - a)) by lia.
  assert (1 <= 2 ^ (b - a)) as H by (pose proof (Z.pow_pos_nonneg 2 (b - a)); lia).
  apply IZR_le in H. pose proof (bpow_pos a). nra_R.
Qed.

Lemma bpow_lt (a b : Z) : a < b -> (bpow a < bpow b)%R.
Proof.
  intros Hab. apply Rlt_le_trans with (bpow (a + 1)).
  - rewrite bpow_succ. pose proof (bpow_pos a). lra_R.
  - apply bpow_le. lia.
Qed.

Lemma bpow_lt_inv (a b : Z) : (bpow a < bpow b)%R -> a < b.
Proof.
  intros Hlt. destruct (Z_lt_le_dec a b) as [H|H]; [exact H|].
  apply bpow_le in H. lra_R.
Qed.

(** Binary digits. *)
Lemma digits2_pos_bounds (m : positive) :
  2 ^ (Zpos (digits2_pos m) - 1) <= Zpos m < 2 ^ Zpos (digits2_pos m).
Proof.
  induction m as [m IH|m IH|]; simpl digits2_pos.
  - rewrite Pos2Z.inj_succ.
    replace (Z.succ (Zpos (digits2_pos m)) - 1) with (Z.succ (Zpos (digits2_pos m) - 1)) by lia.
    rewrite !Z.pow_succ_r by lia. lia.
  - rewrite Pos2Z.inj_succ.
    replace (Z.succ (Zpos (digits2_pos m)) - 1) with (Z.succ (Zpos (digits2_pos m) - 1)) by lia.
    rewrite !Z.pow_succ_r by lia. lia.
  - simpl. lia.
Qed.

Lemma digits2_pos_bpow (m : positive) (e : Z) :
  (bpow (Zpos (digits2_pos m) + e - 1) <= IZR (Zpos m) * bpow e
   < bpow (Zpos (digits2_pos m) + e))%R.
Proof.
  pose proof (digits2_pos_bounds m) as [Hlo Hhi].
  pose proof (bpow_pos e) as He.
  replace (Zpos (digits2_pos m) + e - 1) with ((Zpos (digits2_pos m) - 1) + e) by lia.
  rewrite !bpow_add.
  rewrite (bpow_IZR (Zpos (digits2_pos m) - 1)), (bpow_IZR (Zpos (digits2_pos m))) by lia.
  apply IZR_le in Hlo. apply IZR_lt in Hhi.
  split.
  - apply Rmult_le_compat_r; [apply Rlt_le, He | exact Hlo].
  - apply Rmult_lt_compat_r; [exact He | exact Hhi].
Qed.

Lemma Rabs_le_bounds (a b : R) : (Rabs a <= b)%R -> (- b <= a <= b)%R.
Proof. unfold Rabs. destruct (Rcase_abs a); lra_R. Qed.

Lemma Rabs_lt_bounds (a b : R) : (Rabs a < b)%R -> (- b < a < b)%R.
Proof. unfold Rabs. destruct (Rcase_abs a); lra_R. Qed.

(** *** Shift records and the reals they locate *)
Lemma located_bounds (mrs : shr_record) (e : Z) (v : R) :
  located mrs e v ->
  (IZR (shr_m mrs) * bpow e <= v < IZR (shr_m mrs) * bpow e + bpow e)%R.
Proof.
  intros [_ H]. pose proof (bpow_pos e).
  destruct mrs as [m [|] [|]]; simpl in *; lra_R.
Qed.

Lemma IZR_xO (p : positive) : IZR (Zpos p~0) = (2 * IZR (Zpos p))%R.
Proof. rewrite Pos2Z.inj_xO, mult_IZR. reflexivity. Qed.

Lemma IZR_xI (p : positive) : IZR (Zpos p~1) = (2 * IZR (Zpos p) + 1)%R.
Proof. rewrite Pos2Z.inj_xI, plus_IZR, mult_IZR. reflexivity. Qed.

Lemma shr_1_located (mrs : shr_record) (e : Z) (v : R) :
  located mrs e v -> located (shr_1 mrs) (e + 1) v.
Proof.
  intros [Hm H]. pose proof (bpow_pos e) as He.
  destruct mrs as [m r s]. simpl in Hm, H.
  destruct m as [|[p|p|]|p]; try lia;
    unfold located; simpl shr_1; cbn [shr_m shr_r shr_s];
    rewrite bpow_succ; (split; [lia|]);
    try rewrite IZR_xO in H; try rewrite IZR_xI in H;
    destruct r, s; simpl; lra_R.
Qed.

Lemma iter_pos_located (p : positive) (mrs : shr_record) (e : Z) (v : R) :
  located mrs e v -> located (SpecFloat.iter_pos shr_1 p mrs) (e + Zpos p) v.
Proof.
  revert mrs e. induction p as [p IH|p IH|]; intros mrs e H; simpl SpecFloat.iter_pos.
  - replace (e + Zpos p~1) with (e + 1 + Zpos p + Zpos p) by lia.
    apply IH, IH, shr_1_located, H.
  - replace (e + Zpos p~0) with (e + Zpos p + Zpos p) by lia.
    apply IH, IH, H.
  - apply shr_1_located, H.
Qed.

Lemma shr_located (mrs : shr_record) (e n : Z) (v : R) :
  located mrs e v ->
  located (fst (shr mrs e n)) (snd (shr mrs e n)) v /\
  snd (shr mrs e n) = Z.max e (e + n).
Proof.
  intros H. destruct n as [|p|p]; simpl.
  - split; [exact H | lia].
  - split; [apply iter_pos_located, H | lia].
  - split; [exact H | lia].
Qed.

Lemma located_unique (a b : shr_record) (e : Z) (v : R) :
  located a e v -> located b e v -> a = b.
Proof.
  intros Ha Hb.
  pose proof (located_bounds _ _ _ Ha) as Ba.
  pose proof (located_bounds _ _ _ Hb) as Bb.
  pose proof (bpow_pos e) as He.
  assert (shr_m a = shr_m b) as Hm.
  { assert (IZR (shr_m a) < IZR (shr_m b) + 1)%R as H1 by nra_R.
    assert (IZR (shr_m b) < IZR (shr_m a) + 1)%R as H2 by nra_R.
    rewrite <- plus_IZR in H1, H2. apply lt_IZR in H1, H2. lia. }
  destruct Ha as [_ Ha], Hb as [_ Hb].
  destruct a as [ma ra sa], b as [mb rb sb]. simpl in *. subst mb.
  destruct ra, sa, rb, sb; try reflexivity; exfalso; lra_R.
Qed.

Lemma located_of_loc_exact (m e : Z) :
  0 <= m -> located (shr_record_of_loc m loc_Exact) e (IZR m * bpow e).
Proof. intros Hm. split; [exact Hm | reflexivity]. Qed.

(** Rounding to nearest moves the located real by at most half a unit. *)
Lemma round_nearest_even_located (mrs : shr_record) (e : Z) (v : R) :
  located mrs e v ->
  let m := round_nearest_even (shr_m mrs) (loc_of_shr_record mrs) in
  shr_m mrs <= m <= shr_m mrs + 1 /\
  (Rabs (IZR m * bpow e - v) <= bpow e / 2)%R.
Proof.
  intros [Hm H]. pose proof (bpow_pos e) as He.
  destruct mrs as [m0 r s]. simpl in Hm, H. cbn [shr_m loc_of_shr_record].
  destruct r, s; simpl round_nearest_even;
    try destruct (Z.even m0);
    (split; [lia|]); try rewrite plus_IZR;
    apply Rabs_le; lra_R.
Qed.

(** *** Rounding to binary64 *)

Lemma Zdigits2_bpow (m e : Z) :
  0 < m ->
  (bpow (Zdigits2 m + e - 1) <= IZR m * bpow e)%R /\
  (IZR (m + 1) * bpow e <= bpow (Zdigits2 m + e))%R.
Proof.
  intros Hm. destruct m as [|p|p]; try lia. simpl Zdigits2.
  pose proof (digits2_pos_bpow p e) as [Hlo _].
  split; [exact Hlo|].
  pose proof (digits2_pos_bounds p) as [_ Hhi].
  rewrite bpow_add, (bpow_IZR (Zpos (digits2_pos p))) by lia.
  apply Rmult_le_compat_r; [apply Rlt_le, bpow_pos|].
  apply IZR_le. lia.
Qed.

Lemma magnitude_unique (a b : Z) (v : R) :
  (bpow (a - 1) <= v < bpow a)%R -> (bpow (b - 1) <= v < bpow b)%R -> a = b.
Proof.
  intros [Ha1 Ha2] [Hb1 Hb2].
  assert (a - 1 < b) by (apply bpow_lt_inv; lra_R).
  assert (b - 1 < a) by (apply bpow_lt_inv; lra_R).
  lia.
Qed.

Lemma digits2_pos_eq (p : positive) (k : Z) :
  2 ^ (k - 1) <= Zpos p < 2 ^ k -> Zpos (digits2_pos p) = k.
Proof.
  intros [H1 H2]. pose proof (digits2_pos_bounds p) as [B1 B2].
  assert (0 < k).
  { destruct (Z_lt_le_dec 0 k) as [H|H]; [exact H|].
    destruct (Z.eq_dec k 0) as [->|Hk]; [rewrite Z.pow_0_r in H2; lia|].
    rewrite Z.pow_neg_r in H2; lia. }
  assert (k - 1 < Zpos (digits2_pos p)).
  { apply (Z.pow_lt_mono_r_iff 2); lia. }
  assert (Zpos (digits2_pos p) - 1 < k).
  { apply (Z.pow_lt_mono_r_iff 2); lia. }
  lia.
Qed.

Lemma fexp_normal (g : Z) : -1074 <= g - 53 -> fexp prec emax g = g - 53.
Proof. unfold fexp, SpecFloat.emin, prec, emax. lia. Qed.

Lemma shr_m_of_loc (m : Z) (l : location) : shr_m (shr_record_of_loc m l) = m.
Proof. destruct l as [|[| |]]; reflexivity. Qed.

Lemma bpow_IZR_lt (m k e : Z) :
  0 <= k -> (IZR m * bpow e < bpow (k + e))%R -> m < 2 ^ k.
Proof.
  intros Hk H. rewrite bpow_add, (bpow_IZR k) in H by exact Hk.
  apply lt_IZR. pose proof (bpow_pos e). nra_R.
Qed.

Lemma bpow_IZR_gt (m k e : Z) :
  0 <= k -> (bpow (k + e) < IZR m * bpow e)%R -> 2 ^ k < m.
Proof.
  intros Hk H. rewrite bpow_add, (bpow_IZR k) in H by exact Hk.
  apply lt_IZR. pose proof (bpow_pos e). nra_R.
Qed.

(** The first shift of [binary_round_aux], in the normal range: the located
    real keeps its place, at the exponent of its magnitude. *)
Lemma shr_fexp_located (mx ex : Z) (lx : location) (v : R) :
  located (shr_record_of_loc mx lx) ex v ->
  53 <= Zdigits2 mx ->
  -1074 <= Zdigits2 mx + ex - 53 ->
  (bpow (Zdigits2 mx + ex - 1) <= v < bpow (Zdigits2 mx + ex))%R /\
  exists mrs,
    shr_fexp prec emax mx ex lx = (mrs, Zdigits2 mx + ex - 53) /\
    located mrs (Zdigits2 mx + ex - 53) v.
Proof.
  intros Hloc Hd Hmin.
  assert (0 < mx) as Hpos.
  { destruct Hloc as [Hm _]. rewrite shr_m_of_loc in Hm.
    destruct mx; simpl in Hd; lia. }
  pose proof (located_bounds _ _ _ Hloc) as [Hlo Hhi].
  rewrite shr_m_of_loc in Hlo, Hhi.
  pose proof (Zdigits2_bpow mx ex Hpos) as [Dlo Dhi].
  rewrite plus_IZR in Dhi.
  split; [split; lra_R|].
  unfold shr_fexp. rewrite fexp_normal by exact Hmin.
  pose proof (shr_located _ ex (Zdigits2 mx + ex - 53 - ex) v Hloc) as [Hl He].
  destruct (shr _ _ _) as [mrs e']. simpl in Hl, He.
  exists mrs. replace e' with (Zdigits2 mx + ex - 53) in * by lia.
  split; [reflexivity | exact Hl].
Qed.

(** Two roundings of the same positive real give the same float. *)
Lemma binary_round_aux_unique (s : bool) (mx ex : Z) (lx : location)
    (mx2 ex2 : Z) (lx2 : location) (v : R) :
  located (shr_record_of_loc mx lx) ex v ->
  located (shr_record_of_loc mx2 lx2) ex2 v ->
  53 <= Zdigits2 mx -> 53 <= Zdigits2 mx2 ->
  -1074 <= Zdigits2 mx + ex - 53 ->
  binary_round_aux prec emax s mx ex lx = binary_round_aux prec emax s mx2 ex2 lx2.
Proof.
  intros H1 H2 D1 D2 Hmin.
  destruct (shr_fexp_located _ _ _ _ H1 D1 Hmin) as [B1 [mrs1 [E1 L1]]].
  assert (Zdigits2 mx + ex = Zdigits2 mx2 + ex2) as Hg.
  { assert (0 < mx2) as Hpos.
    { destruct H2 as [Hm _]. rewrite shr_m_of_loc in Hm.
      destruct mx2; simpl in D2; lia. }
    pose proof (located_bounds _ _ _ H2) as [Hlo Hhi].
    rewrite shr_m_of_loc in Hlo, Hhi.
    pose proof (Zdigits2_bpow mx2 ex2 Hpos) as [Dlo Dhi].
    rewrite plus_IZR in Dhi.
    apply (magnitude_unique _ _ v); [exact B1 | split; lra_R]. }
  rewrite Hg in Hmin.
  destruct (shr_fexp_located _ _ _ _ H2 D2 Hmin) as [B2 [mrs2 [E2 L2]]].
  rewrite <- Hg in E2, L2.
  pose proof (located_unique _ _ _ _ L1 L2) as ->.
  unfold binary_round_aux. rewrite E1, E2. reflexivity.
Qed.

(** A rounding in the normal range: the result is a finite float with a
    full mantissa, within half a unit of the last place of the real. *)
Lemma binary_round_aux_correct (s : bool) (mx ex : Z) (lx : location) (v : R) :
  located (shr_record_of_loc mx lx) ex v ->
  53 <= Zdigits2 mx ->
  -1074 <= Zdigits2 mx + ex - 53 < 971 ->
  exists m e,
    binary_round_aux prec emax s mx ex lx = S754_finite s m e /\
    Zpos (digits2_pos m) = 53 /\
    Zdigits2 mx + ex - 53 <= e <= Zdigits2 mx + ex - 52 /\
    (Rabs (IZR (Zpos m) * bpow e - v) <= bpow (Zdigits2 mx + ex - 54))%R /\
    (bpow (Zdigits2 mx + ex - 1) <= v < bpow (Zdigits2 mx + ex))%R.
Proof.
  intros Hloc Hd [Hmin Hmax].
  destruct (shr_fexp_located _ _ _ _ Hloc Hd Hmin) as [Bv [mrs [E1 L1]]].
  set (g := Zdigits2 mx + ex) in *.
  pose proof (located_bounds _ _ _ L1) as [Hlo Hhi].
  pose proof (round_nearest_even_located _ _ _ L1) as [Hm1 Herr].
  set (m1 := round_nearest_even (shr_m mrs) (loc_of_shr_record mrs)) in *.
  replace (bpow (g - 53) / 2)%R with (bpow (g - 54)) in Herr
    by (replace (g - 53) with (g - 54 + 1) by lia; rewrite bpow_succ; lra_R).
  assert (shr_m mrs < 2 ^ 53) as Hlt.
  { apply (bpow_IZR_lt _ 53 (g - 53)); [lia|].
    replace (53 + (g - 53)) with g by lia. lra_R. }
  assert (2 ^ 52 < shr_m mrs + 1) as Hgt.
  { apply (bpow_IZR_gt _ 52 (g - 53)); [lia|].
    replace (52 + (g - 53)) with (g - 1) by lia.
    rewrite plus_IZR. lra_R. }
  unfold binary_round_aux. rewrite E1. fold m1.
  destruct (Z.eq_dec m1 (2 ^ 53)) as [Heq|Hne].
  - exists (4503599627370496%positive), (g - 52).
    rewrite Heq. unfold shr_fexp.
    change (Zdigits2 (2 ^ 53)) with 54.
    rewrite fexp_normal by lia.
    replace (54 + (g - 53) - 53 - (g - 53)) with 1 by lia.
    cbn [shr shr_record_of_loc SpecFloat.iter_pos].
    change (shr_m (shr_1 _)) with (Zpos 4503599627370496).
    cbv iota beta.
    replace (g - 53 + 1) with (g - 52) by lia.
    replace (g - 52 <=? emax - prec) with true
      by (symmetry; apply Z.leb_le; unfold emax, prec; lia).
    split; [reflexivity|]. split; [reflexivity|]. split; [lia|].
    split; [|exact Bv].
    rewrite Heq in Herr.
    replace (IZR (Zpos 4503599627370496) * bpow (g - 52))%R
      with (IZR (2 ^ 53) * bpow (g - 53))%R; [exact Herr|].
    replace (g - 52) with (g - 53 + 1) by lia. rewrite bpow_succ.
    change (2 ^ 53) with (2 * 4503599627370496). rewrite mult_IZR. lra_R.
  - destruct m1 as [|p|p] eqn:Hp; try lia.
    assert (Zpos (digits2_pos p) = 53) as Hdig
      by (apply digits2_pos_eq; lia).
    exists p, (g - 53).
    unfold shr_fexp. simpl Zdigits2. rewrite Hdig.
    rewrite fexp_normal by lia.
    replace (53 + (g - 53) - 53 - (g - 53)) with 0 by lia.
    cbn [shr shr_record_of_loc shr_m].
    replace (g - 53 <=? emax - prec) with true
      by (symmetry; apply Z.leb_le; unfold emax, prec; lia).
    split; [reflexivity|]. split; [lia|]. split; [lia|].
    split; [exact Herr | exact Bv].
Qed.

(** *** Counts as binary64 numbers *)

Lemma iter_xO_spec (p k : positive) :
  digits2_pos (Pos.iter xO p k) = (digits2_pos p + k)%positive /\
  Zpos (Pos.iter xO p k) = Zpos p * 2 ^ Zpos k.
Proof.
  apply (Pos.iter_ind positive xO p
           (fun k r => digits2_pos r = (digits2_pos p + k)%positive /\
                       Zpos r = Zpos p * 2 ^ Zpos k)).
  - split; [simpl; lia | rewrite Pos2Z.inj_xO; lia].
  - intros k' r [IH1 IH2]. split.
    + simpl. rewrite IH1. lia.
    + rewrite Pos2Z.inj_xO, IH2, Pos2Z.inj_succ, Z.pow_succ_r by lia. lia.
Qed.

Lemma binary_round_aux_exact (s : bool) (m : positive) (e : Z) :
  Zpos (digits2_pos m) = 53 -> -1074 <= e <= 971 ->
  binary_round_aux prec emax s (Zpos m) e loc_Exact = S754_finite s m e.
Proof.
  intros Hd He. unfold binary_round_aux, shr_fexp. simpl Zdigits2.
  rewrite Hd, fexp_normal by lia.
  replace (53 + e - 53 - e) with 0 by lia.
  cbn [shr shr_record_of_loc shr_m loc_of_shr_record shr_r shr_s
       round_nearest_even Zdigits2].
  rewrite Hd, fexp_normal by lia.
  replace (53 + e - 53 - e) with 0 by lia.
  cbn [shr shr_m].
  replace (e <=? emax - prec) with true
    by (symmetry; apply Z.leb_le; unfold emax, prec; lia).
  reflexivity.
Qed.

(** A positive count below 2^53 is a binary64 number, with a full
    mantissa. *)
Lemma number_of_nat_finite (n : nat) :
  0 < Z.of_nat n < 2 ^ 53 ->
  exists m e,
    Prim2SF (number_of_nat n) = S754_finite false m e /\
    Zpos (digits2_pos m) = 53 /\
    -52 <= e <= 0 /\
    (IZR (Zpos m) * bpow e)%R = IZR (Z.of_nat n).
Proof.
  intros [Hpos Hlt]. unfold number_of_nat.
  rewrite of_uint63_spec, Uint63.of_Z_spec.
  rewrite Z.mod_small by (change wB with (2 ^ 63); lia).
  destruct (Z.of_nat n) as [|p|p]; try lia.
  pose proof (digits2_pos_bounds p) as [Dlo Dhi].
  assert (Zpos (digits2_pos p) <= 53) as Hd.
  { assert (Zpos (digits2_pos p) - 1 < 53); [|lia].
    apply (Z.pow_lt_mono_r_iff 2); lia. }
  unfold binary_normalize, binary_round, shl_align.
  rewrite fexp_normal by lia.
  destruct (Zpos (digits2_pos p) + 0 - 53 - 0) as [|k|k] eqn:Hk; try lia.
  - exists p, 0. rewrite binary_round_aux_exact by lia.
    split; [reflexivity|]. split; [lia|]. split; [lia|].
    unfold bpow. simpl. lra_R.
  - destruct (iter_xO_spec p k) as [I1 I2].
    exists (Pos.iter xO p k), (Zpos (digits2_pos p) + 0 - 53).
    rewrite binary_round_aux_exact by (rewrite ?I1; lia).
    split; [reflexivity|]. split; [rewrite I1; lia|]. split; [lia|].
    rewrite I2, mult_IZR, <- (bpow_IZR (Zpos k)), Rmult_assoc, <- bpow_add by lia.
    replace (Zpos k + (Zpos (digits2_pos p) + 0 - 53)) with 0 by lia.
    unfold bpow. simpl. lra_R.
Qed.

Lemma number_of_nat_zero : Prim2SF (number_of_nat 0) = S754_zero false.
Proof. reflexivity. Qed.

(** *** Division *)

Lemma Rdiv_mult (a b : R) : b <> 0%R -> (a / b * b)%R = a.
Proof. intros Hb. field. exact Hb. Qed.

Lemma bpow_sub (a b : Z) : bpow (a - b) = (bpow a / bpow b)%R.
Proof.
  pose proof (bpow_pos b) as Hb.
  replace a with (a - b + b) at 2 by lia. rewrite bpow_add.
  field. lra_R.
Qed.

Lemma new_location_eq (m2 r : Z) :
  new_location m2 r =
    if r =? 0 then loc_Exact
    else if Z.even m2 then loc_Inexact (2 * r ?= m2)
    else loc_Inexact (match 2 * r + 1 ?= m2 with Gt => Gt | _ => Lt end).
Proof.
  unfold new_location, new_location_even, new_location_odd.
  destruct (Z.even m2), (r =? 0); reflexivity.
Qed.

(** The location computed from a remainder places the exact quotient. *)
Lemma new_location_located (m2 q r e : Z) :
  0 < m2 -> 0 <= r < m2 -> 0 <= q ->
  located (shr_record_of_loc q (new_location m2 r)) e
    ((IZR q + IZR r / IZR m2) * bpow e)%R.
Proof.
  intros Hm2 Hr Hq.
  assert (0 < IZR m2)%R as Rm2 by (apply IZR_lt; exact Hm2).
  pose proof (Rdiv_mult (IZR r) (IZR m2) ltac:(lra_R)) as Hx.
  pose proof (bpow_pos e) as He.
  set (x := (IZR r / IZR m2)%R) in *.
  assert (r = 0 -> x = 0%R) as X0.
  { intros ->. unfold x. unfold Rdiv. lra_R. }
  assert (0 < 2 * r < m2 -> (0 < x < 1 / 2)%R) as Xlt.
  { intros [H1 H2]. apply IZR_lt in H1, H2. rewrite mult_IZR in H1, H2.
    split; nra_R. }
  assert (2 * r = m2 -> x = (1 / 2)%R) as Xeq.
  { intros H. apply (f_equal IZR) in H. rewrite mult_IZR in H. nra_R. }
  assert (m2 < 2 * r -> (1 / 2 < x < 1)%R) as Xgt.
  { intros H1. assert (r < m2) as H2 by lia.
    apply IZR_lt in H1, H2. rewrite mult_IZR in H1. split; nra_R. }
  clearbody x. clear Hx.
  rewrite new_location_eq.
  destruct (Z.eqb_spec r 0) as [Hr0|Hr0].
  - specialize (X0 Hr0). subst x.
    split; [exact Hq|]. simpl. lra_R.
  - destruct (Z.even m2) eqn:Heven.
    + destruct (Z.compare_spec (2 * r) m2) as [H|H|H];
        (split; [exact Hq|]); simpl.
      * specialize (Xeq H). nra_R.
      * specialize (Xlt ltac:(lia)). nra_R.
      * specialize (Xgt H). nra_R.
    + assert (Z.odd m2 = true) as Hodd by (rewrite <- Z.negb_even, Heven; reflexivity).
      apply Z.odd_spec in Hodd as [k Hk].
      destruct (Z.compare_spec (2 * r + 1) m2) as [H|H|H];
        (split; [exact Hq|]); simpl.
      * specialize (Xlt ltac:(lia)). nra_R.
      * specialize (Xlt ltac:(lia)). nra_R.
      * specialize (Xgt ltac:(lia)). nra_R.
Qed.

(** The core of the division on two full mantissas. *)
Lemma SFdiv_core_located (m1 m2 : positive) (e1 e2 : Z) :
  Zpos (digits2_pos m1) = 53 -> Zpos (digits2_pos m2) = 53 ->
  -1074 <= e1 - e2 - 53 ->
  exists q l,
    SFdiv_core_binary prec emax (Zpos m1) e1 (Zpos m2) e2
      = (q, e1 - e2 - 53, l) /\
    53 <= Zdigits2 q <= 54 /\
    located (shr_record_of_loc q l) (e1 - e2 - 53)
      (IZR (Zpos m1) * bpow e1 / (IZR (Zpos m2) * bpow e2))%R.
Proof.
  intros D1 D2 Hmin.
  pose proof (digits2_pos_bounds m1) as [L1 U1].
  pose proof (digits2_pos_bounds m2) as [L2 U2].
  rewrite D1 in L1, U1. rewrite D2 in L2, U2.
  change (2 ^ (53 - 1)) with 4503599627370496 in L1, L2.
  change (2 ^ 53) with 9007199254740992 in U1, U2.
  unfold SFdiv_core_binary. simpl Zdigits2. rewrite D1, D2.
  rewrite fexp_normal by lia.
  replace (Z.min (53 + e1 - (53 + e2) - 53) (e1 - e2)) with (e1 - e2 - 53) by lia.
  replace (e1 - e2 - (e1 - e2 - 53)) with 53 by lia.
  cbv zeta. cbv iota.
  rewrite Z.shiftl_mul_pow2 by lia.
  change (2 ^ 53) with 9007199254740992.
  pose proof (Z_div_mod (Zpos m1 * 9007199254740992) (Zpos m2) ltac:(lia)) as Hdiv.
  destruct (Z.div_eucl _ _) as [q r]. destruct Hdiv as [Hqr Hr].
  assert (4503599627370496 <= q < 18014398509481984) as Hq by nia.
  exists q, (new_location (Zpos m2) r).
  split; [reflexivity|]. split.
  - destruct q as [|q|q]; try lia. simpl Zdigits2.
    pose proof (digits2_pos_bounds q) as [Lq Uq].
    assert (52 < Zpos (digits2_pos q))
      by (apply (Z.pow_lt_mono_r_iff 2); [lia | lia | change (2 ^ 52) with 4503599627370496; lia]).
    assert (Zpos (digits2_pos q) - 1 < 54)
      by (apply (Z.pow_lt_mono_r_iff 2); [lia | lia | change (2 ^ 54) with 18014398509481984; lia]).
    lia.
  - pose proof (new_location_located (Zpos m2) q r (e1 - e2 - 53)
                  ltac:(lia) Hr ltac:(lia)) as Hloc.
    replace (IZR (Zpos m1) * bpow e1 / (IZR (Zpos m2) * bpow e2))%R
      with ((IZR q + IZR r / IZR (Zpos m2)) * bpow (e1 - e2 - 53))%R;
      [exact Hloc|].
    rewrite (bpow_sub (e1 - e2) 53), (bpow_sub e1 e2), (bpow_IZR 53) by lia.
    change (2 ^ 53) with 9007199254740992.
    apply (f_equal IZR) in Hqr. rewrite plus_IZR, !mult_IZR in Hqr.
    pose proof (bpow_pos e1). pose proof (bpow_pos e2).
    assert (0 < IZR (Zpos m2))%R by (apply IZR_lt; lia).
    replace (IZR (Zpos m1)) with
      ((IZR (Zpos m2) * IZR q + IZR r) / 9007199254740992)%R by lra_R.
    field. split; lra_R.
Qed.

(** *** The quotient of two counts *)

Lemma quotient_rounded (g n : nat) :
  0 < Z.of_nat g < 2 ^ 53 -> 0 < Z.of_nat n < 2 ^ 53 ->
  exists q e l,
    Prim2SF (number_of_nat g / number_of_nat n)
      = binary_round_aux prec emax false q e l /\
    53 <= Zdigits2 q <= 54 /\
    -105 <= e <= -1 /\
    located (shr_record_of_loc q l) e (IZR (Z.of_nat g) / IZR (Z.of_nat n))%R.
Proof.
  intros Hg Hn.
  destruct (number_of_nat_finite g Hg) as [m1 [e1 [P1 [D1 [E1 V1]]]]].
  destruct (number_of_nat_finite n Hn) as [m2 [e2 [P2 [D2 [E2 V2]]]]].
  destruct (SFdiv_core_located m1 m2 e1 e2 D1 D2 ltac:(lia))
    as [q [l [Hcore [Dq Hloc]]]].
  exists q, (e1 - e2 - 53), l.
  rewrite FloatAxioms.div_spec, P1, P2. unfold SF64div, SFdiv. rewrite Hcore.
  split; [reflexivity|]. split; [exact Dq|]. split; [lia|].
  rewrite <- V1, <- V2. exact Hloc.
Qed.

(** The binary64 quotient of two counts depends on their ratio only. *)
Lemma quotient_of_ratio (g n g2 n2 : nat) :
  0 < Z.of_nat g < 2 ^ 53 -> 0 < Z.of_nat n < 2 ^ 53 ->
  0 < Z.of_nat g2 < 2 ^ 53 -> 0 < Z.of_nat n2 < 2 ^ 53 ->
  Z.of_nat g * Z.of_nat n2 = Z.of_nat g2 * Z.of_nat n ->
  Prim2SF (number_of_nat g / number_of_nat n)
    = Prim2SF (number_of_nat g2 / number_of_nat n2).
Proof.
  intros Hg Hn Hg2 Hn2 Hratio.
  destruct (quotient_rounded g n Hg Hn) as [q [e [l [P [D [E L]]]]]].
  destruct (quotient_rounded g2 n2 Hg2 Hn2) as [q2 [e2 [l2 [P2 [D2 [E2 L2]]]]]].
  rewrite P, P2.
  apply (binary_round_aux_unique false _ _ _ _ _ _
           (IZR (Z.of_nat g) / IZR (Z.of_nat n))%R); try lia; [exact L|].
  replace (IZR (Z.of_nat g) / IZR (Z.of_nat n))%R
    with (IZR (Z.of_nat g2) / IZR (Z.of_nat n2))%R; [exact L2|].
  apply (f_equal IZR) in Hratio. rewrite !mult_IZR in Hratio.
  assert (0 < IZR (Z.of_nat n))%R by (apply IZR_lt; lia).
  assert (0 < IZR (Z.of_nat n2))%R by (apply IZR_lt; lia).
  apply (Rmult_eq_reg_r (IZR (Z.of_nat n) * IZR (Z.of_nat n2))); [|nra_R].
  field_simplify; lra_R.
Qed.

Lemma rate_of_ratio (g n g2 n2 : nat) :
  0 < Z.of_nat g < 2 ^ 53 -> 0 < Z.of_nat n < 2 ^ 53 ->
  0 < Z.of_nat g2 < 2 ^ 53 -> 0 < Z.of_nat n2 < 2 ^ 53 ->
  Z.of_nat g * Z.of_nat n2 = Z.of_nat g2 * Z.of_nat n ->
  rate_of g n = rate_of g2 n2.
Proof.
  intros Hg Hn Hg2 Hn2 Hratio. unfold rate_of.
  replace (0 <? n)%nat with true by (symmetry; apply Nat.ltb_lt; lia).
  replace (0 <? n2)%nat with true by (symmetry; apply Nat.ltb_lt; lia).
  unfold Math_round.
  rewrite !FloatAxioms.mul_spec, (quotient_of_ratio g n g2 n2) by assumption.
  reflexivity.
Qed.

(** *** The product and its rounding *)

Lemma Prim2SF_100 :
  Prim2SF 100%float = S754_finite false 7036874417766400 (-46).
Proof. reflexivity. Qed.

Lemma relative_half_ulp (g : Z) (v : R) :
  (bpow (g - 1) <= v)%R -> (bpow (g - 54) <= v / 9007199254740992)%R.
Proof.
  intros Hv. replace (g - 54) with (g - 1 - 53) by lia.
  rewrite bpow_sub, (bpow_IZR 53) by lia.
  change (2 ^ 53) with 9007199254740992. lra_R.
Qed.

(** The binary64 value of (g / n) * 100 is within 1 / (2 n) of 100 g / n. *)
Lemma product_close (g n : nat) :
  0 < Z.of_nat g <= Z.of_nat n -> Z.of_nat n < 2 ^ 44 ->
  exists m e,
    Prim2SF (number_of_nat g / number_of_nat n * 100)
      = S754_finite false m e /\
    (Rabs (IZR (Zpos m) * bpow e
           - 100 * IZR (Z.of_nat g) / IZR (Z.of_nat n))
     * (2 * IZR (Z.of_nat n)) < 1)%R.
Proof.
  intros Hg Hn.
  change (2 ^ 44) with 17592186044416 in Hn.
  destruct (quotient_rounded g n) as [q [eq [l [P [Dq [Eq Lq]]]]]];
    [change (2 ^ 53) with 9007199254740992; lia ..|].
  destruct (binary_round_aux_correct false q eq l _ Lq ltac:(lia) ltac:(lia))
    as [mx [ex [Px [Dx [Ex [Errx [Vlo Vhi]]]]]]].
  rewrite <- P in Px.
  apply relative_half_ulp in Vlo.
  set (v := (IZR (Z.of_nat g) / IZR (Z.of_nat n))%R) in *.
  set (x := (IZR (Zpos mx) * bpow ex)%R) in *.
  assert (0 < IZR (Z.of_nat n))%R as Rn by (apply IZR_lt; lia).
  assert (v * IZR (Z.of_nat n) = IZR (Z.of_nat g))%R as Hv
    by (apply Rdiv_mult; lra_R).
  (* the product *)
  rewrite FloatAxioms.mul_spec, Px, Prim2SF_100.
  unfold SF64mul, SFmul. simpl xorb.
  pose proof (digits2_pos_bounds mx) as [Lx Ux]. rewrite Dx in Lx, Ux.
  change (2 ^ (53 - 1)) with 4503599627370496 in Lx.
  change (2 ^ 53) with 9007199254740992 in Ux.
  set (mp := (mx * 7036874417766400)%positive).
  assert (Zpos mp = Zpos mx * 7036874417766400) as Hmp by reflexivity.
  assert (105 <= Zdigits2 (Zpos mp) <= 106) as Dp.
  { simpl Zdigits2. pose proof (digits2_pos_bounds mp) as [Lp Up].
    assert (104 < Zpos (digits2_pos mp)).
    { apply (Z.pow_lt_mono_r_iff 2); [lia | lia |].
      change (2 ^ 104) with 20282409603651670423947251286016. lia. }
    assert (Zpos (digits2_pos mp) - 1 < 106).
    { apply (Z.pow_lt_mono_r_iff 2); [lia | lia |].
      change (2 ^ 106) with 81129638414606681695789005144064. lia. }
    lia. }
  pose proof (located_of_loc_exact (Zpos mp) (ex + -46) ltac:(lia)) as Lp.
  destruct (binary_round_aux_correct false (Zpos mp) (ex + -46) loc_Exact _ Lp
              ltac:(lia) ltac:(lia))
    as [my [ey [Py [Dy [Ey [Erry [Wlo Whi]]]]]]].
  apply relative_half_ulp in Wlo.
  assert (IZR (Zpos mp) * bpow (ex + -46) = 100 * x)%R as Hprod.
  { rewrite Hmp, mult_IZR, bpow_add.
    replace (-46) with (0 - 46) by lia.
    rewrite bpow_sub, (bpow_IZR 46) by lia.
    change (2 ^ 46) with 70368744177664.
    change (bpow 0) with 1%R. unfold x. field. }
  rewrite Hprod in Erry, Wlo.
  exists my, ey. split; [exact Py|].
  set (y := (IZR (Zpos my) * bpow ey)%R) in *.
  apply Rabs_le_bounds in Errx, Erry.
  replace (100 * IZR (Z.of_nat g) / IZR (Z.of_nat n))%R with (100 * v)%R
    by (unfold v; field; lra_R).
  assert (IZR (Z.of_nat g) < 17592186044416)%R as Rg by (apply IZR_lt; lia).
  assert (0 < v)%R as Vpos.
  { assert (0 < IZR (Z.of_nat g))%R by (apply IZR_lt; lia). nra_R. }
  assert (Rabs (y - 100 * v) <= v / 40000000000000)%R as Herr.
  { apply Rabs_le. lra_R. }
  apply Rle_lt_trans
    with (v / 40000000000000 * (2 * IZR (Z.of_nat n)))%R.
  - apply Rmult_le_compat_r; [lra_R | exact Herr].
  - replace (v / 40000000000000 * (2 * IZR (Z.of_nat n)))%R
      with (IZR (Z.of_nat g) / 20000000000000)%R by (rewrite <- Hv; field).
    lra_R.
Qed.

(** *** [Math.round] *)

(** On a positive binary64 number, [Math_round] is the floor of the number
    plus one half. *)
Lemma Math_round_floor (x : float) (m : positive) (e k : Z) :
  Prim2SF x = S754_finite false m e ->
  (IZR k <= IZR (Zpos m) * bpow e + 1 / 2 < IZR k + 1)%R ->
  Math_round x = k.
Proof.
  intros Hx [Hlo Hhi]. unfold Math_round. rewrite Hx. cbv zeta.
  destruct (Z.leb_spec 0 e) as [He|He].
  - rewrite (bpow_IZR e He), <- mult_IZR in Hlo, Hhi.
    assert (k < Zpos m * 2 ^ e + 1)
      by (apply lt_IZR; rewrite plus_IZR; lra_R).
    assert (Zpos m * 2 ^ e < k + 1)
      by (apply lt_IZR; rewrite plus_IZR; lra_R).
    lia.
  - replace (1 - e) with (Z.succ (- e)) by lia.
    rewrite Z.pow_succ_r by lia.
    set (P := 2 ^ (- e)).
    assert (0 < P) as HP by (apply Z.pow_pos_nonneg; lia).
    assert (bpow e = 1 / IZR P)%R as Hb.
    { replace e with (0 - - e) by lia. rewrite bpow_sub, (bpow_IZR (- e)) by lia.
      reflexivity. }
    rewrite Hb in Hlo, Hhi.
    assert (0 < IZR P)%R as RP by (apply IZR_lt; exact HP).
    set (t := (IZR (Zpos m) * (1 / IZR P))%R) in *.
    assert (t * IZR P = IZR (Zpos m))%R as Ht by (unfold t; field; lra_R).
    assert (2 * P * k <= 2 * Zpos m + P) as H1.
    { apply le_IZR. rewrite plus_IZR, !mult_IZR. nra_R. }
    assert (2 * Zpos m + P < 2 * P * k + 2 * P) as H2.
    { apply lt_IZR. rewrite !plus_IZR, !mult_IZR. nra_R. }
    symmetry. apply (Z.div_unique _ _ _ (2 * Zpos m + P - 2 * P * k)); lia.
Qed.

(** *** The rate against exact rounding *)

Lemma rate_of_no_graduates (n : nat) :
  0 < Z.of_nat n < 2 ^ 53 -> rate_of 0 n = 0.
Proof.
  intros Hn. unfold rate_of.
  replace (0 <? n)%nat with true by (symmetry; apply Nat.ltb_lt; lia).
  destruct (number_of_nat_finite n Hn) as [m [e [P _]]].
  unfold Math_round.
  rewrite FloatAxioms.mul_spec, FloatAxioms.div_spec, P, number_of_nat_zero.
  reflexivity.
Qed.

Lemma halfway_spec (g n : nat) :
  0 < Z.of_nat n ->
  halfway g n = true <->
  exists j, 200 * Z.of_nat g = (2 * j + 1) * Z.of_nat n.
Proof.
  intros Hn. unfold halfway. rewrite Z.eqb_eq. split.
  - intros H. exists (200 * Z.of_nat g / (2 * Z.of_nat n)).
    pose proof (Z.div_mod (200 * Z.of_nat g) (2 * Z.of_nat n) ltac:(lia)). lia.
  - intros [j Hj]. symmetry.
    apply (Z.mod_unique _ _ j); [lia | lia].
Qed.

Lemma falls_short_spec (g n : nat) (j : Z) :
  0 < Z.of_nat n ->
  200 * Z.of_nat g = (2 * j + 1) * Z.of_nat n ->
  falls_short g n = existsb (fun p => 2 * j + 1 =? p) short_ratios.
Proof.
  intros Hn Hj. unfold falls_short, short_ratios. simpl. rewrite Hj.
  repeat match goal with
  | |- context [?a * Z.of_nat n =? ?b * Z.of_nat n] =>
      replace (a * Z.of_nat n =? b * Z.of_nat n) with (a =? b)
        by (destruct (Z.eqb_spec a b), (Z.eqb_spec (a * Z.of_nat n) (b * Z.of_nat n));
            try reflexivity; nia)
  end.
  reflexivity.
Qed.

Lemma falls_short_halfway (g n : nat) :
  0 < Z.of_nat n -> falls_short g n = true -> halfway g n = true.
Proof.
  intros Hn H. apply halfway_spec; [exact Hn|].
  unfold falls_short, short_ratios in H. simpl in H.
  rewrite !orb_true_iff, !Z.eqb_eq in H.
  destruct H as [H|[H|[H|[H|H]]]]; try discriminate.
  - exists 14. lia.
  - exists 28. lia.
  - exists 56. lia.
  - exists 57. lia.
Qed.

Lemma halfway_table_ok : halfway_table = true.
Proof. vm_compute. reflexivity. Qed.

Lemma rate_of_halfway (j : nat) :
  (j < 100)%nat ->
  rate_of (2 * j + 1) 200 =
    if existsb (fun p => 2 * Z.of_nat j + 1 =? p) short_ratios
    then Z.of_nat j else Z.of_nat j + 1.
Proof.
  intros Hj. pose proof halfway_table_ok as H. unfold halfway_table in H.
  rewrite forallb_forall in H. apply Z.eqb_eq, H.
  apply in_seq. lia.
Qed.

(** The rate computed in binary64 against round(100 g / n). *)
Lemma rate_of_spec (g n : nat) :
  (g <= n)%nat -> 0 < Z.of_nat n < 2 ^ 44 ->
  rate_of g n =
    if falls_short g n then exact_rate g n - 1 else exact_rate g n.
Proof.
  intros Hgn [Hn0 Hn].
  change (2 ^ 44) with 17592186044416 in Hn.
  destruct (halfway g n) eqn:Hhalf.
  - (* halfway: the ratio is (2 j + 1) / 200 *)
    apply halfway_spec in Hhalf as [j Hj]; [|exact Hn0].
    assert (0 <= j < 100) as Hjr by nia.
    rewrite (falls_short_spec g n j Hn0 Hj).
    assert (exact_rate g n = j + 1) as ->.
    { unfold exact_rate. symmetry. apply (Z.div_unique _ _ _ 0); lia. }
    rewrite (rate_of_ratio g n (2 * Z.to_nat j + 1) 200);
      try (change (2 ^ 53) with 9007199254740992; lia).
    rewrite rate_of_halfway by lia.
    replace (2 * Z.of_nat (Z.to_nat j) + 1) with (2 * j + 1) by lia.
    replace (Z.of_nat (Z.to_nat j)) with j by lia.
    destruct (existsb _ _); lia.
  - replace (falls_short g n) with false.
    2:{ destruct (falls_short g n) eqn:Hs; [|reflexivity].
        rewrite (falls_short_halfway g n Hn0 Hs) in Hhalf. discriminate. }
    destruct (Nat.eq_dec g 0%nat) as [->|Hg0].
    + rewrite rate_of_no_graduates
        by (change (2 ^ 53) with 9007199254740992; lia).
      unfold exact_rate. symmetry. apply Z.div_small. lia.
    + destruct (product_close g n ltac:(lia) ltac:(lia)) as [m [e [Py Herr]]].
      unfold rate_of.
      replace (0 <? n)%nat with true by (symmetry; apply Nat.ltb_lt; lia).
      apply (Math_round_floor _ m e _ Py).
      set (y := (IZR (Zpos m) * bpow e)%R) in *.
      set (k := exact_rate g n).
      pose proof (Z.div_mod (200 * Z.of_nat g + Z.of_nat n) (2 * Z.of_nat n)
                    ltac:(lia)) as Hdiv.
      pose proof (Z.mod_pos_bound (200 * Z.of_nat g + Z.of_nat n)
                    (2 * Z.of_nat n) ltac:(lia)) as Hr.
      fold (exact_rate g n) in Hdiv. fold k in Hdiv.
      set (r := (200 * Z.of_nat g + Z.of_nat n) mod (2 * Z.of_nat n)) in *.
      assert (r <> 0) as Hr0.
      { intros Hz. unfold halfway in Hhalf. apply Z.eqb_neq in Hhalf.
        apply Hhalf. symmetry.
        apply (Z.mod_unique _ _ (k - 1)); lia. }
      assert (0 < IZR (Z.of_nat n))%R as Rn by (apply IZR_lt; lia).
      set (v := (100 * IZR (Z.of_nat g) / IZR (Z.of_nat n))%R) in *.
      assert (v * IZR (Z.of_nat n) = 100 * IZR (Z.of_nat g))%R as Hv
        by (unfold v; field; lra_R).
      assert (Rabs (y - v) < 1 / (2 * IZR (Z.of_nat n)))%R as Hclose.
      { apply (Rmult_lt_reg_r (2 * IZR (Z.of_nat n))); [lra_R|].
        replace (1 / (2 * IZR (Z.of_nat n)) * (2 * IZR (Z.of_nat n)))%R
          with 1%R by (field; lra_R).
        exact Herr. }
      apply Rabs_lt_bounds in Hclose.
      apply (f_equal IZR) in Hdiv.
      rewrite !plus_IZR, !mult_IZR in Hdiv.
      assert (1 <= IZR r <= 2 * IZR (Z.of_nat n) - 1)%R as Rr.
      { split.
        - apply IZR_le. lia.
        - rewrite <- mult_IZR, <- minus_IZR. apply IZR_le. lia. }
      set (h := (1 / (2 * IZR (Z.of_nat n)))%R) in *.
      assert (h * (2 * IZR (Z.of_nat n)) = 1)%R as Hh
        by (unfold h; field; lra_R).
      split.
      * apply (Rmult_le_reg_r (2 * IZR (Z.of_nat n))); [lra_R|]. nra_R.
      * apply (Rmult_lt_reg_r (2 * IZR (Z.of_nat n))); [lra_R|]. nra_R.
Qed.

(** C6, as amended.  The success rate is 0 when there are no students.
    With N students, 0 < N < 2^44, of which G are inactive, it is
    round(100 G / N), exact halves going up, unless 100 G / N is one of
    14.5, 28.5, 56.5 and 57.5: there the binary64 product falls just below
    the half and the rate is one less (14, 28, 56 and 57). *)
Theorem successRate_rounding (w : world) :
  let N := length (students w) in
  let G := length (filter (fun s => studentSchema.status s = "inactive")
                     (students w)) in
  exists stats w',
    getDashboardStats w = (Ok stats, w') /\
    (N = 0%nat -> successRate stats = 0) /\
    (0 < Z.of_nat N < 2 ^ 44 ->
       successRate stats =
         if falls_short G N then exact_rate G N - 1 else exact_rate G N).
Proof.
  intros N G. eexists _, _. split; [apply getDashboardStats_value|]. simpl.
  fold N G.
  assert (HG : (G <= N)%nat) by apply length_filter.
  split.
  - intros ->. reflexivity.
  - intros HN. apply rate_of_spec; assumption.
Qed.

Lemma successRate_rounding_witness :
  0 < Z.of_nat (length (students forty)) < 2 ^ 44 /\
  exists stats w',
    getDashboardStats forty = (Ok stats, w') /\
    successRate stats = 57.
Proof.
  assert (Hsize : 0 < Z.of_nat (length (students forty)) < 2 ^ 44)
    by (split; reflexivity).
  split; [exact Hsize|].
  destruct (successRate_rounding forty) as [stats [w' [Hrun [_ Hrate]]]].
  exists stats, w'. split; [exact Hrun|].
  rewrite (Hrate Hsize). reflexivity.
Defined.

(** C6, as stated, fails: with 40 students of which 23 are inactive,
    100 G / N = 57.5 rounds to 58, but (23 / 40) * 100 is
    57.49999999999999 in binary64 and the reported rate is 57. *)
Lemma successRate_23_of_40_is_57 :
  exists stats w',
    getDashboardStats forty = (Ok stats, w') /\
    totalStudents stats = 40%nat /\
    graduates stats = 23%nat /\
    successRate stats = 57 /\
    exact_rate 23 40 = 58 /\
    successRate stats <> exact_rate (graduates stats) (totalStudents stats).
Proof.
  eexists _, _. split; [apply getDashboardStats_value|].
  vm_compute. repeat split; discriminate.
Qed.

(** Where exact rounding and the source agree: an exact half goes up. *)
Example successRate_half : rate_of 1 2 = 50.
Proof. vm_compute. reflexivity. Qed.

Example successRate_eighth : rate_of 1 8 = 13 /\ exact_rate 1 8 = 13.
Proof. vm_compute. split; reflexivity. Qed.

(** The four ratios on which they differ. *)
Example successRate_short_ratios :
  rate_of 29 200 = 14 /\ rate_of 57 200 = 28 /\
  rate_of 113 200 = 56 /\ rate_of 115 200 = 57.
Proof. vm_compute. repeat split; reflexivity. Qed.

Example successRate_no_students :
  match getDashboardStats (World [] [] []) with
  | (Ok stats, _) => successRate stats = 0
  | _ => False
  end.
Proof. vm_compute. reflexivity. Qed.

(** ** Searching students *)

Lemma append_empty (s : string) : EmptyString +:+ s = s.
Proof. reflexivity. Qed.

Lemma append_String (c : ascii) (a b : string) :
  String c a +:+ b = String c (a +:+ b).
Proof. reflexivity. Qed.

Lemma lower_app (a b : string) : lower (a +:+ b) = lower a +:+ lower b.
Proof.
  induction a as [|c a IH]; [reflexivity|].
  rewrite append_String. simpl. rewrite IH, append_String. reflexivity.
Qed.

(** A split of the folded string comes from a split of the string. *)
Lemma lower_split (s a b : string) :
  lower s = a +:+ b ->
  exists s1 s2, s = s1 +:+ s2 /\ lower s1 = a /\ lower s2 = b.
Proof.
  revert s. induction a as [|c a IH]; intros s Hs.
  - rewrite append_empty in Hs. exists EmptyString, s. auto.
  - rewrite append_String in Hs.
    destruct s as [|c' s']; simpl in Hs; [discriminate|].
    injection Hs as Hc Hrest.
    destruct (IH s' Hrest) as [s1 [s2 [-> [H1 H2]]]].
    exists (String c' s1), s2. simpl. rewrite H1, Hc, append_String. auto.
Qed.

Lemma literal_cons (c : ascii) (x : string) :
  literal (String c x) <-> is_meta c = false /\ literal x.
Proof.
  unfold literal. simpl. split.
  - intros Hall. split; [apply Hall; left|].
    intros c' Hc'. apply Hall. right. exact Hc'.
  - intros [Hc Hx] c' Hc'. inversion Hc'; subst; auto.
Qed.

(** A query without metacharacters compiles to its own characters. *)
Lemma compile_literal (x : string) :
  literal x -> compile x = Some (Lit <$> list_ascii_of_string x).
Proof.
  induction x as [|c x IH]; intros Hlit; [reflexivity|].
  apply literal_cons in Hlit as [Hc Hx]. simpl.
  rewrite (IH Hx). unfold compile_char.
  destruct (decide (c = "."%char)) as [->|_]; [discriminate Hc|].
  rewrite Hc. reflexivity.
Qed.

Lemma match_here_literal (x s : string) :
  match_here (Lit <$> list_ascii_of_string x) s = true <->
  exists post, lower s = lower x +:+ post.
Proof.
  revert s. induction x as [|c x IH]; intros s; simpl.
  - split; [intros _; exists (lower s); reflexivity | reflexivity].
  - destruct s as [|c' s']; simpl.
    + split; [discriminate | intros [post Hp]; discriminate].
    + rewrite andb_true_iff, bool_decide_eq_true, IH. split.
      * intros [Hc [post Hp]]. exists post.
        rewrite append_String, Hc, Hp. reflexivity.
      * intros [post Hp]. rewrite append_String in Hp.
        injection Hp as Hc Hp. split; [auto | exists post; exact Hp].
Qed.

Lemma match_anywhere_spec (p : list atom) (s : string) :
  match_anywhere p s = true <->
  exists pre suf, s = pre +:+ suf /\ match_here p suf = true.
Proof.
  induction s as [|c s IH]; simpl.
  - rewrite orb_false_r. split.
    + intros Hm. exists EmptyString, EmptyString. auto.
    + intros [pre [suf [Hs Hm]]].
      destruct pre; [|discriminate]. rewrite append_empty in Hs.
      subst suf. exact Hm.
  - rewrite orb_true_iff, IH. split.
    + intros [Hm | [pre [suf [-> Hm]]]].
      * exists EmptyString, (String c s). auto.
      * exists (String c pre), suf. auto.
    + intros [pre [suf [Hs Hm]]]. destruct pre as [|c' pre].
      * left. rewrite append_empty in Hs. subst suf. exact Hm.
      * right. rewrite append_String in Hs.
        injection Hs as _ Hs. exists pre, suf. auto.
Qed.

(** On a query without metacharacters the engine decides containment. *)
Lemma match_anywhere_literal (x s : string) :
  match_anywhere (Lit <$> list_ascii_of_string x) s = true <-> ci_contains x s.
Proof.
  rewrite match_anywhere_spec. unfold ci_contains. split.
  - intros [pre [suf [-> Hm]]]. apply match_here_literal in Hm as [post Hp].
    exists (lower pre), post. rewrite lower_app, Hp. reflexivity.
  - intros [pre [post Hs]].
    destruct (lower_split s _ _ Hs) as [s1 [s2 [-> [_ H2]]]].
    exists s1, s2. split; [reflexivity|].
    apply match_here_literal. exists post. exact H2.
Qed.

(** C3, as amended.  For a query made only of characters that are not
    regular-expression metacharacters, the search answers 200 with exactly
    the students whose name, e-mail address or course contains the query,
    letter case ignored; the answer is a sublist of the collection, so no
    student is listed twice, and the collections are untouched. *)
Theorem search_with_literal_query `{Driver} (w : world) (q : string)
    (Hlit : literal q) :
  exists l w',
    get_api_students_search q w = (Ok (Response 200 (StudentsJson l)), w') /\
    same_data w w' /\
    (forall s, s ∈ l <-> s ∈ students w /\ found q s) /\
    l `sublist_of` students w.
Proof.
  unfold get_api_students_search, Student.find_or_regex, regex_i.
  rewrite (compile_literal q Hlit). run.
  eexists _, _. split; [reflexivity|]. split; [split; reflexivity|]. split.
  - intros s. rewrite list_elem_of_filter. unfold found.
    rewrite <- !match_anywhere_literal.
    rewrite !orb_True, !Is_true_true. tauto.
  - apply sublist_filter.
Qed.

Lemma search_with_literal_query_witness :
  literal "ALICE" /\
  (exists l w',
    @get_api_students_search hex_driver "ALICE" campus
      = (Ok (Response 200 (StudentsJson l)), w') /\
    same_data campus w' /\
    (forall s, s ∈ l <-> s ∈ students campus /\ found "ALICE" s) /\
    l `sublist_of` students campus).
Proof.
  assert (Hl : literal "ALICE").
  { intros c Hc. apply list_elem_of_In in Hc. simpl in Hc.
    destruct Hc as [<-|[<-|[<-|[<-|[<-|[]]]]]]; reflexivity. }
  split; [exact Hl|].
  apply (@search_with_literal_query hex_driver campus "ALICE" Hl).
Defined.

Example search_ignores_case :
  fst (@get_api_students_search hex_driver "ALICE" campus)
  = Ok (Response 200 (StudentsJson [alice])).
Proof. reflexivity. Qed.

(** C3, as stated, fails: the query is handed to the store as a regular
    expression, so a dot stands for any character.  The query "." finds a
    student none of whose fields contains a dot. *)
Lemma search_dot_is_a_wildcard :
  fst (@get_api_students_search hex_driver "." tiny)
    = Ok (Response 200 (StudentsJson [abc])) /\
  ~ found "." abc.
Proof.
  split; [reflexivity|].
  unfold found. rewrite <- !match_anywhere_literal.
  intros [Hm | [Hm | Hm]]; vm_compute in Hm; discriminate.
Qed.

(** The same with a dot inside a word: "a.c" finds "abc". *)
Example search_dot_inside_a_word :
  fst (@get_api_students_search hex_driver "a.c" tiny)
    = Ok (Response 200 (StudentsJson [abc])) /\
  ~ found "a.c" abc.
Proof.
  split; [reflexivity|].
  unfold found. rewrite <- !match_anywhere_literal.
  intros [Hm | [Hm | Hm]]; vm_compute in Hm; discriminate.
Qed.

(** * Further properties *)

(** ** The connection cache over many requests *)

Lemma serve_cached_handle (atlasURI : option string)
    (connect : nat -> settled) (n : nat) (c : cache) (h : handle) :
  conn c = Some h -> serve atlasURI connect n c = (replicate n None, c).
Proof.
  intros Hconn. induction n as [|n IH]; simpl; [reflexivity|].
  unfold ensureDbConnection.
  rewrite (connectDB_cached atlasURI connect c h Hconn), IH. reflexivity.
Qed.

(** X1.  Once a connection is in the cache, [connectDB] returns it, every
    following request passes the middleware, the cache stays as it is, and
    [mongoose.connect] is not called again, whatever the configuration and
    the network have become. *)
Theorem serve_connected (atlasURI : option string) (connect : nat -> settled)
    (n : nat) (c : cache) (h : handle)
    (Hconn : conn c = Some h) :
  connectDB atlasURI connect c = (Return h, c) /\
  serve atlasURI connect n c = (replicate n None, c) /\
  attempts (snd (serve atlasURI connect n c)) = attempts c.
Proof.
  rewrite (serve_cached_handle atlasURI connect n c h Hconn).
  split; [apply connectDB_cached, Hconn | split; reflexivity].
Qed.

Lemma serve_connected_witness :
  conn (Cache (Some 7%nat) (Some (Fulfilled 7%nat)) 1) = Some 7%nat /\
  (connectDB None flaky_once (Cache (Some 7%nat) (Some (Fulfilled 7%nat)) 1)
     = (Return 7%nat, Cache (Some 7%nat) (Some (Fulfilled 7%nat)) 1) /\
   serve None flaky_once 5 (Cache (Some 7%nat) (Some (Fulfilled 7%nat)) 1)
     = (replicate 5 None, Cache (Some 7%nat) (Some (Fulfilled 7%nat)) 1) /\
   attempts (snd (serve None flaky_once 5
                    (Cache (Some 7%nat) (Some (Fulfilled 7%nat)) 1)))
     = attempts (Cache (Some 7%nat) (Some (Fulfilled 7%nat)) 1)).
Proof.
  split; [reflexivity|].
  apply (serve_connected None flaky_once 5
           (Cache (Some 7%nat) (Some (Fulfilled 7%nat)) 1) 7%nat).
  reflexivity.
Defined.

Lemma connectDB_attempted_once (atlasURI : option string)
    (connect : nat -> settled) (c : cache) :
  attempted_once c -> attempted_once (snd (connectDB atlasURI connect c)).
Proof.
  intros [Hle Hnone]. unfold connectDB, await_and_store.
  destruct (conn c) as [h|]; [split; assumption|].
  destruct (promise c) as [p|] eqn:Hp.
  - destruct p; unfold attempted_once; simpl; rewrite ?Hp;
      (split; [exact Hle | discriminate]).
  - destruct (falsy atlasURI); [split; [exact Hle | intros _; auto]|].
    rewrite (Hnone eq_refl).
    destruct (connect 0%nat); unfold attempted_once; simpl;
      (split; [lia | discriminate]).
Qed.

Lemma serve_attempted_once (atlasURI : option string)
    (connect : nat -> settled) (n : nat) (c : cache) :
  attempted_once c -> attempted_once (snd (serve atlasURI connect n c)).
Proof.
  revert c. induction n as [|n IH]; intros c Hc; [exact Hc|].
  simpl. unfold ensureDbConnection.
  pose proof (connectDB_attempted_once atlasURI connect c Hc) as H1.
  destruct (connectDB atlasURI connect c) as [[h|e] c1]; simpl in H1;
    specialize (IH c1 H1);
    destruct (serve atlasURI connect n c1) as [rs c2]; exact IH.
Qed.

(** X2.  Whatever the configuration and the network, and however many
    requests are served one after the other from a fresh process,
    [mongoose.connect] is called at most once. *)
Theorem connect_called_at_most_once (atlasURI : option string)
    (connect : nat -> settled) (n : nat) :
  (attempts (snd (serve atlasURI connect n cache_init)) <= 1)%nat.
Proof.
  apply (serve_attempted_once atlasURI connect n cache_init).
  split; [simpl; lia | reflexivity].
Qed.

Lemma serve_without_uri (atlasURI : option string) (connect : nat -> settled)
    (n : nat) :
  falsy atlasURI = true ->
  serve atlasURI connect n cache_init = (replicate n (Some 503%nat), cache_init).
Proof.
  intros Huri. induction n as [|n IH]; simpl; [reflexivity|].
  unfold ensureDbConnection, connectDB. simpl. rewrite Huri, IH. reflexivity.
Qed.

(** X3.  In a fresh process the first request decides for all of them: the
    answers of the middleware to any number of requests are all the same,
    503 when the URI is missing or the first connection attempt fails, and
    a pass to the route otherwise. *)
Theorem serve_first_outcome_is_final (atlasURI : option string)
    (connect : nat -> settled) (n : nat) :
  fst (serve atlasURI connect n cache_init) =
    replicate n
      (if falsy atlasURI then Some 503%nat
       else match connect 0%nat with
            | Fulfilled _ => None
            | Rejected _ => Some 503%nat
            end).
Proof.
  destruct (falsy atlasURI) eqn:Huri.
  - rewrite serve_without_uri by exact Huri. reflexivity.
  - destruct n as [|n]; [reflexivity|]. simpl.
    unfold ensureDbConnection, connectDB, await_and_store. simpl.
    rewrite Huri. destruct (connect 0%nat) as [h|e]; simpl.
    + rewrite (serve_cached_handle atlasURI connect n
               (Cache (Some h) (Some (Fulfilled h)) 1) h eq_refl).
      reflexivity.
    + rewrite (serve_rejected atlasURI connect n
               (Cache None (Some (Rejected e)) 1) e eq_refl eq_refl).
      reflexivity.
Qed.

(** X4.  Without a configured URI no connection attempt is ever made: the
    cache stays empty and every request is answered 503. *)
Theorem missing_uri_never_connects (atlasURI : option string)
    (connect : nat -> settled) (n : nat)
    (Huri : falsy atlasURI = true) :
  serve atlasURI connect n cache_init = (replicate n (Some 503%nat), cache_init) /\
  attempts (snd (serve atlasURI connect n cache_init)) = 0%nat.
Proof.
  rewrite (serve_without_uri atlasURI connect n Huri). split; reflexivity.
Qed.

Lemma missing_uri_never_connects_witness :
  falsy (Some EmptyString) = true /\
  (serve (Some EmptyString) (fun _ => Fulfilled 7%nat) 4 cache_init
     = (replicate 4 (Some 503%nat), cache_init) /\
   attempts (snd (serve (Some EmptyString) (fun _ => Fulfilled 7%nat) 4
                    cache_init)) = 0%nat).
Proof.
  split; [reflexivity|].
  apply (missing_uri_never_connects (Some EmptyString)
           (fun _ => Fulfilled 7%nat) 4).
  reflexivity.
Defined.

(** ** The middleware in front of the routes *)

Lemma serve_api_rejected `{Driver} (atlasURI : option string)
    (connect : nat -> settled) (rs : list request) (c : cache) (w : world)
    (e : conn_error) :
  conn c = None -> promise c = Some (Rejected e) ->
  serve_api atlasURI connect rs (c, w) =
    (replicate (length rs)
       (Ok (Response 503 (Message "Database connection unavailable"))),
     (c, w)).
Proof.
  intros Hconn Hprom. induction rs as [|r rs IH]; [reflexivity|].
  simpl serve_api.
  rewrite (api_rejected atlasURI connect r c w e Hconn Hprom), IH.
  reflexivity.
Qed.

Lemma serve_api_connected `{Driver} (atlasURI : option string)
    (connect : nat -> settled) (rs : list request) (c : cache) (w : world)
    (h : handle) :
  conn c = Some h ->
  serve_api atlasURI connect rs (c, w) =
    (fst (route_all rs w), (c, snd (route_all rs w))).
Proof.
  intros Hconn. revert w. induction rs as [|r rs IH]; intros w; [reflexivity|].
  simpl serve_api. simpl route_all. unfold api, ensureDbConnection. simpl.
  rewrite (connectDB_cached atlasURI connect c h Hconn).
  destruct (route r w) as [res w1]. rewrite IH.
  destruct (route_all rs w1) as [ress w2]. reflexivity.
Qed.

(** X5.  When the first connection attempt of a fresh process fails, no
    request ever reaches a route: every one is answered 503 and the store,
    its trace of round trips included, is left exactly as it was. *)
Theorem failed_connection_shields_the_store `{Driver}
    (atlasURI : option string) (connect : nat -> settled)
    (rs : list request) (w : world) (e : conn_error)
    (Huri : falsy atlasURI = false)
    (Hfail : connect 0%nat = Rejected e) :
  fst (serve_api atlasURI connect rs (cache_init, w)) =
    replicate (length rs)
      (Ok (Response 503 (Message "Database connection unavailable"))) /\
  snd (snd (serve_api atlasURI connect rs (cache_init, w))) = w.
Proof.
  destruct rs as [|r rs]; [split; reflexivity|].
  simpl serve_api. unfold api, ensureDbConnection, connectDB, await_and_store.
  simpl. rewrite Huri, Hfail. simpl.
  rewrite (serve_api_rejected atlasURI connect rs
             (Cache None (Some (Rejected e)) 1) w e eq_refl eq_refl).
  split; reflexivity.
Qed.

Lemma failed_connection_shields_the_store_witness :
  falsy (Some "mongodb+srv://cluster0.example/db") = false /\
  flaky_once 0%nat = Rejected "connect ETIMEDOUT" /\
  (fst (@serve_api hex_driver (Some "mongodb+srv://cluster0.example/db")
          flaky_once [GET_students; DELETE_students_id "0000000000000000000000a1"]
          (cache_init, campus)) =
     replicate (length [GET_students; DELETE_students_id "0000000000000000000000a1"])
       (Ok (Response 503 (Message "Database connection unavailable"))) /\
   snd (snd (@serve_api hex_driver (Some "mongodb+srv://cluster0.example/db")
          flaky_once [GET_students; DELETE_students_id "0000000000000000000000a1"]
          (cache_init, campus))) = campus).
Proof.
  split; [reflexivity|]. split; [reflexivity|].
  apply (@failed_connection_shields_the_store hex_driver
           (Some "mongodb+srv://cluster0.example/db") flaky_once
           [GET_students; DELETE_students_id "0000000000000000000000a1"]
           campus "connect ETIMEDOUT"); reflexivity.
Defined.

(** X6.  When the first connection attempt succeeds, the middleware is
    transparent from then on: the answers and the final store are those of
    the routes run one after the other, and one attempt was made in all. *)
Theorem successful_connection_is_transparent `{Driver}
    (atlasURI : option string) (connect : nat -> settled)
    (rs : list request) (w : world) (h : handle)
    (Huri : falsy atlasURI = false)
    (Hok : connect 0%nat = Fulfilled h) :
  fst (serve_api atlasURI connect rs (cache_init, w)) = fst (route_all rs w) /\
  snd (snd (serve_api atlasURI connect rs (cache_init, w)))
    = snd (route_all rs w) /\
  (rs <> [] ->
   fst (snd (serve_api atlasURI connect rs (cache_init, w)))
     = Cache (Some h) (Some (Fulfilled h)) 1).
Proof.
  destruct rs as [|r rs]; [repeat split; intros Hne; destruct Hne; reflexivity|].
  simpl serve_api. simpl route_all.
  unfold api, ensureDbConnection, connectDB, await_and_store.
  simpl. rewrite Huri, Hok. simpl.
  destruct (route r w) as [res w1].
  rewrite (serve_api_connected atlasURI connect rs
             (Cache (Some h) (Some (Fulfilled h)) 1) w1 h eq_refl).
  destruct (route_all rs w1) as [ress w2]. repeat split.
Qed.

Lemma successful_connection_is_transparent_witness :
  falsy (Some "mongodb+srv://cluster0.example/db") = false /\
  (fun _ : nat => Fulfilled 7%nat) 0%nat = Fulfilled 7%nat /\
  (fst (@serve_api hex_driver (Some "mongodb+srv://cluster0.example/db")
          (fun _ => Fulfilled 7%nat) [GET_students; GET_courses] (cache_init, campus))
     = fst (@route_all hex_driver [GET_students; GET_courses] campus) /\
   snd (snd (@serve_api hex_driver (Some "mongodb+srv://cluster0.example/db")
          (fun _ => Fulfilled 7%nat) [GET_students; GET_courses] (cache_init, campus)))
     = snd (@route_all hex_driver [GET_students; GET_courses] campus) /\
   ([GET_students; GET_courses] <> [] ->
    fst (snd (@serve_api hex_driver (Some "mongodb+srv://cluster0.example/db")
          (fun _ => Fulfilled 7%nat) [GET_students; GET_courses] (cache_init, campus)))
      = Cache (Some 7%nat) (Some (Fulfilled 7%nat)) 1)).
Proof.
  split; [reflexivity|]. split; [reflexivity|].
  apply (@successful_connection_is_transparent hex_driver
           (Some "mongodb+srv://cluster0.example/db") (fun _ => Fulfilled 7%nat)
           [GET_students; GET_courses] campus 7%nat); reflexivity.
Defined.

(** ** More on collections *)

Section CollectionMoreFacts.
Context {D : Type} (key : D -> ObjectId).

Lemma find_by_snoc_fresh (oid : ObjectId) (l : list D) (d : D) :
  oid ∉ key <$> l -> key d = oid -> find_by key oid (l ++ [d]) = Some d.
Proof.
  intros Hfresh Hk. induction l as [|x l IH]; simpl.
  - destruct (decide (key d = oid)); [reflexivity | contradiction].
  - rewrite fmap_cons in Hfresh. apply not_elem_of_cons in Hfresh as [Hne Hfresh].
    destruct (decide (key x = oid)); [congruence | auto].
Qed.

Lemma delete_by_snoc_fresh (oid : ObjectId) (l : list D) (d : D) :
  oid ∉ key <$> l -> key d = oid -> delete_by key oid (l ++ [d]) = l.
Proof.
  intros Hfresh Hk. induction l as [|x l IH]; simpl.
  - destruct (decide (key d = oid)); [reflexivity | contradiction].
  - rewrite fmap_cons in Hfresh. apply not_elem_of_cons in Hfresh as [Hne Hfresh].
    destruct (decide (key x = oid)); [congruence | rewrite IH; auto].
Qed.

Lemma elem_of_delete_by (oid : ObjectId) (l : list D) (s : D) :
  NoDup (key <$> l) ->
  s ∈ delete_by key oid l <-> s ∈ l /\ key s <> oid.
Proof.
  induction l as [|x l IH]; simpl; intros Hnd.
  - split; [intros Hs; inversion Hs | intros [Hs _]; inversion Hs].
  - apply NoDup_cons in Hnd as [Hx Hnd].
    destruct (decide (key x = oid)) as [Hxo|Hxo].
    + split.
      * intros Hs. split; [right; exact Hs|].
        intros Hk. apply Hx. rewrite Hxo, <- Hk.
        apply list_elem_of_fmap. exists s. auto.
      * intros [Hs Hk]. inversion Hs; subst; [contradiction | assumption].
    + rewrite !elem_of_cons, (IH Hnd). split.
      * intros [-> | [Hs Hk]]; auto.
      * intros [[-> | Hs] Hk]; auto.
Qed.

Lemma find_by_replace_by (oid : ObjectId) (d d' : D) (l : list D) :
  find_by key oid l = Some d -> key d' = oid ->
  find_by key oid (replace_by key oid d' l) = Some d'.
Proof.
  intros Hf Hk. induction l as [|x l IH]; simpl in *; [discriminate|].
  destruct (decide (key x = oid)) as [Hxo|Hxo]; simpl.
  - destruct (decide (key d' = oid)); [reflexivity | contradiction].
  - destruct (decide (key x = oid)); [contradiction | auto].
Qed.

Lemma elem_of_replace_by (oid : ObjectId) (d d' : D) (l : list D) (s : D) :
  NoDup (key <$> l) -> find_by key oid l = Some d ->
  s ∈ replace_by key oid d' l <-> s = d' \/ (s ∈ l /\ key s <> oid).
Proof.
  induction l as [|x l IH]; simpl; intros Hnd Hf; [discriminate|].
  apply NoDup_cons in Hnd as [Hx Hnd].
  destruct (decide (key x = oid)) as [Hxo|Hxo].
  - rewrite !elem_of_cons. split.
    + intros [-> | Hs]; [left; reflexivity|]. right. split; [right; exact Hs|].
      intros Hk. apply Hx. rewrite Hxo, <- Hk.
      apply list_elem_of_fmap. exists s. auto.
    + intros [-> | [[-> | Hs] Hk]]; auto. contradiction.
  - rewrite !elem_of_cons, (IH Hnd Hf). split.
    + intros [-> | [-> | [Hs Hk]]]; auto.
    + intros [-> | [[-> | Hs] Hk]]; auto.
Qed.
End CollectionMoreFacts.

(** ** Creating students *)

(** X7.  A [POST /api/students] with an acceptable body, a fresh identifier
    and an e-mail address not yet in use answers 201 with the new record,
    which is appended to the collection with status "active" unless the body
    says otherwise; a following [GET /api/students/:id] for its identifier
    answers 200 with the same record. *)
Theorem created_student_can_be_fetched `{Driver}
    (w : world) (newId : ObjectId) (now : Z) (b : studentSchema.input)
    (id : string)
    (Hok : acceptable_student b)
    (Hid : newId ∉ studentSchema._id <$> students w)
    (Hemail : forall e, studentSchema.in_email b = Some e ->
                e ∉ studentSchema.email <$> students w)
    (Hcast : castObjectId id = Some newId) :
  let d := Student.new newId now b in
  exists w1 w2,
    post_api_students newId now b w = (Ok (Response 201 (StudentJson d)), w1) /\
    students w1 = students w ++ [d] /\
    courses w1 = courses w /\
    (studentSchema.in_status b = None -> studentSchema.status d = "active") /\
    get_api_students_id id w1 = (Ok (Response 200 (StudentJson d)), w2).
Proof.
  intros d. pose proof (proj2 (validate_acceptable b) Hok) as Hv.
  destruct Hok as [_ [[e [He _]] _]].
  unfold post_api_students, Student.save. rewrite Hv. run.
  destruct (decide (newId ∈ studentSchema._id <$> students w)); [contradiction|].
  rewrite He. simpl.
  destruct (decide (e ∈ studentSchema.email <$> students w)) as [Hin|_];
    [destruct (Hemail e He Hin)|].
  eexists _, _. split; [reflexivity|]. simpl.
  split; [reflexivity|]. split; [reflexivity|].
  split; [intros Hs; unfold d, Student.new; simpl; rewrite Hs; reflexivity|].
  unfold get_api_students_id, Student.findById. run.
  rewrite (proj2 (isValid_true id) (ex_intro _ newId Hcast)), Hcast. simpl.
  rewrite (find_by_snoc_fresh studentSchema._id newId (students w)
             (Student.new newId now b) Hid eq_refl).
  reflexivity.
Qed.

Lemma created_student_can_be_fetched_witness :
  acceptable_student carol /\
  (163%N ∉ studentSchema._id <$> students campus) /\
  (forall e, studentSchema.in_email carol = Some e ->
     e ∉ studentSchema.email <$> students campus) /\
  @castObjectId hex_driver "0000000000000000000000a3" = Some 163%N /\
  (let d := Student.new 163%N 1700000100 carol in
   exists w1 w2,
    post_api_students 163%N 1700000100 carol campus
      = (Ok (Response 201 (StudentJson d)), w1) /\
    students w1 = students campus ++ [d] /\
    courses w1 = courses campus /\
    (studentSchema.in_status carol = None -> studentSchema.status d = "active") /\
    @get_api_students_id hex_driver "0000000000000000000000a3" w1
      = (Ok (Response 200 (StudentJson d)), w2)).
Proof.
  assert (Ha : acceptable_student carol).
  { apply validate_acceptable. reflexivity. }
  assert (Hi : 163%N ∉ studentSchema._id <$> students campus).
  { apply (bool_decide_unpack _); vm_compute; exact I. }
  assert (He : forall e, studentSchema.in_email carol = Some e ->
                 e ∉ studentSchema.email <$> students campus).
  { intros e [= <-]. apply (bool_decide_unpack _); vm_compute; exact I. }
  assert (Hc : @castObjectId hex_driver "0000000000000000000000a3" = Some 163%N)
    by reflexivity.
  split; [exact Ha|]. split; [exact Hi|]. split; [exact He|]. split; [exact Hc|].
  apply (@created_student_can_be_fetched hex_driver campus 163%N 1700000100
           carol "0000000000000000000000a3" Ha Hi He Hc).
Defined.

(** X8.  A [POST /api/students] whose body is not acceptable (a required
    field missing or empty, or a status outside the enumeration) answers 400
    with a validation error naming at least one field, and never reaches the
    store: the world, trace included, is unchanged. *)
Theorem unacceptable_student_is_rejected
    (w : world) (newId : ObjectId) (now : Z) (b : studentSchema.input)
    (Hbad : ~ acceptable_student b) :
  exists paths,
    paths <> [] /\
    post_api_students newId now b w =
      (Ok (Response 400 (ErrorMessage (ValidationError paths))), w).
Proof.
  unfold post_api_students, Student.save.
  destruct (Student.validate b) as [|p ps] eqn:Hv.
  - destruct Hbad. apply validate_acceptable, Hv.
  - exists (p :: ps). split; [discriminate | reflexivity].
Qed.

Lemma unacceptable_student_is_rejected_witness :
  ~ acceptable_student
      (studentSchema.Input (Some "Dan") (Some EmptyString) None None
         (Some "graduated")) /\
  (exists paths,
    paths <> [] /\
    post_api_students 164%N 1700000100
      (studentSchema.Input (Some "Dan") (Some EmptyString) None None
         (Some "graduated")) campus =
      (Ok (Response 400 (ErrorMessage (ValidationError paths))), campus)).
Proof.
  assert (Hb : ~ acceptable_student
                 (studentSchema.Input (Some "Dan") (Some EmptyString) None None
                    (Some "graduated"))).
  { intros Ha. apply validate_acceptable in Ha. discriminate Ha. }
  split; [exact Hb|].
  apply (unacceptable_student_is_rejected campus 164%N 1700000100 _ Hb).
Defined.

(** ** Course names *)

Lemma unique_names_trace s c t t' :
  unique_names (World s c t) -> unique_names (World s c t').
Proof. intros Hw. exact Hw. Qed.

Lemma Course_save_unique_names newId now b :
  preserves unique_names (Course.save newId now b).
Proof.
  intros w Hw. unfold Course.save.
  destruct (Course.validate b); [|exact Hw]. run.
  destruct (decide (newId ∈ courseSchema._id <$> courses w)); [exact Hw|].
  destruct (decide _); [exact Hw|].
  unfold unique_names. simpl. rewrite fmap_app. simpl.
  apply NoDup_snoc; assumption.
Qed.

Lemma Course_update_unique_names `{Driver} id b now :
  preserves unique_names (Course.findByIdAndUpdate id b now).
Proof.
  intros w Hw. unfold Course.findByIdAndUpdate.
  destruct (castObjectId id) as [oid|]; [|exact Hw]. run.
  destruct (find_by courseSchema._id oid (courses w)) as [d|]; [|exact Hw].
  destruct (decide _); [exact Hw|].
  unfold unique_names. simpl.
  apply replace_by_NoDup; assumption.
Qed.

Lemma Course_delete_unique_names `{Driver} id :
  preserves unique_names (Course.findByIdAndDelete id).
Proof.
  intros w Hw. unfold Course.findByIdAndDelete.
  destruct (castObjectId id) as [oid|]; [|exact Hw]. run.
  destruct (find_by courseSchema._id oid (courses w)) as [d|]; [|exact Hw].
  unfold unique_names. simpl. apply delete_by_NoDup, Hw.
Qed.

Lemma Student_save_unique_names newId now b :
  preserves unique_names (Student.save newId now b).
Proof.
  intros w Hw. unfold Student.save.
  destruct (Student.validate b); [|exact Hw]. run.
  repeat (destruct (decide _); [exact Hw|]). exact Hw.
Qed.

Lemma Student_update_unique_names `{Driver} id b now :
  preserves unique_names (Student.findByIdAndUpdate id b now).
Proof.
  intros w Hw. unfold Student.findByIdAndUpdate.
  destruct (castObjectId id) as [oid|]; [|exact Hw]. run.
  destruct (find_by studentSchema._id oid (students w)) as [d|]; [|exact Hw].
  destruct (decide _); exact Hw.
Qed.

Lemma Student_delete_unique_names `{Driver} id :
  preserves unique_names (Student.findByIdAndDelete id).
Proof.
  intros w Hw. unfold Student.findByIdAndDelete.
  destruct (castObjectId id) as [oid|]; [|exact Hw]. run.
  destruct (find_by studentSchema._id oid (students w)) as [d|]; exact Hw.
Qed.

Lemma route_unique_names `{Driver} (r : request) :
  preserves unique_names (route r).
Proof.
  pose proof unique_names_trace as Ht.
  destruct r; simpl; unfold_routes;
    repeat first
      [ apply Student_save_unique_names
      | apply Student_update_unique_names
      | apply Student_delete_unique_names
      | apply Course_save_unique_names
      | apply Course_update_unique_names
      | apply Course_delete_unique_names
      | progress preserve_routes Ht ].
Qed.

(** X9.  In a store whose courses have pairwise distinct names, a
    [POST /api/courses] whose body carries a name already in use is answered
    400 and leaves both collections as they were, and every route leaves the
    names pairwise distinct. *)
Theorem course_names_stay_unique `{Driver} (w : world)
    (Hinv : unique_names w) :
  (forall newId now b n,
     courseSchema.in_name b = Some n ->
     n ∈ courseSchema.name <$> courses w ->
     exists e w',
       post_api_courses newId now b w =
         (Ok (Response 400 (ErrorMessage e)), w') /\
       same_data w w' /\
       (Course.validate b = [] -> exists path, e = DuplicateKeyError path)) /\
  (forall r, unique_names (snd (route r w))).
Proof.
  split.
  - intros newId now b n Hb Hn.
    unfold post_api_courses, Course.save.
    destruct (Course.validate b) as [|p ps] eqn:Hv.
    + run.
      destruct (decide (newId ∈ courseSchema._id <$> courses w)).
      * eexists _, _. split; [reflexivity|]. split; [split; reflexivity|].
        intros _. eexists. reflexivity.
      * rewrite Hb. simpl.
        destruct (decide (n ∈ courseSchema.name <$> courses w)); [|contradiction].
        eexists _, _. split; [reflexivity|]. split; [split; reflexivity|].
        intros _. eexists. reflexivity.
    + run. eexists _, _. split; [reflexivity|]. split; [split; reflexivity|].
      discriminate.
  - intros r. apply route_unique_names, Hinv.
Qed.

Lemma course_names_stay_unique_witness :
  unique_names campus /\
  ((forall newId now b n,
     courseSchema.in_name b = Some n ->
     n ∈ courseSchema.name <$> courses campus ->
     exists e w',
       post_api_courses newId now b campus =
         (Ok (Response 400 (ErrorMessage e)), w') /\
       same_data campus w' /\
       (Course.validate b = [] -> exists path, e = DuplicateKeyError path)) /\
   (forall r, unique_names (snd (@route hex_driver r campus)))).
Proof.
  assert (Hu : unique_names campus).
  { apply (bool_decide_unpack _); vm_compute; exact I. }
  split; [exact Hu|].
  apply (@course_names_stay_unique hex_driver campus Hu).
Defined.

(** X10.  Every store that can be reached from the empty one by any
    sequence of requests has pairwise distinct identifiers in both
    collections, pairwise distinct student e-mail addresses and pairwise
    distinct course names. *)
Theorem reachable_stores_are_consistent `{Driver} (rs : list request) :
  unique_ids (run_requests rs store_init) /\
  unique_emails (run_requests rs store_init) /\
  unique_names (run_requests rs store_init).
Proof.
  assert (Hgen : forall w, unique_ids w -> unique_emails w -> unique_names w ->
            unique_ids (run_requests rs w) /\
            unique_emails (run_requests rs w) /\
            unique_names (run_requests rs w)).
  { induction rs as [|r rs IH]; intros w Hi He Hn; simpl; [auto|].
    apply IH; [apply route_unique_ids, Hi | apply route_unique_emails, He
              | apply route_unique_names, Hn]. }
  apply Hgen.
  - split; constructor.
  - constructor.
  - constructor.
Qed.

(** ** Updating and deleting students *)

(** X11.  A [PUT /api/students/:id] for an existing student, whose new
    e-mail address is not that of another student, answers 200 with the
    updated record: the fields present in the body are replaced, the others,
    the identifier and the creation time are kept, and the update time is
    set.  The other students and the courses are untouched, and a following
    [GET /api/students/:id] answers 200 with the updated record. *)
Theorem updated_student_can_be_fetched `{Driver}
    (w : world) (id : string) (b : studentSchema.input) (now : Z)
    (d : studentSchema.doc)
    (Hids : NoDup (studentSchema._id <$> students w))
    (Hcast : castObjectId id = Some (studentSchema._id d))
    (Hin : d ∈ students w)
    (Hfree : forall s, s ∈ students w ->
               studentSchema._id s <> studentSchema._id d ->
               studentSchema.email s
                 <> default (studentSchema.email d) (studentSchema.in_email b)) :
  let d' := Student.apply_update b now d in
  exists w1 w2,
    put_api_students_id id b now w = (Ok (Response 200 (StudentJson d')), w1) /\
    studentSchema._id d' = studentSchema._id d /\
    studentSchema.createdAt d' = studentSchema.createdAt d /\
    studentSchema.updatedAt d' = now /\
    studentSchema.name d' = default (studentSchema.name d) (studentSchema.in_name b) /\
    studentSchema.status d'
      = default (studentSchema.status d) (studentSchema.in_status b) /\
    (forall s, s ∈ students w1 <->
       s = d' \/ (s ∈ students w /\ studentSchema._id s <> studentSchema._id d)) /\
    courses w1 = courses w /\
    get_api_students_id id w1 = (Ok (Response 200 (StudentJson d')), w2).
Proof.
  intros d'.
  pose proof (find_by_elem studentSchema._id _ _ d Hids Hin eq_refl) as Hfind.
  assert (Hno : studentSchema.email d'
                  ∉ studentSchema.email
                      <$> delete_by studentSchema._id (studentSchema._id d)
                            (students w)).
  { intros Hx. apply list_elem_of_fmap in Hx as [s [Hs Hsin]].
    apply elem_of_delete_by in Hsin as [Hsin Hk]; [|exact Hids].
    apply (Hfree s Hsin Hk). symmetry. exact Hs. }
  unfold put_api_students_id, Student.findByIdAndUpdate. rewrite Hcast. run.
  rewrite Hfind.
  destruct (decide _) as [Hdup|_]; [destruct (Hno Hdup)|].
  eexists _, _. split; [reflexivity|]. simpl.
  repeat (split; [reflexivity|]).
  split; [intros s; apply (elem_of_replace_by studentSchema._id _ d d' _ s Hids Hfind)|].
  split; [reflexivity|].
  unfold get_api_students_id, Student.findById. run.
  rewrite (proj2 (isValid_true id) (ex_intro _ _ Hcast)), Hcast. simpl.
  match goal with
  | |- context [find_by ?k ?o ?l] =>
      replace (find_by k o l) with (Some d');
      [reflexivity | symmetry; exact (find_by_replace_by k o d d' _ Hfind eq_refl)]
  end.
Qed.

Lemma updated_student_can_be_fetched_witness :
  NoDup (studentSchema._id <$> students campus) /\
  @castObjectId hex_driver "0000000000000000000000a2"
    = Some (studentSchema._id bob) /\
  bob ∈ students campus /\
  (forall s, s ∈ students campus ->
     studentSchema._id s <> studentSchema._id bob ->
     studentSchema.email s
       <> default (studentSchema.email bob)
            (studentSchema.in_email
               (studentSchema.Input None None (Some "CS101") None (Some "active")))) /\
  (let d' := Student.apply_update
               (studentSchema.Input None None (Some "CS101") None (Some "active"))
               1700000100 bob in
   exists w1 w2,
    @put_api_students_id hex_driver "0000000000000000000000a2"
      (studentSchema.Input None None (Some "CS101") None (Some "active"))
      1700000100 campus = (Ok (Response 200 (StudentJson d')), w1) /\
    studentSchema._id d' = studentSchema._id bob /\
    studentSchema.createdAt d' = studentSchema.createdAt bob /\
    studentSchema.updatedAt d' = 1700000100 /\
    studentSchema.name d'
      = default (studentSchema.name bob)
          (studentSchema.in_name
             (studentSchema.Input None None (Some "CS101") None (Some "active"))) /\
    studentSchema.status d'
      = default (studentSchema.status bob)
          (studentSchema.in_status
             (studentSchema.Input None None (Some "CS101") None (Some "active"))) /\
    (forall s, s ∈ students w1 <->
       s = d' \/ (s ∈ students campus /\ studentSchema._id s <> studentSchema._id bob)) /\
    courses w1 = courses campus /\
    @get_api_students_id hex_driver "0000000000000000000000a2" w1
      = (Ok (Response 200 (StudentJson d')), w2)).
Proof.
  assert (Hu : NoDup (studentSchema._id <$> students campus)).
  { apply (bool_decide_unpack _); vm_compute; exact I. }
  assert (Hc : @castObjectId hex_driver "0000000000000000000000a2"
                 = Some (studentSchema._id bob)) by reflexivity.
  assert (Hb : bob ∈ students campus) by (right; left).
  assert (Hf : forall s, s ∈ students campus ->
     studentSchema._id s <> studentSchema._id bob ->
     studentSchema.email s
       <> default (studentSchema.email bob)
            (studentSchema.in_email
               (studentSchema.Input None None (Some "CS101") None (Some "active")))).
  { intros s Hs Hk. apply list_elem_of_In in Hs.
    destruct Hs as [<-|[<-|[]]]; [discriminate | destruct Hk; reflexivity]. }
  split; [exact Hu|]. split; [exact Hc|]. split; [exact Hb|]. split; [exact Hf|].
  apply (@updated_student_can_be_fetched hex_driver campus
           "0000000000000000000000a2" _ 1700000100 bob Hu Hc Hb Hf).
Defined.

(** X12.  A [PUT /api/students/:id] that would give a student the e-mail
    address of another student is answered 400 with the duplicate-key error
    of the index on [email], and nothing is changed. *)
Theorem update_onto_used_email_is_refused `{Driver}
    (w : world) (id : string) (b : studentSchema.input) (now : Z)
    (d other : studentSchema.doc) (e : string)
    (Hids : NoDup (studentSchema._id <$> students w))
    (Hcast : castObjectId id = Some (studentSchema._id d))
    (Hin : d ∈ students w)
    (Hbody : studentSchema.in_email b = Some e)
    (Hother : other ∈ students w)
    (Hdistinct : studentSchema._id other <> studentSchema._id d)
    (Hused : studentSchema.email other = e) :
  exists w',
    put_api_students_id id b now w =
      (Ok (Response 400 (ErrorMessage (DuplicateKeyError "email"))), w') /\
    same_data w w'.
Proof.
  pose proof (find_by_elem studentSchema._id _ _ d Hids Hin eq_refl) as Hfind.
  unfold put_api_students_id, Student.findByIdAndUpdate. rewrite Hcast. run.
  rewrite Hfind, Hbody. simpl.
  destruct (decide _) as [_|Hno].
  - eexists. split; [reflexivity | split; reflexivity].
  - destruct Hno. apply list_elem_of_fmap. exists other.
    split; [symmetry; exact Hused|].
    apply elem_of_delete_by; [exact Hids | split; assumption].
Qed.

Lemma update_onto_used_email_is_refused_witness :
  NoDup (studentSchema._id <$> students campus) /\
  @castObjectId hex_driver "0000000000000000000000a2"
    = Some (studentSchema._id bob) /\
  bob ∈ students campus /\
  studentSchema.in_email
    (studentSchema.Input None (Some "alice@example") None None None)
    = Some "alice@example" /\
  alice ∈ students campus /\
  studentSchema._id alice <> studentSchema._id bob /\
  studentSchema.email alice = "alice@example" /\
  (exists w',
    @put_api_students_id hex_driver "0000000000000000000000a2"
      (studentSchema.Input None (Some "alice@example") None None None)
      1700000100 campus =
      (Ok (Response 400 (ErrorMessage (DuplicateKeyError "email"))), w') /\
    same_data campus w').
Proof.
  assert (Hu : NoDup (studentSchema._id <$> students campus)).
  { apply (bool_decide_unpack _); vm_compute; exact I. }
  assert (Hc : @castObjectId hex_driver "0000000000000000000000a2"
                 = Some (studentSchema._id bob)) by reflexivity.
  assert (Hb : bob ∈ students campus) by (right; left).
  assert (Ha : alice ∈ students campus) by left.
  assert (Hd : studentSchema._id alice <> studentSchema._id bob) by discriminate.
  split; [exact Hu|]. split; [exact Hc|]. split; [exact Hb|].
  split; [reflexivity|]. split; [exact Ha|]. split; [exact Hd|].
  split; [reflexivity|].
  apply (@update_onto_used_email_is_refused hex_driver campus
           "0000000000000000000000a2"
           (studentSchema.Input None (Some "alice@example") None None None)
           1700000100 bob alice "alice@example"
           Hu Hc Hb eq_refl Ha Hd eq_refl).
Defined.

(** X13.  A [DELETE /api/students/:id] for an existing student answers 200;
    exactly that student is removed, the courses are untouched, and a
    following [GET /api/students/:id] answers 404. *)
Theorem deleted_student_is_gone `{Driver}
    (w : world) (id : string) (d : studentSchema.doc)
    (Hids : NoDup (studentSchema._id <$> students w))
    (Hcast : castObjectId id = Some (studentSchema._id d))
    (Hin : d ∈ students w) :
  exists w1 w2,
    delete_api_students_id id w =
      (Ok (Response 200 (Message "Student deleted successfully")), w1) /\
    (forall s, s ∈ students w1 <->
       s ∈ students w /\ studentSchema._id s <> studentSchema._id d) /\
    courses w1 = courses w /\
    get_api_students_id id w1 =
      (Ok (Response 404 (Message "Student not found")), w2).
Proof.
  pose proof (find_by_elem studentSchema._id _ _ d Hids Hin eq_refl) as Hfind.
  unfold delete_api_students_id, Student.findByIdAndDelete. rewrite Hcast. run.
  rewrite Hfind.
  eexists _, _. split; [reflexivity|]. simpl.
  split; [intros s; apply elem_of_delete_by, Hids|].
  split; [reflexivity|].
  unfold get_api_students_id, Student.findById. run.
  rewrite (proj2 (isValid_true id) (ex_intro _ _ Hcast)), Hcast. simpl.
  rewrite (find_by_delete_by studentSchema._id _ _ Hids). reflexivity.
Qed.

Lemma deleted_student_is_gone_witness :
  NoDup (studentSchema._id <$> students campus) /\
  @castObjectId hex_driver "0000000000000000000000a1"
    = Some (studentSchema._id alice) /\
  alice ∈ students campus /\
  (exists w1 w2,
    @delete_api_students_id hex_driver "0000000000000000000000a1" campus =
      (Ok (Response 200 (Message "Student deleted successfully")), w1) /\
    (forall s, s ∈ students w1 <->
       s ∈ students campus /\ studentSchema._id s <> studentSchema._id alice) /\
    courses w1 = courses campus /\
    @get_api_students_id hex_driver "0000000000000000000000a1" w1 =
      (Ok (Response 404 (Message "Student not found")), w2)).
Proof.
  assert (Hu : NoDup (studentSchema._id <$> students campus)).
  { apply (bool_decide_unpack _); vm_compute; exact I. }
  assert (Hc : @castObjectId hex_driver "0000000000000000000000a1"
                 = Some (studentSchema._id alice)) by reflexivity.
  assert (Ha : alice ∈ students campus) by left.
  split; [exact Hu|]. split; [exact Hc|]. split; [exact Ha|].
  apply (@deleted_student_is_gone hex_driver campus
           "0000000000000000000000a1" alice Hu Hc Ha).
Defined.

(** ** Identifiers that are absent or malformed *)

(** X14.  For a well-formed identifier that no student and no course has,
    the update and the deletion of a student, and the update and the fetch
    of a course, answer 404 and change nothing; so does the deletion of a
    course when no student's [course] field equals the identifier. *)
Theorem absent_identifier_is_not_found `{Driver}
    (w : world) (id : string) (oid : ObjectId)
    (bs : studentSchema.input) (bc : courseSchema.input) (now : Z)
    (Hcast : castObjectId id = Some oid)
    (Hs : forall s, s ∈ students w -> studentSchema._id s <> oid)
    (Hc : forall c, c ∈ courses w -> courseSchema._id c <> oid) :
  (exists w', put_api_students_id id bs now w =
                (Ok (Response 404 (Message "Student not found")), w') /\
              same_data w w') /\
  (exists w', delete_api_students_id id w =
                (Ok (Response 404 (Message "Student not found")), w') /\
              same_data w w') /\
  (exists w', put_api_courses_id id bc now w =
                (Ok (Response 404 (Message "Course not found")), w') /\
              same_data w w') /\
  (exists w', get_api_courses_id id w =
                (Ok (Response 404 (Message "Course not found")), w') /\
              same_data w w') /\
  ((forall s, s ∈ students w -> studentSchema.course s <> id) ->
   exists w', delete_api_courses_id id w =
                (Ok (Response 404 (Message "Course not found")), w') /\
              same_data w w').
Proof.
  apply find_by_None in Hs. apply find_by_None in Hc.
  repeat split.
  - unfold put_api_students_id, Student.findByIdAndUpdate. rewrite Hcast. run.
    rewrite Hs. eexists. split; [reflexivity | split; reflexivity].
  - unfold delete_api_students_id, Student.findByIdAndDelete. rewrite Hcast. run.
    rewrite Hs. eexists. split; [reflexivity | split; reflexivity].
  - unfold put_api_courses_id, Course.findByIdAndUpdate. rewrite Hcast. run.
    rewrite Hc. eexists. split; [reflexivity | split; reflexivity].
  - unfold get_api_courses_id, Course.findById. rewrite Hcast. run.
    rewrite Hc. eexists. split; [reflexivity | split; reflexivity].
  - intros Hfree.
    unfold delete_api_courses_id, Student.countDocuments,
      Course.findByIdAndDelete. run.
    rewrite (count_zero _ (students w) Hfree). simpl. rewrite Hcast. simpl.
    rewrite Hc. eexists. split; [reflexivity | split; reflexivity].
Qed.

Lemma absent_identifier_is_not_found_witness :
  @castObjectId hex_driver "0000000000000000000000ff" = Some 255%N /\
  (forall s, s ∈ students campus -> studentSchema._id s <> 255%N) /\
  (forall c, c ∈ courses campus -> courseSchema._id c <> 255%N) /\
  ((exists w', @put_api_students_id hex_driver "0000000000000000000000ff"
                 carol 1700000100 campus =
                (Ok (Response 404 (Message "Student not found")), w') /\
              same_data campus w') /\
   (exists w', @delete_api_students_id hex_driver "0000000000000000000000ff" campus =
                (Ok (Response 404 (Message "Student not found")), w') /\
              same_data campus w') /\
   (exists w', @put_api_courses_id hex_driver "0000000000000000000000ff"
                 (courseSchema.Input None None None None) 1700000100 campus =
                (Ok (Response 404 (Message "Course not found")), w') /\
              same_data campus w') /\
   (exists w', @get_api_courses_id hex_driver "0000000000000000000000ff" campus =
                (Ok (Response 404 (Message "Course not found")), w') /\
              same_data campus w') /\
   ((forall s, s ∈ students campus ->
       studentSchema.course s <> "0000000000000000000000ff") ->
    exists w', @delete_api_courses_id hex_driver "0000000000000000000000ff" campus =
                (Ok (Response 404 (Message "Course not found")), w') /\
              same_data campus w')).
Proof.
  assert (Hc : @castObjectId hex_driver "0000000000000000000000ff" = Some 255%N)
    by reflexivity.
  assert (Hs : forall s, s ∈ students campus -> studentSchema._id s <> 255%N).
  { intros s Hs. apply list_elem_of_In in Hs.
    destruct Hs as [<-|[<-|[]]]; discriminate. }
  assert (Hk : forall c, c ∈ courses campus -> courseSchema._id c <> 255%N).
  { intros c Hin. apply list_elem_of_In in Hin.
    destruct Hin as [<-|[<-|[]]]; discriminate. }
  split; [exact Hc|]. split; [exact Hs|]. split; [exact Hk|].
  apply (@absent_identifier_is_not_found hex_driver campus
           "0000000000000000000000ff" 255%N carol
           (courseSchema.Input None None None None) 1700000100 Hc Hs Hk).
Defined.

(** X15.  For an identifier that the driver cannot cast, the routes differ:
    the fetch of a student answers 400 after its own format check, the
    updates answer 400 and the fetch of a course and the deletion of a
    student answer 500, each with the cast error and without a round trip
    to the store; the deletion of a course answers 500 after the student
    count, when no student's [course] field equals the string.  Nothing is
    changed in any of these cases. *)
Theorem malformed_identifier_responses `{Driver}
    (w : world) (id : string)
    (bs : studentSchema.input) (bc : courseSchema.input) (now : Z)
    (Hbad : castObjectId id = None) :
  get_api_students_id id w =
    (Ok (Response 400 (Message "Invalid student ID format")), w) /\
  put_api_students_id id bs now w =
    (Ok (Response 400 (ErrorMessage (CastError id))), w) /\
  put_api_courses_id id bc now w =
    (Ok (Response 400 (ErrorMessage (CastError id))), w) /\
  get_api_courses_id id w =
    (Ok (Response 500 (ErrorMessage (CastError id))), w) /\
  delete_api_students_id id w =
    (Ok (Response 500 (ErrorMessage (CastError id))), w) /\
  ((forall s, s ∈ students w -> studentSchema.course s <> id) ->
   delete_api_courses_id id w =
     (Ok (Response 500 (ErrorMessage (CastError id))),
      World (students w) (courses w) (trace w ++ [StudentOp "countDocuments"]))).
Proof.
  repeat split.
  - unfold get_api_students_id. run.
    rewrite (proj2 (isValid_false id) Hbad). reflexivity.
  - unfold put_api_students_id, Student.findByIdAndUpdate. rewrite Hbad. reflexivity.
  - unfold put_api_courses_id, Course.findByIdAndUpdate. rewrite Hbad. reflexivity.
  - unfold get_api_courses_id, Course.findById. rewrite Hbad. reflexivity.
  - unfold delete_api_students_id, Student.findByIdAndDelete. rewrite Hbad. reflexivity.
  - intros Hfree.
    unfold delete_api_courses_id, Student.countDocuments,
      Course.findByIdAndDelete. run.
    rewrite (count_zero _ (students w) Hfree). simpl. rewrite Hbad. reflexivity.
Qed.

Lemma malformed_identifier_responses_witness :
  @castObjectId hex_driver "not-an-id" = None /\
  (@get_api_students_id hex_driver "not-an-id" campus =
    (Ok (Response 400 (Message "Invalid student ID format")), campus) /\
   @put_api_students_id hex_driver "not-an-id" carol 1700000100 campus =
    (Ok (Response 400 (ErrorMessage (CastError "not-an-id"))), campus) /\
   @put_api_courses_id hex_driver "not-an-id"
      (courseSchema.Input None None None None) 1700000100 campus =
    (Ok (Response 400 (ErrorMessage (CastError "not-an-id"))), campus) /\
   @get_api_courses_id hex_driver "not-an-id" campus =
    (Ok (Response 500 (ErrorMessage (CastError "not-an-id"))), campus) /\
   @delete_api_students_id hex_driver "not-an-id" campus =
    (Ok (Response 500 (ErrorMessage (CastError "not-an-id"))), campus) /\
   ((forall s, s ∈ students campus -> studentSchema.course s <> "not-an-id") ->
    @delete_api_courses_id hex_driver "not-an-id" campus =
     (Ok (Response 500 (ErrorMessage (CastError "not-an-id"))),
      World (students campus) (courses campus)
        (trace campus ++ [StudentOp "countDocuments"])))).
Proof.
  assert (Hb : @castObjectId hex_driver "not-an-id" = None) by reflexivity.
  split; [exact Hb|].
  apply (@malformed_identifier_responses hex_driver campus "not-an-id" carol
           (courseSchema.Input None None None None) 1700000100 Hb).
Defined.

(** ** Creating and deleting courses *)

Lemma Course_required_string_nil (path : string) (v : option string) :
  Course.required_string path v = [] ->
  exists s, v = Some s /\ s <> EmptyString.
Proof.
  unfold Course.required_string. destruct v as [s|]; [|discriminate].
  destruct (decide (s = EmptyString)); [discriminate|].
  intros _. exists s. auto.
Qed.

(** X16.  Creating a course and then deleting it gives back the data one
    started from: with a body that passes validation, a fresh identifier
    and a name not in use, [POST /api/courses] answers 201 with the new
    record (status "active" unless the body says otherwise), and when no
    student's [course] field equals its identifier string the following
    [DELETE /api/courses/:id] answers 200 and both collections are as
    before the creation. *)
Theorem created_course_can_be_deleted `{Driver}
    (w : world) (newId : ObjectId) (now : Z) (b : courseSchema.input)
    (id : string)
    (Hvalid : Course.validate b = [])
    (Hid : newId ∉ courseSchema._id <$> courses w)
    (Hname : forall n, courseSchema.in_name b = Some n ->
               n ∉ courseSchema.name <$> courses w)
    (Hcast : castObjectId id = Some newId)
    (Hfree : forall s, s ∈ students w -> studentSchema.course s <> id) :
  let c := Course.new newId now b in
  exists w1 w2,
    post_api_courses newId now b w = (Ok (Response 201 (CourseJson c)), w1) /\
    courses w1 = courses w ++ [c] /\
    (courseSchema.in_status b = None -> courseSchema.status c = "active") /\
    delete_api_courses_id id w1 =
      (Ok (Response 200 (Message "Course deleted successfully")), w2) /\
    same_data w w2.
Proof.
  intros c.
  assert (Hn : exists n, courseSchema.in_name b = Some n).
  { unfold Course.validate in Hvalid. apply app_nil in Hvalid as [Hv _].
    apply Course_required_string_nil in Hv as [n [Hn _]]. exists n. exact Hn. }
  destruct Hn as [n Hn].
  unfold post_api_courses, Course.save. rewrite Hvalid. run.
  destruct (decide (newId ∈ courseSchema._id <$> courses w)); [contradiction|].
  rewrite Hn. simpl.
  destruct (decide (n ∈ courseSchema.name <$> courses w)) as [Hin|_];
    [destruct (Hname n Hn Hin)|].
  eexists _, _. split; [reflexivity|]. simpl.
  split; [reflexivity|].
  split; [intros Hs; unfold c, Course.new; simpl; rewrite Hs; reflexivity|].
  unfold delete_api_courses_id, Student.countDocuments,
    Course.findByIdAndDelete. run.
  rewrite (count_zero _ (students w) Hfree). simpl. rewrite Hcast. simpl.
  rewrite (find_by_snoc_fresh courseSchema._id newId (courses w)
             (Course.new newId now b) Hid eq_refl).
  simpl. split; [reflexivity|]. split; [reflexivity|]. simpl.
  apply (delete_by_snoc_fresh courseSchema._id newId (courses w)
           (Course.new newId now b) Hid eq_refl).
Qed.

Lemma created_course_can_be_deleted_witness :
  Course.validate
    (courseSchema.Input (Some "Topology") (Some "Point-set topology") (Some 10) None)
    = [] /\
  (12%N ∉ courseSchema._id <$> courses campus) /\
  (forall n,
     courseSchema.in_name
       (courseSchema.Input (Some "Topology") (Some "Point-set topology") (Some 10) None)
       = Some n ->
     n ∉ courseSchema.name <$> courses campus) /\
  @castObjectId hex_driver "00000000000000000000000c" = Some 12%N /\
  (forall s, s ∈ students campus ->
     studentSchema.course s <> "00000000000000000000000c") /\
  (let c := Course.new 12%N 1700000100
              (courseSchema.Input (Some "Topology") (Some "Point-set topology")
                 (Some 10) None) in
   exists w1 w2,
    post_api_courses 12%N 1700000100
      (courseSchema.Input (Some "Topology") (Some "Point-set topology") (Some 10) None)
      campus = (Ok (Response 201 (CourseJson c)), w1) /\
    courses w1 = courses campus ++ [c] /\
    (courseSchema.in_status
       (courseSchema.Input (Some "Topology") (Some "Point-set topology") (Some 10) None)
       = None -> courseSchema.status c = "active") /\
    @delete_api_courses_id hex_driver "00000000000000000000000c" w1 =
      (Ok (Response 200 (Message "Course deleted successfully")), w2) /\
    same_data campus w2).
Proof.
  assert (Hv : Course.validate
    (courseSchema.Input (Some "Topology") (Some "Point-set topology") (Some 10) None)
    = []) by reflexivity.
  assert (Hi : 12%N ∉ courseSchema._id <$> courses campus).
  { apply (bool_decide_unpack _); vm_compute; exact I. }
  assert (Hn : forall n,
     courseSchema.in_name
       (courseSchema.Input (Some "Topology") (Some "Point-set topology") (Some 10) None)
       = Some n ->
     n ∉ courseSchema.name <$> courses campus).
  { intros n [= <-]. apply (bool_decide_unpack _); vm_compute; exact I. }
  assert (Hc : @castObjectId hex_driver "00000000000000000000000c" = Some 12%N)
    by reflexivity.
  assert (Hf : forall s, s ∈ students campus ->
     studentSchema.course s <> "00000000000000000000000c").
  { intros s Hs. apply list_elem_of_In in Hs.
    destruct Hs as [<-|[<-|[]]]; discriminate. }
  split; [exact Hv|]. split; [exact Hi|]. split; [exact Hn|].
  split; [exact Hc|]. split; [exact Hf|].
  apply (@created_course_can_be_deleted hex_driver campus 12%N 1700000100
           (courseSchema.Input (Some "Topology") (Some "Point-set topology")
              (Some 10) None)
           "00000000000000000000000c" Hv Hi Hn Hc Hf).
Defined.

(** ** Listings *)

Global Instance name_asc_total : Total Course.name_asc.
Proof. intros a b. unfold Course.name_asc. apply String.le_total. Qed.

Global Instance name_asc_trans : Transitive Course.name_asc.
Proof.
  intros a b c. unfold Course.name_asc. intros Hab Hbc.
  etransitivity; eassumption.
Qed.

Global Instance createdAt_desc_total : Total Student.createdAt_desc.
Proof. intros a b. unfold Student.createdAt_desc. lia. Qed.

Global Instance createdAt_desc_trans : Transitive Student.createdAt_desc.
Proof. intros a b c. unfold Student.createdAt_desc. lia. Qed.

Lemma StronglySorted_lookup {A : Type} (R : A -> A -> Prop) (l : list A)
    (i j : nat) (a b : A) :
  StronglySorted R l -> (i < j)%nat ->
  l !! i = Some a -> l !! j = Some b -> R a b.
Proof.
  intros Hs. revert i j. induction Hs as [|x l Hs IH Hall]; intros i j Hij Hi Hj.
  - rewrite lookup_nil in Hi. discriminate.
  - destruct j as [|j]; [lia|]. destruct i as [|i]; simpl in *.
    + injection Hi as <-. rewrite Forall_forall in Hall.
      apply Hall. eapply list_elem_of_lookup_2. exact Hj.
    + apply (IH i j); [lia | assumption | assumption].
Qed.

(** X17.  [GET /api/courses] answers 200 with all the courses, each as
    often as it is stored, in ascending order of name: of two courses in
    the answer, the earlier one has the smaller or equal name.  The data
    are unchanged. *)
Theorem courses_are_listed_by_name (w : world) :
  exists l w',
    get_api_courses w = (Ok (Response 200 (CoursesJson l)), w') /\
    l ≡ₚ courses w /\
    (forall i j a b, (i < j)%nat -> l !! i = Some a -> l !! j = Some b ->
       String.le (courseSchema.name a) (courseSchema.name b)) /\
    same_data w w'.
Proof.
  unfold get_api_courses, Course.find_sort_name_asc. run.
  eexists _, _. split; [reflexivity|].
  split; [apply merge_sort_Permutation|].
  split; [|split; reflexivity].
  intros i j a b Hij Hi Hj.
  apply (StronglySorted_lookup Course.name_asc _ i j a b
           (StronglySorted_merge_sort Course.name_asc (courses w)) Hij Hi Hj).
Qed.

(** X18.  [GET /api/students] answers 200 with all the students, each as
    often as it is stored, newest first: of two students in the answer, the
    earlier one was created at the same time or later.  The data are
    unchanged. *)
Theorem students_are_listed_newest_first (w : world) :
  exists l w',
    get_api_students w = (Ok (Response 200 (StudentsJson l)), w') /\
    l ≡ₚ students w /\
    (forall i j a b, (i < j)%nat -> l !! i = Some a -> l !! j = Some b ->
       studentSchema.createdAt b <= studentSchema.createdAt a) /\
    same_data w w'.
Proof.
  unfold get_api_students, Student.find_sort_createdAt_desc. run.
  eexists _, _. split; [reflexivity|].
  split; [apply merge_sort_Permutation|].
  split; [|split; reflexivity].
  intros i j a b Hij Hi Hj.
  apply (StronglySorted_lookup Student.createdAt_desc _ i j a b
           (StronglySorted_merge_sort Student.createdAt_desc (students w))
           Hij Hi Hj).
Qed.

Example courses_listing_on_sample :
  fst (get_api_courses (World [] [logic; algebra] []))
  = Ok (Response 200 (CoursesJson [algebra; logic])).
Proof. reflexivity. Qed.

Example students_listing_on_sample :
  fst (get_api_students campus) = Ok (Response 200 (StudentsJson [bob; alice])).
Proof. reflexivity. Qed.

(** ** What the routes never do *)

(** X19.  No route registered with [app.get] changes the data: after a
    listing, a fetch, a search or the statistics, both collections are what
    they were, whatever the answer. *)
Theorem reads_never_write `{Driver} (r : request) (w : world)
    (Hget : is_GET r = true) :
  same_data w (snd (route r w)).
Proof.
  set (I := fun w' : world => same_data w w').
  assert (Ht : forall s c t t', I (World s c t) -> I (World s c t')).
  { intros s c t t' HI. exact HI. }
  assert (Hp : preserves I (route r)).
  { destruct r; try discriminate Hget; simpl; unfold_routes;
      preserve_routes Ht. }
  apply Hp. split; reflexivity.
Qed.

Lemma reads_never_write_witness :
  is_GET (GET_students_search "a.c") = true /\
  same_data campus (snd (@route hex_driver (GET_students_search "a.c") campus)).
Proof.
  split; [reflexivity|].
  apply (@reads_never_write hex_driver (GET_students_search "a.c") campus).
  reflexivity.
Defined.

Lemma returns_within_bind {A : Type} (codes : list nat) (m : M A)
    (f : A -> M response) :
  (forall a, returns_within codes (f a)) -> returns_within codes (m ≫= f).
Proof.
  intros Hf w resp w' Hrun. unfold mbind, M_bind in Hrun.
  destruct (m w) as [[a|e] w1]; [|discriminate].
  apply (Hf a w1 resp w' Hrun).
Qed.

Lemma returns_within_respond (codes : list nat) (c : nat) (b : json) :
  c ∈ codes -> returns_within codes (respond c b).
Proof. intros Hc w resp w' [= <- _]. exact Hc. Qed.

Lemma try_catch_answers (codes : list nat) (m : M response) (c : nat)
    (w : world) :
  returns_within codes m -> c ∈ codes ->
  exists resp w',
    try_catch m (fun error => respond c (ErrorMessage error)) w = (Ok resp, w') /\
    statusCode resp ∈ codes.
Proof.
  intros Hm Hc. unfold try_catch.
  destruct (m w) as [[resp|e] w1] eqn:Hrun.
  - exists resp, w1. split; [reflexivity | apply (Hm w resp w1 Hrun)].
  - eexists _, _. split; [reflexivity | exact Hc].
Qed.

Ltac code_in := simpl; rewrite ?elem_of_cons; auto 10.

Ltac within_step :=
  match goal with
  | |- returns_within _ (mbind _ _) => apply returns_within_bind; intro
  | |- returns_within _ (respond _ _) => apply returns_within_respond; code_in
  | |- returns_within _ (match ?x with _ => _ end) => destruct x
  end.

(** X20.  Every route answers, whatever the store holds and whatever the
    driver throws, and only with a status code written in its own handler:
    the listings, the search and the statistics with 200 or 500, the
    creations with 201 or 400, the updates with 200, 400 or 404, the fetch
    of a course and the deletion of a student with 200, 404 or 500, the
    fetch of a student and the deletion of a course with 200, 400, 404 or
    500. *)
Theorem routes_answer_within_their_codes `{Driver} (r : request) (w : world) :
  exists resp w',
    route r w = (Ok resp, w') /\ statusCode resp ∈ codes_of r.
Proof.
  destruct r; simpl route; unfold_routes;
    (apply try_catch_answers; [repeat within_step | code_in]).
Qed.

(** ** More on the dashboard *)

(** X21.  The statistics are read with six round trips and change nothing.
    The per-course breakdown has one entry for each course value carried by
    at least one student, holding the number of students with that value,
    and no entry for any other value; the active and inactive students are
    at most the students, the active courses at most the courses. *)
Theorem dashboard_breakdown (w : world) :
  exists stats w',
    getDashboardStats w = (Ok stats, w') /\
    same_data w w' /\
    length (trace w') = (length (trace w) + 6)%nat /\
    (forall c,
       courseCounts stats !! c =
         match length (filter (fun s => studentSchema.course s = c) (students w)) with
         | O => None
         | S n => Some (S n)
         end) /\
    (activeStudents stats <= totalStudents stats)%nat /\
    (graduates stats <= totalStudents stats)%nat /\
    (activeCourses stats <= totalCourses stats)%nat /\
    totalCourses stats = length (courses w).
Proof.
  eexists _, _. split; [apply getDashboardStats_value|]. simpl.
  split; [split; reflexivity|].
  split; [rewrite length_app; reflexivity|].
  split; [intros c; apply group_by_course_lookup|].
  repeat split; apply length_filter.
Qed.

Example dashboard_on_sample :
  match getDashboardStats campus with
  | (Ok stats, _) =>
      (totalStudents stats, activeStudents stats, graduates stats,
       totalCourses stats, activeCourses stats, successRate stats)
      = (2%nat, 1%nat, 1%nat, 2%nat, 2%nat, 50) /\
      courseCounts stats !! "CS101" = Some 1%nat /\
      courseCounts stats !! "Algebra" = None
  | _ => False
  end.
Proof. vm_compute. repeat split. Qed.

(** ** More on the search *)

Lemma filter_all {A : Type} (P : A -> Prop) `{!forall x, Decision (P x)}
    (l : list A) :
  (forall x, P x) -> filter P l = l.
Proof.
  intros HP. induction l as [|x l IH]; [reflexivity|].
  rewrite filter_cons_True by apply HP. rewrite IH. reflexivity.
Qed.

(** X22.  A search with the empty query answers 200 with every student, in
    the order of the collection. *)
Theorem search_with_empty_query `{Driver} (w : world) :
  get_api_students_search EmptyString w =
    (Ok (Response 200 (StudentsJson (students w))),
     World (students w) (courses w) (trace w ++ [StudentOp "find"])).
Proof.
  unfold get_api_students_search, Student.find_or_regex, regex_i. run.
  rewrite filter_all; [reflexivity|].
  intros d. destruct (studentSchema.name d); exact I.
Qed.

Lemma compile_char_fits (qc : ascii) (a : atom) (c : ascii) :
  compile_char qc = Some a ->
  atom_matches a c = true <-> char_fits qc c.
Proof.
  unfold compile_char, char_fits.
  destruct (decide (qc = "."%char)) as [_|_].
  - intros [= <-]. simpl. rewrite negb_true_iff, bool_decide_eq_false. reflexivity.
  - destruct (is_meta qc); [discriminate|].
    intros [= <-]. simpl. rewrite bool_decide_eq_true. reflexivity.
Qed.

Lemma match_here_fits (q : string) (p : list atom) (s : string) :
  compile q = Some p ->
  match_here p s = true <->
  exists mid post,
    s = mid +:+ post /\
    Forall2 char_fits (list_ascii_of_string q) (list_ascii_of_string mid).
Proof.
  revert p s. induction q as [|qc q IH]; intros p s Hc; simpl in Hc.
  - injection Hc as <-. simpl. split; [|reflexivity].
    intros _. exists EmptyString, s. split; [reflexivity | constructor].
  - destruct (compile_char qc) as [a|] eqn:Ha; [|discriminate].
    destruct (compile q) as [p'|] eqn:Hp; [|discriminate].
    injection Hc as <-. specialize (IH p').
    destruct s as [|c s]; simpl.
    + split; [discriminate|].
      intros [mid [post [Hs HF]]]. inversion HF as [|? c' ? l' ? ? Hq Hm]; subst.
      destruct mid; [discriminate Hm | discriminate Hs].
    + rewrite andb_true_iff, (compile_char_fits qc a c Ha), (IH s eq_refl). split.
      * intros [Hfit [mid [post [-> HF]]]].
        exists (String c mid), post. split; [reflexivity|].
        simpl. constructor; assumption.
      * intros [mid [post [Hs HF]]].
        destruct mid as [|c' mid]; [inversion HF|].
        rewrite append_String in Hs. injection Hs as <- ->.
        simpl in HF. inversion HF; subst.
        split; [assumption | exists mid, post; auto].
Qed.

Lemma match_anywhere_hits (q : string) (p : list atom) (s : string) :
  compile q = Some p -> match_anywhere p s = true <-> hits q s.
Proof.
  intros Hc. rewrite match_anywhere_spec. unfold hits. split.
  - intros [pre [suf [-> Hm]]].
    apply (match_here_fits q p suf Hc) in Hm as [mid [post [-> HF]]].
    exists pre, mid, post. auto.
  - intros [pre [mid [post [-> HF]]]].
    exists pre, (mid +:+ post). split; [reflexivity|].
    apply (match_here_fits q p _ Hc). exists mid, post. auto.
Qed.

Lemma dotted_compiles (q : string) : dotted q -> exists p, compile q = Some p.
Proof.
  induction q as [|c q IH]; intros Hq; [exists []; reflexivity|].
  destruct IH as [p Hp].
  { intros c' Hc'. apply Hq. simpl. right. exact Hc'. }
  simpl. rewrite Hp. unfold compile_char.
  destruct (decide (c = "."%char)); [eexists; reflexivity|].
  destruct (Hq c) as [Hdot|Hmeta]; [simpl; left | contradiction |].
  rewrite Hmeta. eexists. reflexivity.
Qed.

(** X23.  For a query made of ordinary characters and dots, the search
    answers 200 with exactly the students one of whose name, course or
    e-mail address has a substring of the length of the query that fits it
    character by character: an ordinary character fits itself, letter case
    ignored, and a dot fits any character except a newline.  The answer is
    a sublist of the collection and the data are unchanged. *)
Theorem search_with_dots `{Driver} (w : world) (q : string)
    (Hq : dotted q) :
  exists l w',
    get_api_students_search q w = (Ok (Response 200 (StudentsJson l)), w') /\
    same_data w w' /\
    (forall s, s ∈ l <->
       s ∈ students w /\
       (hits q (studentSchema.name s) \/ hits q (studentSchema.course s) \/
        hits q (studentSchema.email s))) /\
    l `sublist_of` students w.
Proof.
  destruct (dotted_compiles q Hq) as [p Hp].
  unfold get_api_students_search, Student.find_or_regex, regex_i.
  rewrite Hp. run.
  eexists _, _. split; [reflexivity|]. split; [split; reflexivity|]. split.
  - intros s. rewrite list_elem_of_filter.
    rewrite <- !(match_anywhere_hits q p _ Hp).
    rewrite !orb_True, !Is_true_true. tauto.
  - apply sublist_filter.
Qed.

Lemma search_with_dots_witness :
  dotted "b.b" /\
  (exists l w',
    @get_api_students_search hex_driver "b.b" campus
      = (Ok (Response 200 (StudentsJson l)), w') /\
    same_data campus w' /\
    (forall s, s ∈ l <->
       s ∈ students campus /\
       (hits "b.b" (studentSchema.name s) \/ hits "b.b" (studentSchema.course s) \/
        hits "b.b" (studentSchema.email s))) /\
    l `sublist_of` students campus).
Proof.
  assert (Hd : dotted "b.b").
  { intros c Hc. apply list_elem_of_In in Hc. simpl in Hc.
    destruct Hc as [<-|[<-|[<-|[]]]]; [right | left | right]; reflexivity. }
  split; [exact Hd|].
  apply (@search_with_dots hex_driver campus "b.b" Hd).
Defined.

Example search_dots_on_sample :
  fst (@get_api_students_search hex_driver "b.b" campus)
  = Ok (Response 200 (StudentsJson [bob])).
Proof. reflexivity. Qed.

(** A pattern that the store rejects gives 500 and changes nothing. *)
Example search_rejected_pattern :
  @get_api_students_search hex_driver "(" campus
  = (Ok (Response 500 (ErrorMessage (RegexError "("))),
     World (students campus) (courses campus) [StudentOp "find"]).
Proof. reflexivity. Qed.

(** ** Health *)

Lemma Qfloor_unique (x : Q) (z : Z) :
  (inject_Z z <= x)%Q -> (x < inject_Z (z + 1))%Q -> Qfloor x = z.
Proof.
  intros Hle Hlt.
  pose proof (Qfloor_le x) as H1. pose proof (Qlt_floor x) as H2.
  assert (Ha : (inject_Z z < inject_Z (Qfloor x + 1))%Q)
    by (eapply Qle_lt_trans; eassumption).
  assert (Hb : (inject_Z (Qfloor x) < inject_Z (z + 1))%Q)
    by (eapply Qle_lt_trans; eassumption).
  rewrite <- Zlt_Qlt in Ha, Hb. lia.
Qed.

(** [Math.round] against the floor: equal when the fraction is below one
    half, one more otherwise. *)
Lemma Math_round_exact_floor (x : Q) :
  ((x - inject_Z (Qfloor x) < 1 # 2)%Q -> Math_round_exact x = Qfloor x) /\
  ((1 # 2 <= x - inject_Z (Qfloor x))%Q -> Math_round_exact x = Qfloor x + 1).
Proof.
  pose proof (Qfloor_le x) as H1. pose proof (Qlt_floor x) as H2.
  rewrite inject_Z_plus in H2.
  unfold Math_round_exact. split; intros Hf; apply Qfloor_unique;
    rewrite ?inject_Z_plus; change (inject_Z 1) with 1%Q in *;
    set (f := inject_Z (Qfloor x)) in *; clearbody f; lra.
Qed.

(** X24.  In the detailed health report the two uptime fields are rounded
    differently: [formatted] renders the whole seconds elapsed, and
    [seconds] is that number when the fraction of the current second is
    below one half and one more otherwise.  The report is always a 200 with
    status "UP". *)
Theorem health_uptime_fields (p : process) (c : connection) :
  let t := Qfloor (uptime p) in
  let report := snd (get_health_detailed p c) in
  fst (get_health_detailed p c) = 200%nat /\
  health_status report = "UP" /\
  uptime_formatted report = formatUptime (inject_Z t) /\
  ((uptime p - inject_Z t < 1 # 2)%Q -> uptime_seconds report = t) /\
  ((1 # 2 <= uptime p - inject_Z t)%Q -> uptime_seconds report = t + 1).
Proof.
  intros t report. split; [reflexivity|]. split; [reflexivity|].
  split.
  - unfold report. simpl. unfold formatUptime.
    replace (Qfloor (inject_Z t)) with t; [reflexivity|].
    symmetry. apply Qfloor_Z.
  - apply Math_round_exact_floor.
Qed.

Example health_uptime_on_sample :
  let report :=
    snd (get_health_detailed
           (Process (119 # 2) 52428800 31457280 None "v18.0.0" "linux" 0)
           (Connection 1 None)) in
  (uptime_seconds report, uptime_formatted report, memory_total report,
   memory_used report, database_status report, database_host report,
   environment report)
  = (60, "59s", 50, 30, "Connected", "N/A", "development").
Proof. reflexivity. Qed.
